(** * Pinterest downloader: resolver, classifier and enumerator

    A shallow embedding of the media-resolution pipeline
    ([app/services/pinterest_resolver.py]), the URL classifier
    ([app/utils/pinterest_urls.py], [app/utils/validation.py],
    [app/utils/media.py]) and the profile enumerator
    ([app/services/profile_collector.py]), then of the file names
    ([app/utils/paths.py], [app/services/downloader.py]), the input lines and
    the queue of a run ([app/workers/download_worker.py]), with the
    properties of the specification stated over it.

    Conventions of the embedding.
    - Python [str] is [string]; the model is exact on ASCII text (case
      mapping and the whitespace class are the ASCII ones).  [str.isdigit]
      and the class [\d] differ beyond ASCII, and are kept apart: see
      [Py.str_isdigit] and [Py.isdigit].
    - Python [int] is [Z].
    - An exception is a value of [exn]; a call that may raise returns
      [result A].
    - The network and the pieces of the Python library that are tables or
      decoders (JSON decoding, the HTML character-reference table, the
      IP-literal parser) are parameters, see [PyLib] and [Session]. *)

From stdpp Require Import base option list gmap strings pretty.
From Stdlib Require Import ZArith Lia Ascii String Sorting.Sorted Permutation.

#[local] Open Scope string_scope.
#[local] Open Scope Z_scope.

(** ** Exceptions *)

Inductive exn : Type :=
| ValueError (msg : string)
| AttributeError (msg : string)
| RequestException (msg : string)
| HTTPError (status : Z)
| ResolutionError (msg : string)
| ProfileCollectionError (msg : string).

Inductive result (A : Type) : Type :=
| Ok (a : A)
| Raise (e : exn).
Arguments Ok {A} a.
Arguments Raise {A} e.

Definition rbind {A B} (m : result A) (f : A -> result B) : result B :=
  match m with
  | Ok a => f a
  | Raise e => Raise e
  end.

Declare Scope result_scope.
Delimit Scope result_scope with res.
Notation "'let?' x ':=' m 'in' k" := (rbind m (fun x => k))
  (at level 10, x pattern, m at level 100, k at level 200) : result_scope.
#[local] Open Scope result_scope.

(** [requests.HTTPError] is a subclass of [requests.RequestException]. *)
Definition is_RequestException (e : exn) : bool :=
  match e with
  | RequestException _ | HTTPError _ => true
  | _ => false
  end.

Definition is_ValueError (e : exn) : bool :=
  match e with
  | ValueError _ => true
  | _ => false
  end.

Definition is_ResolutionError (e : exn) : bool :=
  match e with
  | ResolutionError _ => true
  | _ => false
  end.

(** ** Python strings *)

Module Py.

Definition code (c : ascii) : nat := nat_of_ascii c.

Definition between (lo hi : nat) (c : ascii) : bool :=
  (lo <=? code c)%nat && (code c <=? hi)%nat.

Definition isupper (c : ascii) : bool := between 65 90 c.
Definition islower (c : ascii) : bool := between 97 122 c.
Definition isalpha (c : ascii) : bool := isupper c || islower c.
Definition isdigit_c (c : ascii) : bool := between 48 57 c.
Definition isascii_c (c : ascii) : bool := (code c <? 128)%nat.

(** [str.isspace] on ASCII: TAB, LF, VT, FF, CR, FS, GS, RS, US, SPACE. *)
Definition isspace (c : ascii) : bool :=
  between 9 13 c || between 28 32 c.

Definition lower_c (c : ascii) : ascii :=
  if isupper c then ascii_of_nat (code c + 32) else c.

Fixpoint lower (s : string) : string :=
  match s with
  | EmptyString => EmptyString
  | String c s' => String (lower_c c) (lower s')
  end.

Definition len (s : string) : nat := String.length s.

Definition truthy (s : string) : bool :=
  match s with
  | EmptyString => false
  | String _ _ => true
  end.

Fixpoint mem_c (c : ascii) (chars : string) : bool :=
  match chars with
  | EmptyString => false
  | String d chars' => Ascii.eqb c d || mem_c c chars'
  end.

Fixpoint take (n : nat) (s : string) : string :=
  match n, s with
  | S n', String c s' => String c (take n' s')
  | _, _ => EmptyString
  end.

Fixpoint drop (n : nat) (s : string) : string :=
  match n, s with
  | S n', String _ s' => drop n' s'
  | _, _ => s
  end.

Fixpoint startswith (p s : string) : bool :=
  match p, s with
  | EmptyString, _ => true
  | String a p', String b s' => Ascii.eqb a b && startswith p' s'
  | String _ _, EmptyString => false
  end.

Definition endswith (suf s : string) : bool :=
  (len suf <=? len s)%nat && String.eqb (drop (len s - len suf) s) suf.

(** [needle in s]. *)
Fixpoint contains (needle s : string) : bool :=
  startswith needle s ||
  match s with
  | EmptyString => false
  | String _ s' => contains needle s'
  end.

(** [s.find(needle)], [None] for [-1]. *)
Fixpoint find_from (needle : string) (i : nat) (s : string) : option nat :=
  if startswith needle s then Some i
  else match s with
       | EmptyString => None
       | String _ s' => find_from needle (S i) s'
       end.

Definition find (needle s : string) : option nat := find_from needle 0 s.

(** [s.rfind(needle)], [None] for [-1]. *)
Fixpoint rfind_from (needle : string) (i : nat) (s : string) : option nat :=
  let here := if startswith needle s then Some i else None in
  match s with
  | EmptyString => here
  | String _ s' =>
      match rfind_from needle (S i) s' with
      | Some j => Some j
      | None => here
      end
  end.

Definition rfind (needle s : string) : option nat := rfind_from needle 0 s.

Fixpoint lstrip_by (p : ascii -> bool) (s : string) : string :=
  match s with
  | EmptyString => EmptyString
  | String c s' => if p c then lstrip_by p s' else s
  end.

Fixpoint rstrip_by (p : ascii -> bool) (s : string) : string :=
  match s with
  | EmptyString => EmptyString
  | String c s' =>
      match rstrip_by p s' with
      | EmptyString => if p c then EmptyString else String c EmptyString
      | r => String c r
      end
  end.

Definition strip_by (p : ascii -> bool) (s : string) : string :=
  rstrip_by p (lstrip_by p s).

(** [s.strip()], [s.strip(chars)], [s.lstrip(chars)], [s.rstrip(chars)]. *)
Definition strip (s : string) : string := strip_by isspace s.
Definition strip_chars (chars s : string) : string :=
  strip_by (fun c => mem_c c chars) s.
Definition lstrip_chars (chars s : string) : string :=
  lstrip_by (fun c => mem_c c chars) s.
Definition rstrip_chars (chars s : string) : string :=
  rstrip_by (fun c => mem_c c chars) s.

(** [s.replace(old, new)] for a non-empty [old]: occurrences are replaced
    left to right without overlap.  [skip] counts the characters of the
    occurrence being dropped. *)
Fixpoint replace_go (old new : string) (skip : nat) (s : string) : string :=
  match s with
  | EmptyString => EmptyString
  | String c s' =>
      match skip with
      | S k => replace_go old new k s'
      | O =>
          if startswith old s
          then new ++ replace_go old new (len old - 1) s'
          else String c (replace_go old new 0 s')
      end
  end.

Fixpoint intersperse_all (new s : string) : string :=
  match s with
  | EmptyString => new
  | String c s' => new ++ String c (intersperse_all new s')
  end.

Definition replace (old new s : string) : string :=
  match old with
  | EmptyString => intersperse_all new s
  | String _ _ => replace_go old new 0 s
  end.

(** [s.partition(sep)] and [s.rpartition(sep)]. *)
Definition partition (sep s : string) : string * string * string :=
  match find sep s with
  | Some i => (take i s, sep, drop (i + len sep) s)
  | None => (s, EmptyString, EmptyString)
  end.

Definition rpartition (sep s : string) : string * string * string :=
  match rfind sep s with
  | Some i => (take i s, sep, drop (i + len sep) s)
  | None => (EmptyString, EmptyString, s)
  end.

(** [s.split(c)] for a one-character separator. *)
Fixpoint split (sep : ascii) (s : string) : list string :=
  match s with
  | EmptyString => [EmptyString]
  | String c s' =>
      if Ascii.eqb c sep then EmptyString :: split sep s'
      else match split sep s' with
           | w :: ws => String c w :: ws
           | [] => [String c EmptyString]
           end
  end.

(** [sep.join(parts)]. *)
Definition join (sep : string) (parts : list string) : string :=
  String.concat sep parts.

Fixpoint all_c (p : ascii -> bool) (s : string) : bool :=
  match s with
  | EmptyString => true
  | String c s' => p c && all_c p s'
  end.

(** A non-empty run of the decimal digits [0] to [9]: the texts that [\d+]
    matches and that [int] reads ([s.isdecimal()]). *)
Definition isdigit (s : string) : bool := truthy s && all_c isdigit_c s.

(** [c.isdigit()]: the decimal digits and, among the characters of the
    model, the superscripts two, three and one (codes 178, 179 and 185),
    which are digits without being decimal ones; [\d] does not match
    them and [int] does not read them. *)
Definition str_isdigit_c (c : ascii) : bool :=
  isdigit_c c || between 178 179 c || (code c =? 185)%nat.

(** [s.isdigit()]. *)
Definition str_isdigit (s : string) : bool := truthy s && all_c str_isdigit_c s.

(** [int(s)] for a string of decimal digits. *)
Fixpoint int_acc (acc : Z) (s : string) : Z :=
  match s with
  | EmptyString => acc
  | String c s' => int_acc (10 * acc + (Z.of_nat (code c) - 48)) s'
  end.

(** CPython refuses, by default, a text of more than 4300 digits
    ([sys.int_max_str_digits]). *)
Definition int (s : string) : result Z :=
  if isdigit s then
    if (4300 <? len s)%nat
    then Raise (ValueError "Exceeds the limit (4300 digits) for integer string conversion")
    else Ok (int_acc 0 s)
  else Raise (ValueError "invalid literal for int() with base 10").

(** The non-empty items of a split: [[x for x in s.split(c) if x]]. *)
Definition nonempty_segments (sep : ascii) (s : string) : list string :=
  List.filter truthy (split sep s).

Definition in_list (s : string) (l : list string) : bool :=
  existsb (String.eqb s) l.

End Py.

(** ** Regular expressions

    The patterns of the program use: literals and character classes,
    concatenation, alternation, repetition of a single character class
    (greedy or lazy, with bounds), [^], [$] and one capturing group.  The
    matcher is the backtracking one of Python's [re]: alternatives are tried
    left to right, a greedy repetition tries the longest run first, a lazy
    one the shortest. *)

Module Re.

Inductive regex : Type :=
| Eps
| Cls (p : ascii -> bool)
| Seq (r1 r2 : regex)
| Alt (r1 r2 : regex)
| Rep (greedy : bool) (mn : nat) (mx : option nat) (p : ascii -> bool)
| Bol
| Eol
| Eos
| Grp (r : regex).

Definition below (mx : option nat) (n : nat) : bool :=
  match mx with
  | None => true
  | Some m => (n <? m)%nat
  end.

Section Matcher.
Context {R : Type}.

(** Repetition of the class [p]: [n] characters taken so far, [i] the
    position in the subject, [s] what is left of it. *)
Fixpoint rep (greedy : bool) (p : ascii -> bool) (mn : nat) (mx : option nat)
    (k : nat -> string -> option R) (n i : nat) (s : string) : option R :=
  if greedy then
    match
      match s with
      | String c s' =>
          if below mx n && p c then rep greedy p mn mx k (S n) (S i) s'
          else None
      | EmptyString => None
      end
    with
    | Some x => Some x
    | None => if (mn <=? n)%nat then k i s else None
    end
  else
    match (if (mn <=? n)%nat then k i s else None) with
    | Some x => Some x
    | None =>
        match s with
        | String c s' =>
            if below mx n && p c then rep greedy p mn mx k (S n) (S i) s'
            else None
        | EmptyString => None
        end
    end.

(** [g] is the text of group 1, when it has taken part in the match. *)
Fixpoint run (r : regex) (k : nat -> string -> option string -> option R)
    (i : nat) (s : string) (g : option string) : option R :=
  match r with
  | Eps => k i s g
  | Cls p =>
      match s with
      | String c s' => if p c then k (S i) s' g else None
      | EmptyString => None
      end
  | Seq r1 r2 => run r1 (fun i' s' g' => run r2 k i' s' g') i s g
  | Alt r1 r2 =>
      match run r1 k i s g with
      | Some x => Some x
      | None => run r2 k i s g
      end
  | Rep greedy mn mx p => rep greedy p mn mx (fun i' s' => k i' s' g) 0 i s
  | Bol => if (i =? 0)%nat then k i s g else None
  | Eol =>
      (* end of the subject, or just before a final newline *)
      match s with
      | EmptyString => k i s g
      | String c EmptyString => if Ascii.eqb c "010" then k i s g else None
      | _ => None
      end
  | Eos =>
      match s with
      | EmptyString => k i s g
      | String _ _ => None
      end
  | Grp r' => run r' (fun i' s' _ => k i' s' (Some (Py.take (i' - i) s))) i s g
  end.
End Matcher.

(** A match object: the span of group 0, its text, and group 1. *)
Record Match := { m_start : nat; m_end : nat; group0 : string; group1 : option string }.

(** The match starting exactly at position [i], [s] being the subject from
    [i] on. *)
Definition match_at (r : regex) (i : nat) (s : string) : option Match :=
  run r (fun e _ g =>
           Some {| m_start := i; m_end := e; group0 := Py.take (e - i) s; group1 := g |})
      i s None.

(** [pattern.match(s)]. *)
Definition re_match (r : regex) (s : string) : option Match := match_at r 0 s.

(** [pattern.search(s)]: the leftmost match. *)
Fixpoint search_from (r : regex) (i : nat) (s : string) : option Match :=
  match match_at r i s with
  | Some m => Some m
  | None =>
      match s with
      | EmptyString => None
      | String _ s' => search_from r (S i) s'
      end
  end.

Definition search (r : regex) (s : string) : option Match := search_from r 0 s.

(** [pattern.finditer(s)]: successive non-overlapping matches; after an empty
    match the scan moves on by one character. *)
Fixpoint finditer_go (fuel : nat) (r : regex) (i : nat) (s : string) : list Match :=
  match fuel with
  | O => []
  | S fuel' =>
      match search_from r i s with
      | None => []
      | Some m =>
          let rest := Py.drop (m_end m - i) s in
          if (m_start m <? m_end m)%nat
          then m :: finditer_go fuel' r (m_end m) rest
          else match rest with
               | EmptyString => [m]
               | String _ rest' => m :: finditer_go fuel' r (S (m_end m)) rest'
               end
      end
  end.

Definition finditer (r : regex) (s : string) : list Match :=
  finditer_go (S (Py.len s)) r 0 s.

(** [pattern.findall(s)] for a pattern with one group: the group texts. *)
Definition findall1 (r : regex) (s : string) : list string :=
  omap group1 (finditer r s).

(** [pattern.sub(repl, s)] with a function [repl] of the match. *)
Fixpoint sub_go (repl : Match -> string) (i : nat) (s : string) (ms : list Match) : string :=
  match ms with
  | [] => s
  | m :: ms' =>
      Py.take (m_start m - i) s ++ repl m
        ++ sub_go repl (m_end m) (Py.drop (m_end m - i) s) ms'
  end.

Definition sub (r : regex) (repl : Match -> string) (s : string) : string :=
  sub_go repl 0 s (finditer r s).

(** *** Building blocks *)

Definition any_of (chars : string) : ascii -> bool := fun c => Py.mem_c c chars.
Definition none_of (chars : string) : ascii -> bool := fun c => negb (Py.mem_c c chars).

(** [\d], [\D], [\s] and [.] (without and with DOTALL). *)
Definition digit : ascii -> bool := Py.isdigit_c.
Definition non_digit : ascii -> bool := fun c => negb (Py.isdigit_c c).
Definition space : ascii -> bool := Py.isspace.
Definition dot : ascii -> bool := fun c => negb (Ascii.eqb c "010").
Definition dot_all : ascii -> bool := fun _ => true.

(** A literal character, and the same under IGNORECASE. *)
Definition chr (c : ascii) : regex := Cls (Ascii.eqb c).
Definition ichr (c : ascii) : regex :=
  Cls (fun x => Ascii.eqb (Py.lower_c x) (Py.lower_c c)).

Fixpoint lit (s : string) : regex :=
  match s with
  | EmptyString => Eps
  | String c EmptyString => chr c
  | String c s' => Seq (chr c) (lit s')
  end.

Fixpoint ilit (s : string) : regex :=
  match s with
  | EmptyString => Eps
  | String c EmptyString => ichr c
  | String c s' => Seq (ichr c) (ilit s')
  end.

Fixpoint seq (rs : list regex) : regex :=
  match rs with
  | [] => Eps
  | [r] => r
  | r :: rs' => Seq r (seq rs')
  end.

Definition opt (r : regex) : regex := Alt r Eps.
Definition plus (p : ascii -> bool) : regex := Rep true 1 None p.
Definition star (p : ascii -> bool) : regex := Rep true 0 None p.
Definition lazy_star (p : ascii -> bool) : regex := Rep false 0 None p.

End Re.

(** ** JSON values, as [json.loads] and [response.json()] build them

    A [dict] keeps its insertion order; the decoder yields pairwise distinct
    keys.  A number that is not an integer is kept by its truth value, the
    only thing the program looks at. *)

#[local] Set Warnings "-register-all".
Inductive json : Type :=
| JNull
| JBool (b : bool)
| JInt (n : Z)
| JFloat (nonzero : bool)
| JStr (s : string)
| JList (items : list json)
| JDict (entries : list (string * json)).

Module Json.

(** [d.get(key)] on a [dict]: [None] when the key is absent. *)
Fixpoint dict_get (key : string) (entries : list (string * json)) : json :=
  match entries with
  | [] => JNull
  | (k, v) :: rest => if String.eqb k key then v else dict_get key rest
  end.

(** [payload.get(key)]: an [AttributeError] on a list, a string, a number,
    a boolean or [None]. *)
Definition get (payload : json) (key : string) : result json :=
  match payload with
  | JDict entries => Ok (dict_get key entries)
  | _ => Raise (AttributeError "object has no attribute 'get'")
  end.

(** Truth value of an object. *)
Definition truthy (v : json) : bool :=
  match v with
  | JNull => false
  | JBool b => b
  | JInt n => negb (n =? 0)
  | JFloat nonzero => nonzero
  | JStr s => Py.truthy s
  | JList items => match items with [] => false | _ => true end
  | JDict entries => match entries with [] => false | _ => true end
  end.

Definition is_None (v : json) : bool :=
  match v with
  | JNull => true
  | _ => false
  end.

End Json.

(** ** The parts of the Python library taken as parameters *)

Class PyLib : Type := {
  (** [html._replace_charref], applied to the text of group 1 of a
      character reference: it consults the table [html.entities.html5]. *)
  replace_charref : string -> string;
  (** [json.loads]: [None] when it raises [ValueError]. *)
  json_loads : string -> option json;
  (** [json.dumps(value, separators=...)], the compact form *)
  json_dumps : json -> string;
  (** [ipaddress.ip_address]: [None] when it raises [ValueError], otherwise
      whether the address is an IPv6 one. *)
  ip_address_is_v6 : string -> option bool;
}.

(** ** [urllib.parse], [pathlib] and [html] *)

Module urllib.

Record SplitResult := {
  s_scheme : string; s_netloc : string; s_path : string;
  s_query : string; s_fragment : string }.

Record ParseResult := {
  scheme : string; netloc : string; path : string;
  params : string; query : string; fragment : string }.

Definition uses_relative : list string :=
  [""; "ftp"; "http"; "gopher"; "nntp"; "imap"; "wais"; "file"; "https";
   "shttp"; "mms"; "prospero"; "rtsp"; "rtspu"; "sftp"; "svn"; "svn+ssh";
   "ws"; "wss"].

Definition uses_netloc : list string :=
  [""; "ftp"; "http"; "gopher"; "nntp"; "telnet"; "imap"; "wais"; "file";
   "mms"; "https"; "shttp"; "snews"; "prospero"; "rtsp"; "rtspu"; "rsync";
   "svn"; "svn+ssh"; "sftp"; "nfs"; "git"; "git+ssh"; "ws"; "wss"].

Definition uses_params : list string :=
  [""; "ftp"; "hdl"; "prospero"; "http"; "imap"; "https"; "shttp"; "rtsp";
   "rtspu"; "sip"; "sips"; "mms"; "sftp"; "tel"].

Definition scheme_chars : string :=
  "abcdefghijklmnopqrstuvwxyzABCDEFGHIJKLMNOPQRSTUVWXYZ0123456789+-.".

(** The characters U+0000 to U+0020. *)
Definition _WHATWG_C0_CONTROL_OR_SPACE (c : ascii) : bool :=
  (Py.code c <=? 32)%nat.

Definition _UNSAFE_URL_BYTES_TO_REMOVE : list string :=
  [String "009" ""; String "013" ""; String "010" ""].

(** [url.find(c, start)]. *)
Definition find_at (c : string) (start : nat) (url : string) : option nat :=
  Py.find_from c start (Py.drop start url).

Definition _splitnetloc (url : string) (start : nat) : string * string :=
  let delim :=
    foldl (fun delim c =>
             match find_at c start url with
             | Some wdelim => Nat.min delim wdelim
             | None => delim
             end) (Py.len url) ["/"; "?"; "#"] in
  (Py.take (delim - start) (Py.drop start url), Py.drop delim url).

Definition _splitparams (url : string) : string * string :=
  let cut (i : option nat) :=
    match i with
    | Some i => (Py.take i url, Py.drop (S i) url)
    | None => (Py.take (Py.len url - 1) url, url)
    end in
  if Py.contains "/" url then
    match find_at ";" (default 0%nat (Py.rfind "/" url)) url with
    | Some i => cut (Some i)
    | None => (url, "")
    end
  else cut (Py.find ";" url).

Section WithLib.
Context {lib : PyLib}.

(** [\Av[a-fA-F0-9]+\..+\Z] *)
Definition ipvfuture_re : Re.regex :=
  Re.seq [Re.chr "v"; Re.plus (Re.any_of "abcdefABCDEF0123456789");
          Re.chr "."; Re.plus Re.dot; Re.Eos].

Definition _check_bracketed_host (hostname : string) : result unit :=
  if Py.startswith "v" hostname then
    match Re.re_match ipvfuture_re hostname with
    | Some _ => Ok tt
    | None => Raise (ValueError "IPvFuture address is invalid")
    end
  else
    match ip_address_is_v6 hostname with
    | None => Raise (ValueError "does not appear to be an IPv4 or IPv6 address")
    | Some false => Raise (ValueError "An IPv4 address cannot be in brackets")
    | Some true => Ok tt
    end.

Definition _check_bracketed_netloc (netloc : string) : result unit :=
  let hostname_and_port := snd (Py.rpartition "@" netloc) in
  let '(before_bracket, have_open_br, bracketed) := Py.partition "[" hostname_and_port in
  if Py.truthy have_open_br then
    if Py.truthy before_bracket then Raise (ValueError "Invalid IPv6 URL")
    else
      let '(hostname, _, port) := Py.partition "]" bracketed in
      if Py.truthy port && negb (Py.startswith ":" port)
      then Raise (ValueError "Invalid IPv6 URL")
      else _check_bracketed_host hostname
  else
    let '(hostname, _, port) := Py.partition ":" hostname_and_port in
    _check_bracketed_host hostname.

(** The parts of [urlsplit], in the order of its body: cleaning of the
    input, the scheme, the netloc with its checks, then fragment and
    query. *)
Definition clean (url : string) : string :=
  foldl (fun u b => Py.replace b "" u) url _UNSAFE_URL_BYTES_TO_REMOVE.

Definition split_scheme (url scheme : string) : string * string :=
  match Py.find ":" url, url with
  | Some (S i), String c0 _ =>
      if Py.isascii_c c0 && Py.isalpha c0
         && Py.all_c (fun c => Py.mem_c c scheme_chars) (Py.take (S i) url)
      then (Py.lower (Py.take (S i) url), Py.drop (S (S i)) url)
      else (scheme, url)
  | _, _ => (scheme, url)
  end.

Definition split_netloc (url : string) : result (string * string) :=
  if String.eqb (Py.take 2 url) "//" then
    let '(netloc, url) := _splitnetloc url 2 in
    if (Py.contains "[" netloc && negb (Py.contains "]" netloc))
       || (Py.contains "]" netloc && negb (Py.contains "[" netloc))
    then Raise (ValueError "Invalid IPv6 URL")
    else if Py.contains "[" netloc && Py.contains "]" netloc
    then let? _ := _check_bracketed_netloc netloc in Ok (netloc, url)
    else Ok (netloc, url)
  else Ok ("", url).

Definition split_fragment_query (url : string) : string * string * string :=
  let '(url, fragment) :=
    if Py.contains "#" url
    then let '(a, _, b) := Py.partition "#" url in (a, b)
    else (url, "") in
  let '(url, query) :=
    if Py.contains "?" url
    then let '(a, _, b) := Py.partition "?" url in (a, b)
    else (url, "") in
  (url, query, fragment).

(** [urlsplit(url, scheme)] with [allow_fragments=True].  [_checknetloc]
    only looks at a netloc that is not ASCII. *)
Definition urlsplit (url scheme : string) : result SplitResult :=
  let url := clean (Py.lstrip_by _WHATWG_C0_CONTROL_OR_SPACE url) in
  let scheme := clean (Py.strip_by _WHATWG_C0_CONTROL_OR_SPACE scheme) in
  let '(scheme, url) := split_scheme url scheme in
  let? (netloc, url) := split_netloc url in
  let '(url, query, fragment) := split_fragment_query url in
  Ok {| s_scheme := scheme; s_netloc := netloc; s_path := url;
        s_query := query; s_fragment := fragment |}.

Definition urlparse_with (url scheme : string) : result ParseResult :=
  let? sr := urlsplit url scheme in
  let '(url, params) :=
    if Py.in_list (s_scheme sr) uses_params && Py.contains ";" (s_path sr)
    then _splitparams (s_path sr)
    else (s_path sr, "") in
  Ok {| scheme := s_scheme sr; netloc := s_netloc sr; path := url;
        params := params; query := s_query sr; fragment := s_fragment sr |}.

(** [urlparse(url)] *)
Definition urlparse (url : string) : result ParseResult := urlparse_with url "".
End WithLib.

Definition urlunsplit (scheme netloc url query fragment : string) : string :=
  let url :=
    if Py.truthy netloc
       || (Py.truthy scheme && Py.in_list scheme uses_netloc
           && negb (String.eqb (Py.take 2 url) "//"))
    then
      let url := if Py.truthy url && negb (String.eqb (Py.take 1 url) "/")
                 then "/" ++ url else url in
      "//" ++ netloc ++ url
    else url in
  let url := if Py.truthy scheme then scheme ++ ":" ++ url else url in
  let url := if Py.truthy query then url ++ "?" ++ query else url in
  let url := if Py.truthy fragment then url ++ "#" ++ fragment else url in
  url.

Definition urlunparse (p : ParseResult) : string :=
  let url := if Py.truthy (params p) then path p ++ ";" ++ params p else path p in
  urlunsplit (scheme p) (netloc p) url (query p) (fragment p).

(** [parsed.geturl()] *)
Definition geturl (p : ParseResult) : string := urlunparse p.

(** [parsed._replace(path=...)] and [parsed._replace(query=..., fragment=...)] *)
Definition replace_path (p : ParseResult) (new_path : string) : ParseResult :=
  {| scheme := scheme p; netloc := netloc p; path := new_path;
     params := params p; query := query p; fragment := fragment p |}.

Definition replace_query_fragment (p : ParseResult) (q f : string) : ParseResult :=
  {| scheme := scheme p; netloc := netloc p; path := path p;
     params := params p; query := q; fragment := f |}.

End urllib.

Module urljoin_impl.
Import urllib.

(** [segments[1:-1] = filter(None, segments[1:-1])] *)
Definition filter_middle (segments : list string) : list string :=
  match segments with
  | first :: ((_ :: _) as rest) =>
      first :: List.filter Py.truthy (removelast rest) ++ [List.last rest ""]
  | _ => segments
  end.

Definition resolve_step (resolved_path : list string) (seg : string) : list string :=
  if String.eqb seg ".." then removelast resolved_path
  else if String.eqb seg "." then resolved_path
  else (resolved_path ++ [seg])%list.

Section WithLib.
Context {lib : PyLib}.

(** [urljoin(base, url)] *)
Definition urljoin (base url : string) : result string :=
  if negb (Py.truthy base) then Ok url
  else if negb (Py.truthy url) then Ok base
  else
    let? b := urlparse_with base "" in
    let? u := urlparse_with url (scheme b) in
    if negb (String.eqb (scheme u) (scheme b))
       || negb (Py.in_list (scheme u) uses_relative)
    then Ok url
    else if Py.in_list (scheme u) uses_netloc && Py.truthy (netloc u)
    then Ok (urlunparse u)
    else
      let netloc' := if Py.in_list (scheme u) uses_netloc then netloc b else netloc u in
      if negb (Py.truthy (path u)) && negb (Py.truthy (params u)) then
        let query' := if Py.truthy (query u) then query u else query b in
        Ok (urlunparse {| scheme := scheme u; netloc := netloc'; path := path b;
                          params := params b; query := query';
                          fragment := fragment u |})
      else
        let base_parts := Py.split "/" (path b) in
        let base_parts :=
          if negb (String.eqb (List.last base_parts "") "")
          then removelast base_parts else base_parts in
        let segments :=
          if String.eqb (Py.take 1 (path u)) "/" then Py.split "/" (path u)
          else filter_middle (base_parts ++ Py.split "/" (path u)) in
        let resolved_path := foldl resolve_step [] segments in
        let resolved_path :=
          if Py.in_list (List.last segments "") ["."; ".."]
          then (resolved_path ++ [""])%list else resolved_path in
        let joined := Py.join "/" resolved_path in
        Ok (urlunparse {| scheme := scheme u; netloc := netloc';
                          path := if Py.truthy joined then joined else "/";
                          params := params u; query := query u;
                          fragment := fragment u |}).
End WithLib.
End urljoin_impl.

Module pathlib.

(** [PurePosixPath(p).name]: the last component that is neither empty nor
    ["."]; empty when there is none. *)
Definition name (p : string) : string :=
  List.last
    (List.filter (fun x => Py.truthy x && negb (String.eqb x ".")) (Py.split "/" p))
    "".

(** [PurePosixPath(p).suffix] *)
Definition suffix (p : string) : string :=
  let name := name p in
  match Py.rfind "." name with
  | Some i => if (0 <? i)%nat && (i <? Py.len name - 1)%nat then Py.drop i name else ""
  | None => ""
  end.

End pathlib.

Module html.

(** [&(#[0-9]+;?|#[xX][0-9a-fA-F]+;?|[^\t\n\f <&#;]{1,32};?)] *)
Definition _charref : Re.regex :=
  Re.Seq (Re.chr "&")
    (Re.Grp
       (Re.Alt (Re.seq [Re.chr "#"; Re.plus Re.digit; Re.opt (Re.chr ";")])
          (Re.Alt
             (Re.seq [Re.chr "#"; Re.Cls (Re.any_of "xX");
                      Re.plus (Re.any_of "0123456789abcdefABCDEF");
                      Re.opt (Re.chr ";")])
             (Re.seq [Re.Rep true 1 (Some 32%nat)
                        (fun c => negb (Py.mem_c c
                           (String "009" (String "010" (String "012" " <&#;")))));
                      Re.opt (Re.chr ";")])))).

(** [html.unescape(s)] *)
Definition unescape {lib : PyLib} (s : string) : string :=
  if negb (Py.contains "&" s) then s
  else Re.sub _charref (fun m => replace_charref (default "" (Re.group1 m))) s.

End html.

(** [urllib.parse.quote(s, safe='')]: every character but letters, digits and
    [_.-~] becomes [%XX]. *)
Module quoting.

Definition hex_digit (n : nat) : ascii :=
  default "0"%char (String.get n "0123456789ABCDEF").

Definition always_safe (c : ascii) : bool :=
  Py.isalpha c || Py.isdigit_c c || Py.mem_c c "_.-~".

Fixpoint quote (s : string) : string :=
  match s with
  | EmptyString => EmptyString
  | String c s' =>
      if always_safe c then String c (quote s')
      else String "%" (String (hex_digit (Py.code c / 16))
                         (String (hex_digit (Py.code c mod 16)) (quote s')))
  end.

End quoting.

(** ** [app/utils/validation.py] *)

Module validation.
Section WithLib.
Context {lib : PyLib}.

Definition normalize_url (raw_url : string) : string :=
  let url := Py.strip raw_url in
  if negb (Py.truthy url) then ""
  else if negb (Py.contains "://" url) then "https://" ++ url
  else url.

Definition is_valid_http_url (url : string) : result bool :=
  match urllib.urlparse url with
  | Raise e => if is_ValueError e then Ok false else Raise e
  | Ok parsed =>
      Ok (Py.in_list (urllib.scheme parsed) ["http"; "https"]
          && Py.truthy (urllib.netloc parsed))
  end.
End WithLib.
End validation.

(** ** [app/utils/media.py] *)

Module media.

Definition IMAGE_EXTENSIONS : list string :=
  [".jpg"; ".jpeg"; ".png"; ".webp"; ".gif"; ".bmp"; ".tif"; ".tiff"; ".avif"].

Definition VIDEO_EXTENSIONS : list string :=
  [".mp4"; ".mov"; ".webm"; ".m4v"; ".avi"; ".mkv"; ".3gp"].

Definition NON_MEDIA_EXTENSIONS : list string :=
  [".woff"; ".woff2"; ".ttf"; ".otf"; ".eot"; ".css"; ".js"].

(** [^\d+x\d*$] *)
Definition SIZE_SEGMENT_RE : Re.regex :=
  Re.seq [Re.Bol; Re.plus Re.digit; Re.chr "x"; Re.star Re.digit; Re.Eol].

Section WithLib.
Context {lib : PyLib}.

(** The media type is the string [image] or [video], or [None]. *)
Definition infer_media_type_from_url (url : string) : result (option string) :=
  let? parsed := urllib.urlparse url in
  let path := Py.lower (urllib.path parsed) in
  let suffix := Py.lower (pathlib.suffix path) in
  if Py.in_list suffix NON_MEDIA_EXTENSIONS then Ok None
  else if Py.in_list suffix IMAGE_EXTENSIONS then Ok (Some "image")
  else if Py.in_list suffix VIDEO_EXTENSIONS || Py.contains "/videos/" path
  then Ok (Some "video")
  else if Py.contains "pinimg.com" (Py.lower (urllib.netloc parsed)) then
    match Py.nonempty_segments "/" path with
    | [] => Ok None
    | first_segment :: _ =>
        if String.eqb first_segment "originals"
           || bool_decide (is_Some (Re.re_match SIZE_SEGMENT_RE first_segment))
        then Ok (Some "image")
        else if Py.endswith "x_rs" first_segment && Py.in_list suffix IMAGE_EXTENSIONS
        then Ok (Some "image")
        else Ok None
    end
  else Ok None.
End WithLib.
End media.

(** ** [app/utils/pinterest_urls.py] *)

Module pinterest_urls.

Definition lower_letter_or_dot (c : ascii) : bool :=
  Py.islower (Py.lower_c c) || Ascii.eqb c ".".

(** [(?:^|\.)pinterest\.[a-z.]+$], IGNORECASE *)
Definition PINTEREST_HOST_RE : Re.regex :=
  Re.seq [Re.Alt Re.Bol (Re.chr "."); Re.ilit "pinterest"; Re.chr ".";
          Re.plus lower_letter_or_dot; Re.Eol].

(** [^/pin/\d+/?$], IGNORECASE *)
Definition PIN_PATH_RE : Re.regex :=
  Re.seq [Re.Bol; Re.ilit "/pin/"; Re.plus Re.digit; Re.opt (Re.chr "/"); Re.Eol].

Definition PIN_SHORT_HOSTS : list string := ["pin.it"].

Definition RESERVED_PROFILE_SEGMENTS : list string :=
  [""; "pin"; "pins"; "search"; "ideas"; "explore"; "discover"; "categories";
   "business"; "about"; "help"; "privacy"; "settings"; "login"; "signup";
   "create"; "shop"; "_"].

Definition is_pinterest_host (host : string) : bool :=
  let host_value := Py.strip (Py.lower host) in
  if negb (Py.truthy host_value) then false
  else if Py.in_list host_value PIN_SHORT_HOSTS then true
  else bool_decide (is_Some (Re.search PINTEREST_HOST_RE host_value)).

Section WithLib.
Context {lib : PyLib}.

Definition is_pin_url (url : string) : result bool :=
  let? parsed := urllib.urlparse url in
  let host := Py.lower (urllib.netloc parsed) in
  if Py.in_list host PIN_SHORT_HOSTS then Ok true
  else if negb (is_pinterest_host host) then Ok false
  else Ok (bool_decide (is_Some (Re.re_match PIN_PATH_RE (urllib.path parsed)))).

Definition extract_profile_username (url : string) : result (option string) :=
  let? parsed := urllib.urlparse url in
  let host := Py.lower (urllib.netloc parsed) in
  if negb (is_pinterest_host host) then Ok None
  else if Py.in_list host PIN_SHORT_HOSTS then Ok None
  else
    match Py.nonempty_segments "/" (urllib.path parsed) with
    | [] => Ok None
    | segment0 :: _ =>
        let username := Py.lower (Py.strip segment0) in
        if Py.in_list username RESERVED_PROFILE_SEGMENTS then Ok None
        else if Py.startswith "_" username then Ok None
        else Ok (Some username)
    end.

Definition is_profile_url (url : string) : result bool :=
  let? pin := is_pin_url url in
  if pin then Ok false
  else
    let? username := extract_profile_username url in
    Ok (bool_decide (is_Some username)).
End WithLib.

Definition canonical_profile_url (username : string) : string :=
  "https://www.pinterest.com/" ++ username ++ "/".

Definition canonical_pin_url (pin_id : string) : string :=
  "https://www.pinterest.com/pin/" ++ pin_id ++ "/".

End pinterest_urls.

(** ** [app/constants.py] *)

Definition HTTP_HEADERS : list (string * string) :=
  [("User-Agent",
    "Mozilla/5.0 (Windows NT 10.0; Win64; x64) " ++
    "AppleWebKit/537.36 (KHTML, like Gecko) " ++
    "Chrome/126.0.0.0 Safari/537.36");
   ("Accept-Language", "en-US,en;q=0.9")].

Definition PINTEREST_IMAGE_HOST : string := "i.pinimg.com".

(** ** The HTTP session

    [requests.Session] as the program uses it.  The answers of the remote
    site are arbitrary: a call either fails with a [requests] exception or
    yields a response, and moves the world on.  The timeout and the
    redirect flag are the same on every call and are left out. *)

Record Response := {
  resp_url : string;           (* [response.url], after redirects *)
  resp_text : string;          (* [response.text] *)
  status_code : Z;
  resp_json : option json;     (* [response.json()], [None]: [ValueError] *)
}.

Class Session : Type := {
  World : Type;
  (** [session.get(url, headers=...)]; [inl msg] is a
      [requests.RequestException] *)
  session_get : string -> list (string * string) -> World -> (string + Response) * World;
  (** [session.post(url, params=..., headers=...)] *)
  session_post :
    string -> list (string * string) -> list (string * string) ->
    World -> (string + Response) * World;
  (** [session.cookies.get(name)] *)
  session_cookie : string -> World -> option string;
}.

Module Net.
Section WithSession.
Context {session : Session}.

(** A computation that talks to the network. *)
Definition M (A : Type) : Type := World -> result A * World.

Definition ret {A} (a : A) : M A := fun w => (Ok a, w).
Definition raise {A} (e : exn) : M A := fun w => (Raise e, w).
Definition lift {A} (r : result A) : M A := fun w => (r, w).

Definition bind {A B} (m : M A) (f : A -> M B) : M B :=
  fun w =>
    match m w with
    | (Ok a, w') => f a w'
    | (Raise e, w') => (Raise e, w')
    end.

(** [try: m except <classes>: handler] *)
Definition try_except {A} (m : M A) (catches : exn -> bool) (handler : M A) : M A :=
  fun w =>
    match m w with
    | (Raise e, w') => if catches e then handler w' else (Raise e, w')
    | r => r
    end.

Definition of_answer (a : (string + Response) * World) : result Response * World :=
  match a with
  | (inl msg, w) => (Raise (RequestException msg), w)
  | (inr r, w) => (Ok r, w)
  end.

Definition get (url : string) : M Response :=
  fun w => of_answer (session_get url HTTP_HEADERS w).

Definition post (url : string) (params headers : list (string * string)) : M Response :=
  fun w => of_answer (session_post url params headers w).

Definition cookie (name : string) : M (option string) :=
  fun w => (Ok (session_cookie name w), w).
End WithSession.

(** [response.raise_for_status()] *)
Definition raise_for_status (r : Response) : result unit :=
  if (400 <=? status_code r) && (status_code r <? 600)
  then Raise (HTTPError (status_code r)) else Ok tt.

(** [response.json()] *)
Definition json_of (r : Response) : result json :=
  match resp_json r with
  | Some j => Ok j
  | None => Raise (ValueError "Expecting value")
  end.

End Net.

Declare Scope net_scope.
Delimit Scope net_scope with net.
Notation "'let*' x ':=' m 'in' k" := (Net.bind m (fun x => k))
  (at level 10, x pattern, m at level 100, k at level 200) : net_scope.

(** [except (requests.RequestException, ValueError)] *)
Definition request_or_value_error (e : exn) : bool :=
  is_RequestException e || is_ValueError e.

(** Monadic list helpers for [result]. *)
Fixpoint concat_mapM {A B} (f : A -> result (list B)) (l : list A) : result (list B) :=
  match l with
  | [] => Ok []
  | a :: l' =>
      let? bs := f a in
      let? rest := concat_mapM f l' in
      Ok (bs ++ rest)%list
  end.

Fixpoint filterM {A} (f : A -> result bool) (l : list A) : result (list A) :=
  match l with
  | [] => Ok []
  | a :: l' =>
      let? keep := f a in
      let? rest := filterM f l' in
      Ok (if keep then a :: rest else rest)
  end.

(** An insertion-ordered [dict]. *)
Module OrderedDict.
Section WithKey.
Context {K V : Type} `{EqDecision K}.

Fixpoint get (key : K) (d : list (K * V)) : option V :=
  match d with
  | [] => None
  | (k, v) :: d' => if decide (k = key) then Some v else get key d'
  end.

(** [d[key] = v]: a present key keeps its place, a new one goes last. *)
Fixpoint set (key : K) (v : V) (d : list (K * V)) : list (K * V) :=
  match d with
  | [] => [(key, v)]
  | (k, v0) :: d' =>
      if decide (k = key) then (k, v) :: d' else (k, v0) :: set key v d'
  end.

Definition values (d : list (K * V)) : list V := List.map snd d.
Definition keys (d : list (K * V)) : list K := List.map fst d.
End WithKey.
End OrderedDict.

(** ** [app/services/pinterest_resolver.py] *)

Module pinterest_resolver.
Import validation media.

Definition SIZE_SEGMENT_RE : Re.regex := media.SIZE_SEGMENT_RE.

(** [/pin/(\d+)/?] *)
Definition PIN_ID_PATH_RE : Re.regex :=
  Re.seq [Re.lit "/pin/"; Re.Grp (Re.plus Re.digit); Re.opt (Re.chr "/")].

(** [[?&]id=(\d+)] *)
Definition OEMBED_PIN_ID_RE : Re.regex :=
  Re.seq [Re.Cls (Re.any_of "?&"); Re.lit "id="; Re.Grp (Re.plus Re.digit)].

(** [/(\d{3,4})p(?:/|$)] *)
Definition VIDEO_RESOLUTION_RE : Re.regex :=
  Re.seq [Re.chr "/"; Re.Grp (Re.Rep true 3 (Some 4%nat) Re.digit); Re.chr "p";
          Re.Alt (Re.chr "/") Re.Eol].

Definition quote_chars : string := String "034" "'".
Definition not_gt : ascii -> bool := Re.none_of ">".
Definition not_quote : ascii -> bool := Re.none_of quote_chars.
Definition a_quote : Re.regex := Re.Cls (Re.any_of quote_chars).

(** The three patterns for [og:image] and [twitter:image], IGNORECASE. *)
Definition META_IMAGE_PATTERNS : list Re.regex :=
  [ Re.seq [Re.ilit "<meta"; Re.plus not_gt; Re.ilit "property="; a_quote;
            Re.ilit "og:image"; a_quote; Re.plus not_gt; Re.ilit "content=";
            a_quote; Re.Grp (Re.plus not_quote)];
    Re.seq [Re.ilit "<meta"; Re.plus not_gt; Re.ilit "content="; a_quote;
            Re.Grp (Re.plus not_quote); a_quote; Re.plus not_gt;
            Re.ilit "property="; a_quote; Re.ilit "og:image"];
    Re.seq [Re.ilit "<meta"; Re.plus not_gt; Re.ilit "name="; a_quote;
            Re.ilit "twitter:image"; Re.opt (Re.ilit ":src"); a_quote;
            Re.plus not_gt; Re.ilit "content="; a_quote;
            Re.Grp (Re.plus not_quote)] ].

(** The [<script type=application/ld+json>] block and its body (group 1):
    [<script], [[^>]*], [type=], a quote, [application/ld\+json], a quote,
    [[^>]*>], [(.*?)], [</script>]; IGNORECASE and DOTALL. *)
Definition LD_JSON_PATTERN : Re.regex :=
  Re.seq [Re.ilit "<script"; Re.star not_gt; Re.ilit "type="; a_quote;
          Re.ilit "application/ld+json"; a_quote; Re.star not_gt; Re.chr ">";
          Re.Grp (Re.lazy_star Re.dot_all); Re.ilit "</script>"].

(** The class of the characters that may go on in an address: none of the
    two quotes, [<], [>], [)], [\]], [}] and no white space. *)
Definition url_char (c : ascii) : bool :=
  negb (Py.mem_c c (String "034" "'<>)]}") || Py.isspace c).

Definition ialnum_or_dash (c : ascii) : bool :=
  Py.isalpha c || Py.isdigit_c c || Ascii.eqb c "-".

Definition pinimg_tail : list Re.regex :=
  [Re.opt (Re.Seq (Re.plus ialnum_or_dash) (Re.chr ".")); Re.ilit "pinimg.com";
   Re.plus url_char].

(** Media-host addresses, with the slashes escaped by two backslashes or
    plain; IGNORECASE. *)
Definition HOSTED_MEDIA_PATTERN : Re.regex :=
  Re.Alt
    (Re.seq ([Re.ilit "http"; Re.opt (Re.ichr "s"); Re.lit ":\\/\\/"] ++ pinimg_tail))
    (Re.seq ([Re.ilit "http"; Re.opt (Re.ichr "s"); Re.lit "://"] ++ pinimg_tail)).

(** [^https?://] followed by one or more [url_char]; IGNORECASE *)
Definition NORMALIZED_URL_RE : Re.regex :=
  Re.seq [Re.Bol; Re.ilit "http"; Re.opt (Re.ichr "s"); Re.lit "://"; Re.plus url_char].

Record MediaCandidate := {
  url : string;
  media_type : string;
  quality_score : Z;
  source : string;
}.

Definition candidate_key (item : MediaCandidate) : string * string :=
  (media_type item, url item).

(** [ranked.sort(key=lambda item: item.quality_score, reverse=True)]: the
    sort is stable, so equal scores keep the order they came in. *)
Fixpoint insert_ranked (item : MediaCandidate) (ranked : list MediaCandidate)
    : list MediaCandidate :=
  match ranked with
  | [] => [item]
  | other :: ranked' =>
      if quality_score item <? quality_score other
      then other :: insert_ranked item ranked'
      else item :: ranked
  end.

Definition sort_by_score_desc (items : list MediaCandidate) : list MediaCandidate :=
  foldr insert_ranked [] items.

Definition by_key_step (by_key : list (string * string * MediaCandidate))
    (item : MediaCandidate) : list (string * string * MediaCandidate) :=
  let key := candidate_key item in
  match OrderedDict.get key by_key with
  | None => OrderedDict.set key item by_key
  | Some existing =>
      if quality_score item >? quality_score existing
      then OrderedDict.set key item by_key
      else by_key
  end.

Definition _sort_and_dedupe (candidates : list MediaCandidate) : list MediaCandidate :=
  let by_key := foldl by_key_step [] candidates in
  let ranked := OrderedDict.values by_key in
  sort_by_score_desc ranked.

Definition dedupe_step (acc : list string * gset string) (value : string)
    : list string * gset string :=
  let '(deduped, seen) := acc in
  if bool_decide (value ∈ seen) then acc
  else ((deduped ++ [value])%list, seen ∪ {[ value ]}).

Definition _dedupe_url_list (values : list string) : list string :=
  fst (foldl dedupe_step ([], ∅) values).

Definition _is_pinimg_host (host : string) : bool :=
  let host_value := Py.lower host in
  String.eqb host_value PINTEREST_IMAGE_HOST || Py.endswith ".pinimg.com" host_value.

Definition _extract_pin_id (text : string) : option string :=
  match Re.search PIN_ID_PATH_RE text with
  | Some m => Re.group1 m
  | None => None
  end.

(** [a and b] for a boolean [a] and an optional string [b], by its truth
    value. *)
Definition and_truthy (a : bool) (b : option string) : option string :=
  match b with
  | Some s => if a && Py.truthy s then Some s else None
  | None => None
  end.

Section WithLib.
Context {lib : PyLib}.

Definition _is_placeholder_image (url : string) : result bool :=
  let? parsed := urllib.urlparse url in
  let path := Py.lower (urllib.path parsed) in
  if Py.contains "facebook_share_image" path then Ok true
  else if Py.contains "/images/" path && negb (Py.contains "/originals/" path)
  then Ok true
  else Ok false.

(** The [width + height] read off a leading size segment of [path], [0]
    when there is none. *)
Definition size_segment_bonus (path : string) : result Z :=
  match Py.nonempty_segments "/" path with
  | [] => Ok 0
  | segment0 :: _ =>
      match Re.re_match SIZE_SEGMENT_RE segment0 with
      | None => Ok 0
      | Some _ =>
          let '(width_text, _, height_text) := Py.partition "x" segment0 in
          let? width :=
            if Py.str_isdigit width_text then Py.int width_text else Ok 0 in
          let? height :=
            if Py.str_isdigit height_text then Py.int height_text else Ok width in
          Ok (width + height)
      end
  end.

Definition _score_image (url size_hint : string) : result Z :=
  let? parsed := urllib.urlparse url in
  let path := Py.lower (urllib.path parsed) in
  let score := 1000 in
  let score :=
    if Py.contains "/originals/" path || String.eqb (Py.lower size_hint) "orig"
    then score + 9000 else score in
  let? bonus := size_segment_bonus path in
  let score := score + bonus in
  let score :=
    if Py.contains "75x75_rs" path || Py.contains "facebook_share_image" path
    then score - 6000 else score in
  let score :=
    if Py.contains "/images/" path && negb (Py.contains "/originals/" path)
    then score - 3000 else score in
  let? parsed' := urllib.urlparse url in
  let score := if _is_pinimg_host (urllib.netloc parsed') then score + 300 else score in
  Ok score.

Definition _score_video (url size_hint : string) : result Z :=
  let? parsed := urllib.urlparse url in
  let path := Py.lower (urllib.path parsed) in
  let score := 20000 in
  let? score :=
    match Re.search VIDEO_RESOLUTION_RE path with
    | Some m => let? n := Py.int (default "" (Re.group1 m)) in Ok (score + n)
    | None => Ok score
    end in
  let score := if Py.endswith ".mp4" path then score + 500 else score in
  let score := if Py.endswith ".m3u8" path then score - 300 else score in
  let score := if Py.contains "hls" path then score - 150 else score in
  if Py.truthy size_hint && Py.endswith "p" (Py.lower size_hint) then
    let digits := Re.sub (Re.Cls Re.non_digit) (fun _ => "") size_hint in
    if Py.str_isdigit digits
    then let? n := Py.int digits in Ok (score + n)
    else Ok score
  else Ok score.

Definition _pinimg_variants (url : string) : result (list string) :=
  let? parsed := urllib.urlparse url in
  if negb (_is_pinimg_host (urllib.netloc parsed)) then Ok [url]
  else
    match Py.nonempty_segments "/" (urllib.path parsed) with
    | [] => Ok [url]
    | first_segment :: rest =>
        let variants := [url] in
        let variants :=
          if negb (String.eqb first_segment "originals")
             && bool_decide (is_Some (Re.re_match SIZE_SEGMENT_RE first_segment))
          then
            let rebuilt_path := "/" ++ Py.join "/" ("originals" :: rest) in
            urllib.geturl (urllib.replace_path parsed rebuilt_path) :: variants
          else variants in
        Ok (_dedupe_url_list variants)
    end.

Fixpoint score_variants (size_hint source : string) (variants : list string)
    : result (list MediaCandidate) :=
  match variants with
  | [] => Ok []
  | variant :: variants' =>
      let? score := _score_image variant size_hint in
      let? rest := score_variants size_hint source variants' in
      Ok ({| url := variant; media_type := "image"; quality_score := score;
             source := source |} :: rest)
  end.

Definition _build_candidates (url media_type source size_hint : string)
    : result (list MediaCandidate) :=
  if String.eqb media_type "image" then
    let? variants := _pinimg_variants url in
    score_variants size_hint source variants
  else
    let? score := _score_video url size_hint in
    Ok [{| url := url; media_type := "video"; quality_score := score;
           source := source |}].

Definition _normalize_candidate (value base_url : string) : result (option string) :=
  let candidate := html.unescape (Py.strip value) in
  if negb (Py.truthy candidate) then Ok None
  else
    let candidate :=
      Py.replace "&amp;" "&"
        (Py.replace "\u0026" "&"
           (Py.replace "\u002F" "/" (Py.replace "\/" "/" candidate))) in
    let candidate := Py.strip_chars (String "034" "' ),") candidate in
    let candidate :=
      if Py.startswith "//" candidate then "https:" ++ candidate else candidate in
    let? candidate := urljoin_impl.urljoin base_url candidate in
    let candidate := Py.rstrip_chars ".,;" candidate in
    match Re.re_match NORMALIZED_URL_RE candidate with
    | None => Ok None
    | Some m =>
        let candidate := Re.group0 m in
        let? valid := is_valid_http_url candidate in
        if negb valid then Ok None else Ok (Some candidate)
    end.

(** The body of [walk] for a string [value] found under [key_hint]. *)
Definition walk_string (base_url source : string) (media_type_hint : option string)
    (value key_hint : string) : result (list MediaCandidate) :=
  if negb (Py.contains "http" value) && negb (Py.contains "\/" value) then Ok []
  else
    let? normalized := _normalize_candidate value base_url in
    match and_truthy true normalized with
    | None => Ok []
    | Some normalized =>
        let? media_type := infer_media_type_from_url normalized in
        match and_truthy true media_type with
        | None => Ok []
        | Some media_type =>
            if bool_decide (is_Some (and_truthy true media_type_hint))
               && negb (bool_decide (Some media_type = media_type_hint))
            then Ok []
            else
              let? placeholder :=
                if String.eqb media_type "image"
                then _is_placeholder_image normalized else Ok false in
              if placeholder then Ok []
              else _build_candidates normalized media_type source key_hint
        end
    end.

(** [walk]: the candidates it appends, in the order it appends them. *)
Fixpoint walk (base_url source : string) (media_type_hint : option string)
    (value : json) (key_hint : string) {struct value} : result (list MediaCandidate) :=
  match value with
  | JDict entries =>
      (fix walk_entries (entries : list (string * json)) : result (list MediaCandidate) :=
         match entries with
         | [] => Ok []
         | (key, nested) :: entries' =>
             let? found := walk base_url source media_type_hint nested key in
             let? rest := walk_entries entries' in
             Ok (found ++ rest)%list
         end) entries
  | JList items =>
      (fix walk_items (items : list json) : result (list MediaCandidate) :=
         match items with
         | [] => Ok []
         | nested :: items' =>
             let? found := walk base_url source media_type_hint nested key_hint in
             let? rest := walk_items items' in
             Ok (found ++ rest)%list
         end) items
  | JStr value => walk_string base_url source media_type_hint value key_hint
  | _ => Ok []
  end.

Definition _extract_candidates_from_object (payload : json) (base_url source : string)
    (media_type_hint : option string) : result (list MediaCandidate) :=
  let? candidates := walk base_url source media_type_hint payload "" in
  Ok (_sort_and_dedupe candidates).

(** One entry of the [images] dictionary. *)
Definition image_entry_candidates (base_url : string) (entry : string * json)
    : result (list MediaCandidate) :=
  let '(size_key, details) := entry in
  match details with
  | JDict fields =>
      match Json.dict_get "url" fields with
      | JStr raw_url =>
          let? normalized := _normalize_candidate raw_url base_url in
          match and_truthy true normalized with
          | None => Ok []
          | Some normalized =>
              let? placeholder := _is_placeholder_image normalized in
              if placeholder then Ok []
              else _build_candidates normalized "image" "api-images" size_key
          end
      | _ => Ok []
      end
  | _ => Ok []
  end.

(** [_fetch_pin_api_candidates] from the decoded [payload] on. *)
Definition pin_api_candidates (pin_id : string) (payload : json)
    : result (list MediaCandidate) :=
  let? data := Json.get payload "data" in
  match data with
  | JList (pin_data :: _) =>
      match pin_data with
      | JDict fields =>
          let base_url := "https://www.pinterest.com/pin/" ++ pin_id ++ "/" in
          let? from_images :=
            match Json.dict_get "images" fields with
            | JDict images => concat_mapM (image_entry_candidates base_url) images
            | _ => Ok []
            end in
          let videos := Json.dict_get "videos" fields in
          let? from_videos :=
            if negb (Json.is_None videos)
            then _extract_candidates_from_object videos base_url "api-videos" (Some "video")
            else Ok [] in
          let story_pin_data := Json.dict_get "story_pin_data" fields in
          let? from_story :=
            if negb (Json.is_None story_pin_data)
            then _extract_candidates_from_object story_pin_data base_url "api-story" None
            else Ok [] in
          let? from_fallback :=
            if Json.truthy (Json.dict_get "is_video" fields)
            then _extract_candidates_from_object pin_data base_url "api-fallback" (Some "video")
            else Ok [] in
          Ok (_sort_and_dedupe (from_images ++ from_videos ++ from_story ++ from_fallback)%list)
      | _ => Ok []
      end
  | _ => Ok []
  end.

Definition meta_candidates (base_url raw : string) : result (list MediaCandidate) :=
  let? normalized := _normalize_candidate raw base_url in
  match and_truthy true normalized with
  | None => Ok []
  | Some normalized =>
      let? placeholder := _is_placeholder_image normalized in
      if placeholder then Ok []
      else _build_candidates normalized "image" "meta" "meta"
  end.

Definition ldjson_block_candidates (base_url : string) (m : Re.Match)
    : result (list MediaCandidate) :=
  let raw_json := Py.strip (default "" (Re.group1 m)) in
  if negb (Py.truthy raw_json) then Ok []
  else
    match json_loads raw_json with
    | None => Ok []
    | Some payload => _extract_candidates_from_object payload base_url "ldjson" None
    end.

Definition _extract_ldjson_candidates (html_text base_url : string)
    : result (list MediaCandidate) :=
  let? candidates :=
    concat_mapM (ldjson_block_candidates base_url) (Re.finditer LD_JSON_PATTERN html_text) in
  Ok (_sort_and_dedupe candidates).

Definition hosted_candidates (base_url : string) (m : Re.Match)
    : result (list MediaCandidate) :=
  let? normalized := _normalize_candidate (Re.group0 m) base_url in
  match and_truthy true normalized with
  | None => Ok []
  | Some normalized =>
      let? media_type := infer_media_type_from_url normalized in
      match and_truthy true media_type with
      | None => Ok []
      | Some media_type =>
          let? placeholder :=
            if String.eqb media_type "image"
            then _is_placeholder_image normalized else Ok false in
          if placeholder then Ok []
          else _build_candidates normalized media_type "html-regex" ""
      end
  end.

Definition _extract_html_candidates (html_text base_url : string)
    : result (list MediaCandidate) :=
  let? from_meta :=
    concat_mapM
      (fun pattern =>
         concat_mapM (fun m => meta_candidates base_url (default "" (Re.group1 m)))
           (Re.finditer pattern html_text))
      META_IMAGE_PATTERNS in
  let? ldjson_candidates := _extract_ldjson_candidates html_text base_url in
  let candidates := (from_meta ++ ldjson_candidates)%list in
  match candidates with
  | _ :: _ => Ok (_sort_and_dedupe candidates)
  | [] =>
      let? from_regex :=
        concat_mapM (hosted_candidates base_url)
          (Re.finditer HOSTED_MEDIA_PATTERN html_text) in
      Ok (_sort_and_dedupe from_regex)
  end.

(** One key of the oEmbed answer, [thumbnail_url] or [url]. *)
Definition oembed_key_candidates (page_url : string) (payload : json) (key : string)
    : result (list MediaCandidate) :=
  let? value := Json.get payload key in
  match value with
  | JStr value =>
      let? normalized := _normalize_candidate value page_url in
      match and_truthy true normalized with
      | None => Ok []
      | Some normalized =>
          let? media_type := infer_media_type_from_url normalized in
          let? placeholder :=
            if bool_decide (media_type = Some "image")
            then _is_placeholder_image normalized else Ok false in
          if placeholder then Ok []
          else
            match and_truthy true media_type with
            | Some media_type =>
                _build_candidates normalized media_type ("oembed-" ++ key) key
            | None => Ok []
            end
      end
  | _ => Ok []
  end.

Definition preferred_hosts : list string := ["i.pinimg.com"; "v1.pinimg.com"].

Definition is_preferred (item : MediaCandidate) : result bool :=
  if String.eqb (media_type item) "video" then Ok true
  else
    let? parsed := urllib.urlparse (url item) in
    Ok (Py.in_list (Py.lower (urllib.netloc parsed)) preferred_hosts).

Section WithSession.
Context {session : Session}.
#[local] Open Scope net_scope.

(** [session.get(...)], [raise_for_status()] and [response.json()] under
    [try], with [None] for the [except] branch. *)
Definition fetch_json (endpoint : string) : Net.M (option json) :=
  Net.try_except
    (let* response := Net.get endpoint in
     let* _ := Net.lift (Net.raise_for_status response) in
     let* payload := Net.lift (Net.json_of response) in
     Net.ret (Some payload))
    request_or_value_error
    (Net.ret None).

Definition _fetch_pin_api_candidates (pin_id : string) : Net.M (list MediaCandidate) :=
  let endpoint := "https://api.pinterest.com/v3/pidgets/pins/info/?pin_ids=" ++ pin_id in
  let* fetched := fetch_json endpoint in
  match fetched with
  | None => Net.ret []
  | Some payload => Net.lift (pin_api_candidates pin_id payload)
  end.

Definition oembed_endpoint (page_url : string) : string :=
  "https://www.pinterest.com/oembed.json?url=" ++ quoting.quote page_url.

Definition _fetch_oembed_media_candidates (page_url : string)
    : Net.M (list MediaCandidate) :=
  let* fetched := fetch_json (oembed_endpoint page_url) in
  match fetched with
  | None => Net.ret []
  | Some payload =>
      let* candidates :=
        Net.lift (concat_mapM (oembed_key_candidates page_url payload)
                    ["thumbnail_url"; "url"]) in
      Net.ret (_sort_and_dedupe candidates)
  end.

Definition _resolve_pin_id_via_oembed (page_url : string) : Net.M (option string) :=
  let* fetched := fetch_json (oembed_endpoint page_url) in
  match fetched with
  | None => Net.ret None
  | Some payload =>
      let* html_embed := Net.lift (Json.get payload "html") in
      match html_embed with
      | JStr html_embed =>
          match Re.search OEMBED_PIN_ID_RE html_embed with
          | Some m => Net.ret (Re.group1 m)
          | None => Net.ret None
          end
      | _ => Net.ret None
      end
  end.

(** [a or b] on optional strings, by truth value. *)
Definition or_else (a : option string) (b : option string) : option string :=
  match and_truthy true a with
  | Some s => Some s
  | None => b
  end.

(** The test of the direct fast path on the normalized input, and of the
    redirect fast path on the final address: the media type when the host is
    a media host and the type can be told. *)
Definition direct_media_type_of (normalized : string) : result (option string) :=
  let? parsed := urllib.urlparse normalized in
  let? direct_media_type := infer_media_type_from_url normalized in
  Ok (and_truthy (_is_pinimg_host (urllib.netloc parsed)) direct_media_type).

Definition final_media_type_of (final_url : string) : result (option string) :=
  let? final_media_type := infer_media_type_from_url final_url in
  let? final_parsed := urllib.urlparse final_url in
  Ok (and_truthy (_is_pinimg_host (urllib.netloc final_parsed)) final_media_type).

(** Third strategy: find the pin id, then ask the private API. *)
Definition api_strategy (normalized : string) (response : Response)
    : Net.M (list MediaCandidate) :=
  let final_url := resp_url response in
  let pin_id := _extract_pin_id final_url in
  let pin_id := or_else pin_id (_extract_pin_id normalized) in
  let pin_id := or_else pin_id (_extract_pin_id (resp_text response)) in
  let* pin_id :=
    match and_truthy true pin_id with
    | Some pin_id => Net.ret (Some pin_id)
    | None => _resolve_pin_id_via_oembed final_url
    end in
  match and_truthy true pin_id with
  | Some pin_id => _fetch_pin_api_candidates pin_id
  | None => Net.ret []
  end.

(** Fourth strategy: the page body and the oEmbed answer, merged, then the
    preferred-host filter. *)
Definition html_strategy (response : Response) : Net.M (list MediaCandidate) :=
  let final_url := resp_url response in
  let* html_candidates :=
    Net.lift (_extract_html_candidates (resp_text response) final_url) in
  let* oembed_candidates := _fetch_oembed_media_candidates final_url in
  let deduped := _sort_and_dedupe (html_candidates ++ oembed_candidates)%list in
  let* preferred := Net.lift (filterM is_preferred deduped) in
  Net.ret (match preferred with _ :: _ => preferred | [] => deduped end).

Definition resolve_media_candidates (pin_url : string) : Net.M (list MediaCandidate) :=
  let normalized := normalize_url pin_url in
  let* valid := Net.lift (is_valid_http_url normalized) in
  if negb valid then Net.raise (ResolutionError "Invalid URL format.")
  else
    let* direct := Net.lift (direct_media_type_of normalized) in
    match direct with
    | Some direct_media_type =>
        let* candidates :=
          Net.lift (_build_candidates normalized direct_media_type "direct" "orig") in
        Net.ret (_sort_and_dedupe candidates)
    | None =>
        let* response := Net.get normalized in
        let* _ := Net.lift (Net.raise_for_status response) in
        let final_url := resp_url response in
        let* redirect := Net.lift (final_media_type_of final_url) in
        match redirect with
        | Some final_media_type =>
            let* candidates :=
              Net.lift (_build_candidates final_url final_media_type "redirect" "orig") in
            Net.ret (_sort_and_dedupe candidates)
        | None =>
            let* api_candidates := api_strategy normalized response in
            match api_candidates with
            | _ :: _ => Net.ret (_sort_and_dedupe api_candidates)
            | [] =>
                let* deduped := html_strategy response in
                match deduped with
                | [] =>
                    Net.raise (ResolutionError
                      "Could not detect image or video media on this Pinterest page.")
                | _ :: _ => Net.ret deduped
                end
            end
        end
    end.

(** [resolve_image_urls] *)
Definition resolve_image_urls (pin_url : string) : Net.M (list string) :=
  let* media_candidates := resolve_media_candidates pin_url in
  match List.filter (fun item => String.eqb (media_type item) "image") media_candidates with
  | [] => Net.raise (ResolutionError "No downloadable image found for this URL.")
  | items => Net.ret (List.map url items)
  end.
End WithSession.
End WithLib.

End pinterest_resolver.

(** ** [app/services/profile_collector.py] *)

Module profile_collector.
Import validation pinterest_urls.

Definition dq : string := String "034" EmptyString.

(** The [<script id=__PWS_INITIAL_PROPS__ type=application/json>] element,
    attribute values in double quotes, and its body [(.*?)] up to
    [</script>]; DOTALL. *)
Definition INITIAL_PROPS_SCRIPT_RE : Re.regex :=
  Re.seq [Re.lit ("<script id=" ++ dq ++ "__PWS_INITIAL_PROPS__" ++ dq
                  ++ " type=" ++ dq ++ "application/json" ++ dq ++ ">");
          Re.Grp (Re.lazy_star Re.dot_all); Re.lit "</script>"].

(** [/pin/(\d+)/], IGNORECASE *)
Definition PIN_PATH_RE : Re.regex :=
  Re.seq [Re.ilit "/pin/"; Re.Grp (Re.plus Re.digit); Re.chr "/"].

Record ProfileCollectionResult := {
  profile_url : string;
  profile_username : string;
  pin_urls : list string;
  discovered_count : Z;
}.

Definition _can_continue_pagination (bookmark : json) (max_pins current_count : Z) : bool :=
  if (max_pins >? 0) && (current_count >=? max_pins) then false
  else
    match bookmark with
    | JStr bookmark =>
        if negb (Py.truthy bookmark) then false
        else if String.eqb bookmark "-end-" then false
        else true
    | _ => false
    end.

Definition row_pin_url (row : json) : list string :=
  match row with
  | JDict fields =>
      let by_id :=
        match Json.dict_get "id" fields with
        | JStr pin_id =>
            if Py.str_isdigit pin_id then [canonical_pin_url pin_id] else []
        | _ => []
        end in
      match Json.dict_get "seo_url" fields with
      | JStr seo_url =>
          match Re.search PIN_PATH_RE seo_url with
          | Some m => [canonical_pin_url (default "" (Re.group1 m))]
          | None => by_id
          end
      | _ => by_id
      end
  | _ => []
  end.

Definition _extract_pin_urls_from_resource_data (rows : json) : list string :=
  match rows with
  | JList rows => List.concat (List.map row_pin_url rows)
  | _ => []
  end.

Definition _extract_pin_urls_from_html (html_text : string) : list string :=
  List.map canonical_pin_url (Re.findall1 PIN_PATH_RE html_text).

Definition is_dict (v : json) : bool :=
  match v with
  | JDict _ => true
  | _ => false
  end.

Definition _extract_user_pins_entry (initial_props : list (string * json)) : option json :=
  match Json.dict_get "initialReduxState" initial_props with
  | JDict state =>
      match Json.dict_get "resources" state with
      | JDict resources =>
          match Json.dict_get "UserPinsResource" resources with
          | JDict (((first_key, _) :: _) as user_pins_resource) =>
              let entry := Json.dict_get first_key user_pins_resource in
              if is_dict entry then Some entry else None
          | _ => None
          end
      | _ => None
      end
  | _ => None
  end.

Section WithLib.
Context {lib : PyLib}.

Definition _parse_initial_props (html_text : string) : option (list (string * json)) :=
  match Re.search INITIAL_PROPS_SCRIPT_RE html_text with
  | None => None
  | Some m =>
      match json_loads (default "" (Re.group1 m)) with
      | Some (JDict payload) => Some payload
      | _ => None
      end
  end.

Definition dedupe_step (acc : list string * gset string) (url : string)
    : result (list string * gset string) :=
  let '(deduped, seen) := acc in
  let? parsed := urllib.urlparse url in
  let normalized := urllib.geturl (urllib.replace_query_fragment parsed "" "") in
  if bool_decide (normalized ∈ seen) then Ok acc
  else Ok ((deduped ++ [normalized])%list, seen ∪ {[ normalized ]}).

Fixpoint dedupe_go (acc : list string * gset string) (urls : list string)
    : result (list string * gset string) :=
  match urls with
  | [] => Ok acc
  | url :: urls' =>
      let? acc' := dedupe_step acc url in
      dedupe_go acc' urls'
  end.

Definition _dedupe_urls (urls : list string) : result (list string) :=
  let? acc := dedupe_go ([], ∅) urls in
  Ok (fst acc).

(** [deduped[:max_pins]] under [if max_pins > 0]. *)
Definition truncate (max_pins : Z) (deduped : list string) : list string :=
  if max_pins >? 0 then List.firstn (Z.to_nat max_pins) deduped else deduped.

Definition page_payload (profile_username bookmark : string) : json :=
  JDict [("options",
          JDict [("add_vase", JBool true);
                 ("field_set_key", JStr "mobile_grid_item");
                 ("is_own_profile_pins", JBool false);
                 ("username", JStr profile_username);
                 ("bookmarks", JList [JStr bookmark])]);
         ("context", JDict [])].

(** [dict.update] of the headers: a present name keeps its place. *)
Definition page_headers (profile_url : string) (csrf : option string)
    : list (string * string) :=
  let headers :=
    foldl (fun d kv => OrderedDict.set (fst kv) (snd kv) d) HTTP_HEADERS
      [("Referer", profile_url);
       ("X-Requested-With", "XMLHttpRequest");
       ("X-Pinterest-AppState", "active");
       ("Accept", "application/json, text/javascript, */*; q=0.01")] in
  match csrf with
  | Some csrf => if Py.truthy csrf then OrderedDict.set "X-CSRFToken" csrf headers else headers
  | None => headers
  end.

Section WithSession.
Context {session : Session}.
#[local] Open Scope net_scope.

Definition _fetch_user_pins_page (profile_username profile_url bookmark : string)
    : Net.M (list json * string) :=
  let params :=
    [("source_url", "/" ++ profile_username ++ "/");
     ("data", json_dumps (page_payload profile_username bookmark));
     ("_", "1700000000000")] in
  let* csrf := Net.cookie "csrftoken" in
  let headers := page_headers profile_url csrf in
  let* response :=
    Net.post "https://www.pinterest.com/resource/UserPinsResource/get/" params headers in
  if status_code response =? 403 then Net.ret ([], "-end-")
  else
    let* _ := Net.lift (Net.raise_for_status response) in
    match resp_json response with
    | None => Net.ret ([], "-end-")
    | Some payload_json =>
        let* resource_response := Net.lift (Json.get payload_json "resource_response") in
        match resource_response with
        | JDict resource_response =>
            let data := Json.dict_get "data" resource_response in
            let bookmark_value :=
              match Json.dict_get "bookmark" resource_response with
              | JStr b => b
              | _ => "-end-"
              end in
            match data with
            | JList data => Net.ret (List.filter is_dict data, bookmark_value)
            | _ => Net.ret ([], bookmark_value)
            end
        | _ => Net.ret ([], "-end-")
        end
    end.

(** The variables of the pagination loop; [sent] lists, in order, the
    cursors handed to [_fetch_user_pins_page]. *)
Record Pagination := {
  collected : list string;
  bookmark : json;
  seen_bookmarks : gset string;
  sent : list string;
}.

(** One turn of the [while] loop: [inl] when the loop is left, [inr] when it
    goes round again. *)
Definition pagination_turn (username canonical_profile : string) (max_pins : Z)
    (st : Pagination) : Net.M (Pagination + Pagination) :=
  if negb (_can_continue_pagination (bookmark st) max_pins
             (Z.of_nat (List.length (collected st))))
  then Net.ret (inl st)
  else
    match bookmark st with
    | JStr b =>
        if bool_decide (b ∈ seen_bookmarks st) then Net.ret (inl st)
        else
          let st := {| collected := collected st; bookmark := bookmark st;
                       seen_bookmarks := seen_bookmarks st ∪ {[ b ]};
                       sent := (sent st ++ [b])%list |} in
          let* (page_data, next_bookmark) :=
            _fetch_user_pins_page username canonical_profile b in
          match page_data with
          | [] => Net.ret (inl st)
          | _ :: _ =>
              Net.ret (inr {| collected :=
                                (collected st ++
                                 _extract_pin_urls_from_resource_data (JList page_data))%list;
                              bookmark := JStr next_bookmark;
                              seen_bookmarks := seen_bookmarks st;
                              sent := sent st |})
          end
    | _ => Net.ret (inl st)
    end.

(** The [while] loop, run for at most [fuel] turns: [inl] with the final
    variables when the loop was left, [inr] with the current ones when it is
    still going. *)
Fixpoint pagination_loop (fuel : nat) (username canonical_profile : string)
    (max_pins : Z) (st : Pagination) : Net.M (Pagination + Pagination) :=
  match fuel with
  | O => Net.ret (inr st)
  | S fuel' =>
      let* turn := pagination_turn username canonical_profile max_pins st in
      match turn with
      | inl final => Net.ret (inl final)
      | inr st' => pagination_loop fuel' username canonical_profile max_pins st'
      end
  end.

(** [collect_profile_pin_urls]; [None] when the pagination loop is still
    going after [fuel] turns. *)
Definition collect_profile_pin_urls (fuel : nat) (profile_url : string) (max_pins : Z)
    : Net.M (option ProfileCollectionResult) :=
  let normalized := normalize_url profile_url in
  let* valid := Net.lift (is_valid_http_url normalized) in
  if negb valid then Net.raise (ProfileCollectionError "Invalid profile URL format.")
  else
    let* username := Net.lift (extract_profile_username normalized) in
    match pinterest_resolver.and_truthy true username with
    | None =>
        Net.raise (ProfileCollectionError
          "Could not detect Pinterest profile username from this URL.")
    | Some username =>
        let canonical_profile := canonical_profile_url username in
        let* response := Net.get canonical_profile in
        let* _ := Net.lift (Net.raise_for_status response) in
        match _parse_initial_props (resp_text response) with
        | None | Some [] =>
            Net.raise (ProfileCollectionError
              "Could not parse profile data from Pinterest page.")
        | Some initial_data =>
            match _extract_user_pins_entry initial_data with
            | None | Some (JDict []) =>
                match _extract_pin_urls_from_html (resp_text response) with
                | [] =>
                    Net.raise (ProfileCollectionError
                      "No pins were detected on this profile.")
                | fallback =>
                    let* deduped := Net.lift (_dedupe_urls fallback) in
                    let deduped := truncate max_pins deduped in
                    Net.ret (Some {| profile_url := canonical_profile;
                                     profile_username := username;
                                     pin_urls := deduped;
                                     discovered_count := Z.of_nat (List.length deduped) |})
                end
            | Some initial_entry =>
                let* data := Net.lift (Json.get initial_entry "data") in
                let* next := Net.lift (Json.get initial_entry "nextBookmark") in
                let* final :=
                  pagination_loop fuel username canonical_profile max_pins
                    {| collected := _extract_pin_urls_from_resource_data data;
                       bookmark := next; seen_bookmarks := ∅; sent := [] |} in
                match final with
                | inr _ => Net.ret None
                | inl final =>
                    let* deduped := Net.lift (_dedupe_urls (collected final)) in
                    let deduped := truncate max_pins deduped in
                    match deduped with
                    | [] =>
                        Net.raise (ProfileCollectionError
                          "No downloadable pins found on this profile.")
                    | _ :: _ =>
                        Net.ret (Some {| profile_url := canonical_profile;
                                         profile_username := username;
                                         pin_urls := deduped;
                                         discovered_count := Z.of_nat (List.length deduped) |})
                    end
                end
            end
        end
    end.
End WithSession.
End WithLib.

End profile_collector.

(** ** More of [str] and [pathlib]

    What the file-name and input-line code uses on top of the above. *)

Module PyMore.

(** The ASCII line boundaries of [str.splitlines]: LF, VT, FF, CR, FS, GS
    and RS. *)
Definition is_linebreak (c : ascii) : bool :=
  Py.between 10 13 c || Py.between 28 30 c.

(** [s.splitlines()]: a CR LF pair is one boundary, and a boundary at the
    very end opens no further line.  [skip_lf] holds right after a CR. *)
Fixpoint splitlines_go (skip_lf : bool) (s : string) : list string :=
  match s with
  | EmptyString => []
  | String c s' =>
      if skip_lf && Ascii.eqb c "010" then splitlines_go false s'
      else if is_linebreak c then EmptyString :: splitlines_go (Ascii.eqb c "013") s'
      else match splitlines_go false s' with
           | w :: ws => String c w :: ws
           | [] => [String c EmptyString]
           end
  end.

Definition splitlines (s : string) : list string := splitlines_go false s.

(** [s[:n]], for [n] of either sign. *)
Definition slice_to (n : Z) (s : string) : string :=
  if (0 <=? n)%Z then Py.take (Z.to_nat n) s
  else Py.take (Py.len s - Z.to_nat (- n)) s.

Definition isalnum_c (c : ascii) : bool :=
  Py.isascii_c c && (Py.isalpha c || Py.isdigit_c c).

End PyMore.

Module pathlib_stem.

(** [PurePosixPath(p).stem] *)
Definition stem (p : string) : string :=
  let name := pathlib.name p in
  match Py.rfind "." name with
  | Some i => if (0 <? i)%nat && (i <? Py.len name - 1)%nat then Py.take i name else name
  | None => name
  end.

End pathlib_stem.

(** ** [app/utils/paths.py] *)

Module paths.

(** [[^A-Za-z0-9._-]+] *)
Definition invalid_filename_char (c : ascii) : bool :=
  negb (PyMore.isalnum_c c || Py.mem_c c "._-").

Definition INVALID_FILENAME_CHARS_RE : Re.regex := Re.plus invalid_filename_char.

Definition sanitize_filename (name : string) (max_length : Z) : string :=
  let cleaned := Re.sub INVALID_FILENAME_CHARS_RE (fun _ => "_") (Py.strip name) in
  let cleaned := Py.strip_chars "._ " cleaned in
  let cleaned := if negb (Py.truthy cleaned) then "image" else cleaned in
  PyMore.slice_to max_length cleaned.

(** The default of [max_length]. *)
Definition sanitize_filename_default (name : string) : string :=
  sanitize_filename name 96.

End paths.

(** ** [app/utils/validation.py], the input lines *)

Module validation_lines.
Section WithLib.
Context {lib : PyLib}.

(** The state of the loop of [parse_url_lines]. *)
Record Parsed := {
  valid_urls : list string;
  invalid_entries : list string;
  seen : gset string;
}.

Definition parse_line (st : Parsed) (line : string) : result Parsed :=
  let item := Py.strip line in
  if negb (Py.truthy item) then Ok st
  else
    let normalized := validation.normalize_url item in
    let? valid := validation.is_valid_http_url normalized in
    if negb valid then
      Ok {| valid_urls := valid_urls st;
            invalid_entries := invalid_entries st ++ [item];
            seen := seen st |}
    else if bool_decide (normalized ∉ seen st) then
      Ok {| valid_urls := valid_urls st ++ [normalized];
            invalid_entries := invalid_entries st;
            seen := {[ normalized ]} ∪ seen st |}
    else Ok st.

Fixpoint parse_lines (st : Parsed) (lines : list string) : result Parsed :=
  match lines with
  | [] => Ok st
  | line :: lines' =>
      let? st' := parse_line st line in
      parse_lines st' lines'
  end.

Definition parse_url_lines (text : string) : result (list string * list string) :=
  let? st := parse_lines {| valid_urls := []; invalid_entries := []; seen := ∅ |}
               (PyMore.splitlines text) in
  Ok (valid_urls st, invalid_entries st).
End WithLib.
End validation_lines.

(** ** [app/utils/media.py], the type of a saved file *)

Module media_paths.

Definition infer_media_type_from_path (path_value : string) : option string :=
  let suffix := Py.lower (pathlib.suffix path_value) in
  if Py.in_list suffix media.VIDEO_EXTENSIONS then Some "video"
  else if Py.in_list suffix media.IMAGE_EXTENSIONS then Some "image"
  else None.

End media_paths.

(** ** [app/services/downloader.py], the name of the saved file *)

Module downloader.

Definition IMAGE_CONTENT_TYPE_TO_EXT : list (string * string) :=
  [("image/jpeg", ".jpg"); ("image/jpg", ".jpg"); ("image/png", ".png");
   ("image/webp", ".webp"); ("image/gif", ".gif"); ("image/bmp", ".bmp");
   ("image/tiff", ".tiff")].

Definition VIDEO_CONTENT_TYPE_TO_EXT : list (string * string) :=
  [("video/mp4", ".mp4"); ("video/quicktime", ".mov"); ("video/webm", ".webm");
   ("video/x-msvideo", ".avi"); ("video/x-matroska", ".mkv"); ("video/3gpp", ".3gp");
   ("application/vnd.apple.mpegurl", ".m3u8")].

Definition CONTENT_TYPE_TO_EXT : list (string * string) :=
  (IMAGE_CONTENT_TYPE_TO_EXT ++ VIDEO_CONTENT_TYPE_TO_EXT)%list.

Fixpoint lookup (key : string) (table : list (string * string)) : option string :=
  match table with
  | [] => None
  | (k, v) :: table' => if String.eqb key k then Some v else lookup key table'
  end.

Section WithLib.
Context {lib : PyLib}.

(** [urllib.parse.unquote], which decodes percent escapes. *)
Context (unquote : string -> string).

Definition _detect_extension (media_url basename content_type : string) : result string :=
  let suffix := Py.lower (pathlib.suffix basename) in
  if Py.truthy suffix then
    Ok (if String.eqb suffix ".jpeg" then ".jpg" else suffix)
  else
    let ct := Py.lower (Py.strip (List.hd "" (Py.split ";" content_type))) in
    match lookup ct CONTENT_TYPE_TO_EXT with
    | Some ext => Ok ext
    | None =>
        let? media_type := media.infer_media_type_from_url media_url in
        if bool_decide (media_type = Some "video") then Ok ".mp4" else Ok ".jpg"
    end.

Definition _build_filename (media_url content_type prefix : string) : result string :=
  let? parsed := urllib.urlparse media_url in
  let basename := unquote (pathlib.name (urllib.path parsed)) in
  let candidate_stem :=
    if Py.truthy basename then pathlib_stem.stem basename else "pinterest_media" in
  let stem := paths.sanitize_filename_default candidate_stem in
  let stem :=
    if Py.truthy prefix then paths.sanitize_filename_default (prefix ++ "_" ++ stem)
    else stem in
  let? extension := _detect_extension media_url basename content_type in
  Ok (stem ++ extension).
End WithLib.
End downloader.

(** ** [app/workers/download_worker.py], the queue of a run *)

Module download_worker.
Import pinterest_urls.

(** The dictionary that [_build_download_queue] returns, by its keys
    [pin_urls], [notes] and [discovered]. *)
Record QueuePayload := {
  pin_urls : list string;
  queue_notes : list string;
  discovered : Z;
}.

(** The variables of the loop of [_build_download_queue]. *)
Record Expansion := {
  expanded_pin_urls : list string;
  notes : list string;
  discovered_total : Z;
}.

(** [except (ProfileCollectionError, requests.RequestException)] *)
Definition scan_failure (exc : exn) : bool :=
  match exc with
  | ProfileCollectionError _ | RequestException _ | HTTPError _ => true
  | _ => false
  end.

(** [DownloadWorker._dedupe_urls] *)
Definition _dedupe_urls (urls : list string) : list string :=
  fst (foldl pinterest_resolver.dedupe_step ([], ∅) urls).

Section WithSession.
Context {lib : PyLib} {session : Session}.
(** [str(exc)] *)
Context (str_exc : exn -> string).
#[local] Open Scope net_scope.

(** The body of the loop for one source, once the cancellation flag has
    been found unset; [None] when the enumeration of a profile is still
    going after [fuel] turns. *)
Definition expand_source (fuel : nat) (max_profile_pins : Z) (st : Expansion)
    (source_url : string) : Net.M (option Expansion) :=
  let* profile := Net.lift (is_profile_url source_url) in
  if negb profile
  then Net.ret (Some {| expanded_pin_urls := (expanded_pin_urls st ++ [source_url])%list;
                        notes := notes st;
                        discovered_total := discovered_total st |})
  else
    fun w =>
      match profile_collector.collect_profile_pin_urls fuel source_url max_profile_pins w with
      | (Ok (Some result), w') =>
          let note :=
            ("Profile @" ++ profile_collector.profile_username result
             ++ ": discovered " ++ pretty (profile_collector.discovered_count result)
             ++ " pin(s).")%string in
          (Ok (Some {| expanded_pin_urls :=
                         (expanded_pin_urls st ++ profile_collector.pin_urls result)%list;
                       notes := (notes st ++ [note])%list;
                       discovered_total :=
                         discovered_total st + profile_collector.discovered_count result |}),
           w')
      | (Ok None, w') => (Ok None, w')
      | (Raise exc, w') =>
          let note :=
            ("Profile scan failed (" ++ source_url ++ "): " ++ str_exc exc)%string in
          if scan_failure exc
          then (Ok (Some {| expanded_pin_urls := expanded_pin_urls st;
                            notes := (notes st ++ [note])%list;
                            discovered_total := discovered_total st |}), w')
          else (Raise exc, w')
      end.

(** The loop over [source_urls]; [cancelled k] is the value of the flag
    [_cancelled] when the turn number [k] reads it. *)
Fixpoint expand_sources (fuel : nat) (max_profile_pins : Z) (cancelled : nat -> bool)
    (k : nat) (st : Expansion) (source_urls : list string) : Net.M (option Expansion) :=
  match source_urls with
  | [] => Net.ret (Some st)
  | source_url :: rest =>
      if cancelled k then Net.ret (Some st)
      else
        let* next := expand_source fuel max_profile_pins st source_url in
        match next with
        | None => Net.ret None
        | Some st' => expand_sources fuel max_profile_pins cancelled (S k) st' rest
        end
  end.

Definition _build_download_queue (fuel : nat) (source_urls : list string)
    (max_profile_pins : Z) (cancelled : nat -> bool) : Net.M (option QueuePayload) :=
  let* final :=
    expand_sources fuel max_profile_pins cancelled 0
      {| expanded_pin_urls := []; notes := []; discovered_total := 0 |} source_urls in
  match final with
  | None => Net.ret None
  | Some st =>
      Net.ret (Some {| pin_urls := _dedupe_urls (expanded_pin_urls st);
                       queue_notes := notes st;
                       discovered := discovered_total st |})
  end.
End WithSession.
End download_worker.

(** ** Instances for the examples *)

Module Examples.
Import pinterest_resolver profile_collector.

(** A character-reference table that knows no name: the text is left as it
    stands. *)
Definition no_reference (s : string) : string := "&" ++ s.

Definition q (s : string) : string := dq ++ s ++ dq.

(** The initial state of a profile page with three pins and no further
    page, as JSON text and decoded. *)
Definition profile_props_text : string :=
  "{" ++ q "initialReduxState" ++ ":{" ++ q "resources" ++ ":{"
  ++ q "UserPinsResource" ++ ":{" ++ q "key" ++ ":{" ++ q "data" ++ ":[{"
  ++ q "id" ++ ":" ++ q "1" ++ "},{" ++ q "id" ++ ":" ++ q "2" ++ "},{"
  ++ q "id" ++ ":" ++ q "3" ++ "}]," ++ q "nextBookmark" ++ ":" ++ q "-end-"
  ++ "}}}}}".

Definition profile_props : json :=
  JDict [("initialReduxState",
    JDict [("resources",
      JDict [("UserPinsResource",
        JDict [("key",
          JDict [("data", JList [JDict [("id", JStr "1")];
                                 JDict [("id", JStr "2")];
                                 JDict [("id", JStr "3")]]);
                 ("nextBookmark", JStr "-end-")])])])])].

(** The same page with one pin and a cursor for a second page. *)
Definition paged_props_text : string :=
  "{" ++ q "initialReduxState" ++ ":{" ++ q "resources" ++ ":{"
  ++ q "UserPinsResource" ++ ":{" ++ q "key" ++ ":{" ++ q "data" ++ ":[{"
  ++ q "id" ++ ":" ++ q "1" ++ "}]," ++ q "nextBookmark" ++ ":" ++ q "B1"
  ++ "}}}}}".

Definition paged_props : json :=
  JDict [("initialReduxState",
    JDict [("resources",
      JDict [("UserPinsResource",
        JDict [("key",
          JDict [("data", JList [JDict [("id", JStr "1")]]);
                 ("nextBookmark", JStr "B1")])])])])].

(** A decoder that knows the two documents above. *)
Definition example_json_loads (s : string) : option json :=
  if String.eqb s profile_props_text then Some profile_props
  else if String.eqb s paged_props_text then Some paged_props
  else None.

(** The example servers do not read the request data, so the encoder is
    left trivial; no host of the examples is an IP literal. *)
Definition example_lib : PyLib := {|
  replace_charref := no_reference;
  json_loads := example_json_loads;
  json_dumps := fun _ => "{}";
  ip_address_is_v6 := fun _ => None;
|}.

Definition page (body : string) (address : string) : Response :=
  {| resp_url := address; resp_text := body; status_code := 200; resp_json := None |}.

Definition answer (j : json) (address : string) : Response :=
  {| resp_url := address; resp_text := EmptyString; status_code := 200;
     resp_json := Some j |}.

(** No network: every request fails. *)
Definition offline : Session := {|
  World := unit;
  session_get := fun _ _ w => (inl "Connection refused", w);
  session_post := fun _ _ _ w => (inl "Connection refused", w);
  session_cookie := fun _ _ => None;
|}.

(** The item-info answer of the specification's scenario. *)
Definition item_info : json :=
  JDict [("data",
    JList [JDict [("images",
      JDict [("736x", JDict [("url", JStr "https://i.pinimg.com/736x/aa/bb/cc.jpg")])])]])].

(** A site that serves an empty page for every address and [item_info] from
    the private API. *)
Definition item_site : Session := {|
  World := unit;
  session_get := fun address _ w =>
    if Py.startswith "https://api.pinterest.com/" address
    then (inr (answer item_info address), w)
    else (inr (page EmptyString address), w);
  session_post := fun _ _ _ w => (inl "Connection refused", w);
  session_cookie := fun _ _ => None;
|}.

Definition script (body : string) : string :=
  "<html><script id=" ++ dq ++ "__PWS_INITIAL_PROPS__" ++ dq ++ " type=" ++ dq
  ++ "application/json" ++ dq ++ ">" ++ body ++ "</script></html>".

(** A profile with three pins on its first and only page. *)
Definition profile_site : Session := {|
  World := unit;
  session_get := fun address _ w => (inr (page (script profile_props_text) address), w);
  session_post := fun _ _ _ w => (inl "Connection refused", w);
  session_cookie := fun _ _ => None;
|}.

(** A profile whose second page repeats the cursor of the first: the
    resource endpoint always answers one row and the bookmark [B1].  The
    world counts the requests to the resource endpoint. *)
Definition looping_page : json :=
  JDict [("resource_response",
    JDict [("data", JList [JDict [("id", JStr "2")]]); ("bookmark", JStr "B1")])].

Definition looping_site : Session := {|
  World := nat;
  session_get := fun address _ w => (inr (page (script paged_props_text) address), w);
  session_post := fun address _ _ w => (inr (answer looping_page address), S w);
  session_cookie := fun _ _ => None;
|}.

(** States of the pagination loop on [looping_site]: on entry, and after
    the one page that is fetched. *)
Definition looping_row : json := JDict [("id", JStr "2")].

Definition looping_start : Pagination :=
  {| collected := []; bookmark := JStr "B1"; seen_bookmarks := ∅; sent := [] |}.

Definition looping_final : Pagination :=
  {| collected :=
       ([] ++ _extract_pin_urls_from_resource_data (JList [looping_row]))%list;
     bookmark := JStr "B1";
     seen_bookmarks := ∅ ∪ {[ "B1" ]};
     sent := ([] ++ ["B1"])%list |}.

Definition ended_start : Pagination :=
  {| collected := []; bookmark := JStr "-end-"; seen_bookmarks := ∅; sent := [] |}.

Definition no_request : @World looping_site := 0%nat.
Definition one_request : @World looping_site := 1%nat.

(** The three pins of [profile_site], and the loop variables on entry. *)
Definition three_pins : list string :=
  ["https://www.pinterest.com/pin/1/"; "https://www.pinterest.com/pin/2/";
   "https://www.pinterest.com/pin/3/"].

Definition three_pins_start : Pagination :=
  {| collected := three_pins; bookmark := JStr "-end-"; seen_bookmarks := ∅; sent := [] |}.

Definition two_of_three : ProfileCollectionResult :=
  {| profile_url := "https://www.pinterest.com/alice/";
     profile_username := "alice";
     pin_urls := ["https://www.pinterest.com/pin/1/"; "https://www.pinterest.com/pin/2/"];
     discovered_count := 2 |}.

(** Candidates of the examples. *)
Definition resized_236 : MediaCandidate :=
  {| url := "https://i.pinimg.com/236x/abc/def.jpg"; media_type := "image";
     quality_score := 10772; source := "direct" |}.

Definition originals_236 : MediaCandidate :=
  {| url := "https://i.pinimg.com/originals/abc/def.jpg"; media_type := "image";
     quality_score := 10300; source := "direct" |}.

Definition low : MediaCandidate :=
  {| url := "https://i.pinimg.com/a.jpg"; media_type := "image";
     quality_score := 1300; source := "meta" |}.

Definition high : MediaCandidate :=
  {| url := "https://i.pinimg.com/a.jpg"; media_type := "image";
     quality_score := 10300; source := "api-images" |}.

(** The image of the item-info scenario, its originals variant, and the
    two candidates built from them. *)
Definition image_736x : string := "https://i.pinimg.com/736x/aa/bb/cc.jpg".
Definition image_originals : string := "https://i.pinimg.com/originals/aa/bb/cc.jpg".

Definition image_candidates : list MediaCandidate :=
  [ {| url := image_originals; media_type := "image"; quality_score := 10300;
       source := "api-images" |};
    {| url := image_736x; media_type := "image"; quality_score := 2772;
       source := "api-images" |} ].

(** Sources of a run on [profile_site]: a pin given twice, a profile, and an
    address that is not of Pinterest; and the queue built from them when at
    most two pins are taken from a profile. *)
Definition queue_sources : list string :=
  ["https://www.pinterest.com/pin/3/"; "https://www.pinterest.com/alice/";
   "https://www.pinterest.com/pin/3/"; "https://example.com/x"].

Definition queue_of_sources : download_worker.QueuePayload :=
  {| download_worker.pin_urls :=
       ["https://www.pinterest.com/pin/3/"; "https://www.pinterest.com/pin/1/";
        "https://www.pinterest.com/pin/2/"; "https://example.com/x"];
     download_worker.queue_notes := ["Profile @alice: discovered 2 pin(s)."];
     download_worker.discovered := 2 |}.

Definition pin_sources : list string :=
  ["https://www.pinterest.com/pin/3/"; "https://example.com/x";
   "https://www.pinterest.com/pin/3/"].

End Examples.

(** ** Vocabulary of the statements *)

(** The exceptions of [r] all satisfy [P]. *)
Definition raises_only {A} (P : exn -> bool) (r : result A) : Prop :=
  forall e, r = Raise e -> P e = true.

Definition net_raises_only {session : Session} {A} (P : exn -> bool) (m : Net.M A) : Prop :=
  forall w e w', m w = (Raise e, w') -> P e = true.

(** Anything but the resolver's typed failure. *)
Definition not_ResolutionError (e : exn) : bool := negb (is_ResolutionError e).

Module resolver_props.
Import pinterest_resolver.

(** [a] is ranked no lower than [b]. *)
Definition score_ge (a b : MediaCandidate) : Prop := quality_score b <= quality_score a.

(** Non-increasing scores. *)
Definition ranked (l : list MediaCandidate) : Prop := StronglySorted score_ge l.

(** No two candidates with the same [(media_type, url)]. *)
Definition distinct_keys (l : list MediaCandidate) : Prop :=
  NoDup (List.map candidate_key l).

(** What the dictionary [by_key] holds after the candidates [seen] have gone
    through the loop of [_sort_and_dedupe]. *)
Record by_key_inv (seen : list MediaCandidate)
    (by_key : list (string * string * MediaCandidate)) : Prop := {
  inv_keys : NoDup (OrderedDict.keys by_key);
  inv_entry : forall key item, (key, item) ∈ by_key -> key = candidate_key item ∧ item ∈ seen;
  inv_best : forall item, item ∈ seen ->
    exists kept, OrderedDict.get (candidate_key item) by_key = Some kept
                 ∧ quality_score item <= quality_score kept;
}.

Definition no_media_message : string :=
  "Could not detect image or video media on this Pinterest page.".

(** On a valid input that is not itself a media address: the page is
    fetched, its final address is not a media address either, and the API
    strategy and the HTML strategy both come back empty. *)
Definition all_strategies_empty {lib : PyLib} {session : Session}
    (pin_url : string) (w w' : World) : Prop :=
  let normalized := validation.normalize_url pin_url in
  validation.is_valid_http_url normalized = Ok true
  ∧ direct_media_type_of normalized = Ok None
  ∧ exists response w1 w2,
      Net.get normalized w = (Ok response, w1)
      ∧ Net.raise_for_status response = Ok tt
      ∧ final_media_type_of (resp_url response) = Ok None
      ∧ api_strategy normalized response w1 = (Ok [], w2)
      ∧ html_strategy response w2 = (Ok [], w').

(** The item [fields] of the item-info scenario: one image entry, and
    nothing else that the extraction reads. *)
Definition image_only (fields : list (string * json)) : Prop :=
  Json.dict_get "images" fields
    = JDict [("736x", JDict [("url", JStr Examples.image_736x)])]
  ∧ Json.is_None (Json.dict_get "videos" fields) = true
  ∧ Json.is_None (Json.dict_get "story_pin_data" fields) = true
  ∧ Json.truthy (Json.dict_get "is_video" fields) = false.

(** The first segment of the path of a candidate's address. *)
Definition first_path_segment `{PyLib} (c : MediaCandidate) : result (option string) :=
  let? parsed := urllib.urlparse (url c) in
  Ok (head (Py.nonempty_segments "/" (urllib.path parsed))).
End resolver_props.

Module collector_props.
Import profile_collector.

(** The cursors sent so far are pairwise distinct and are exactly the ones
    recorded as seen. *)
Definition sent_once (st : Pagination) : Prop :=
  NoDup (sent st) ∧ forall b, b ∈ sent st <-> b ∈ seen_bookmarks st.

Definition state_of (r : Pagination + Pagination) : Pagination :=
  match r with
  | inl st | inr st => st
  end.

(** The variables on entry to the loop. *)
Definition fresh (urls : list string) (cursor : json) : Pagination :=
  {| collected := urls; bookmark := cursor; seen_bookmarks := ∅; sent := [] |}.

(** The variables once the cursor [b] has been recorded and sent, and once
    its page has been taken in. *)
Definition after_send (st : Pagination) (b : string) : Pagination :=
  {| collected := collected st; bookmark := bookmark st;
     seen_bookmarks := seen_bookmarks st ∪ {[ b ]};
     sent := (sent st ++ [b])%list |}.

Definition after_page (st : Pagination) (b : string)
    (rows : list json) (next : string) : Pagination :=
  {| collected := (collected st ++ _extract_pin_urls_from_resource_data (JList rows))%list;
     bookmark := JStr next;
     seen_bookmarks := seen_bookmarks st ∪ {[ b ]};
     sent := (sent st ++ [b])%list |}.

(** Every value that [m] returns satisfies [Q]. *)
Definition returns {session : Session} {A} (Q : A -> Prop) (m : Net.M A) : Prop :=
  forall w a w', m w = (Ok a, w') -> Q a.

(** The count that is returned is the length of the list that is returned,
    hence at most a positive [max_pins]. *)
Definition counted (max_pins : Z) (o : option ProfileCollectionResult) : Prop :=
  forall r, o = Some r ->
    discovered_count r = Z.of_nat (List.length (pin_urls r))
    ∧ (0 < max_pins -> discovered_count r <= max_pins).

(** Whatever result [m1] returns, [m2] returns too. *)
Definition extends_to {session : Session} {A} (m1 m2 : Net.M (option A)) : Prop :=
  forall w r w', m1 w = (Ok (Some r), w') -> m2 w = (Ok (Some r), w').

Section WithSession.
Context {lib : PyLib} {session : Session}.

(** The one request of [_fetch_user_pins_page] for the cursor [b]: the POST
    to the resource endpoint whose [data] holds the cursor. *)
Definition page_request (username profile b : string) (w : World)
    : (string + Response) * World :=
  session_post "https://www.pinterest.com/resource/UserPinsResource/get/"
    [("source_url", "/" ++ username ++ "/");
     ("data", json_dumps (page_payload username b));
     ("_", "1700000000000")]
    (page_headers profile (session_cookie "csrftoken" w)) w.

(** The state of the network once the pages of the cursors [cursors] have
    been asked for, by one call of [_fetch_user_pins_page] each, in order. *)
Fixpoint after_fetches (username profile : string) (cursors : list string) (w : World)
    : World :=
  match cursors with
  | [] => w
  | b :: rest =>
      after_fetches username profile rest (snd (_fetch_user_pins_page username profile b w))
  end.
End WithSession.

End collector_props.

Module normalize_props.
Import pinterest_resolver.

(** An address that spells out its scheme, in lower case. *)
Definition absolute_http (s : string) : Prop :=
  exists rest, s = "http://" ++ rest ∨ s = "https://" ++ rest.

(** None of the escaped forms that [_normalize_candidate] rewrites. *)
Definition no_escaped_separator (s : string) : Prop :=
  Py.contains "\/" s = false ∧ Py.contains "\u002F" s = false
  ∧ Py.contains "\u0026" s = false ∧ Py.contains "&amp;" s = false.
End normalize_props.

(** ** Vocabulary for the file names and the input lines *)

Module text_props.

(** A text on whose left end nothing of the class [p] stands. *)
Definition lstripped (p : ascii -> bool) (s : string) : Prop :=
  match s with
  | EmptyString => True
  | String c _ => p c = false
  end.

(** The length of the longest prefix of [s] in the class [p]. *)
Fixpoint span (p : ascii -> bool) (s : string) : nat :=
  match s with
  | String c s' => if p c then S (span p s') else 0
  | EmptyString => 0
  end.

(** [s] with every maximal run of characters of [p] replaced by an
    underscore; [in_run] holds inside a run. *)
Fixpoint squash (p : ascii -> bool) (in_run : bool) (s : string) : string :=
  match s with
  | EmptyString => EmptyString
  | String c s' =>
      if p c then (if in_run then squash p true s' else String "_" (squash p true s'))
      else String c (squash p false s')
  end.

End text_props.

Module lines_props.
Import validation validation_lines.
Section WithLib.
Context {lib : PyLib}.

(** What the loop of [parse_url_lines] keeps: the accepted addresses are
    the seen ones, each once and each valid; a rejected entry is a
    non-empty item whose normalized form is not valid. *)
Record lines_inv (st : Parsed) : Prop := {
  inv_nodup : NoDup (valid_urls st);
  inv_seen : forall u, u ∈ seen st <-> u ∈ valid_urls st;
  inv_valid : Forall (fun u => is_valid_http_url u = Ok true) (valid_urls st);
  inv_invalid :
    Forall (fun item => item <> "" ∧ is_valid_http_url (normalize_url item) = Ok false)
      (invalid_entries st);
}.

(** Every non-blank line of [lines] is accounted for in [st]. *)
Definition covered (lines : list string) (st : Parsed) : Prop :=
  forall line, line ∈ lines -> Py.strip line <> "" ->
    normalize_url (Py.strip line) ∈ valid_urls st ∨ Py.strip line ∈ invalid_entries st.

(** [st'] holds all that [st] holds. *)
Definition grows (st st' : Parsed) : Prop :=
  valid_urls st ⊆ valid_urls st' ∧ invalid_entries st ⊆ invalid_entries st'.
End WithLib.
End lines_props.

Module file_props.

(** Any character but the separator of path components. *)
Definition not_slash (c : ascii) : bool := negb (Ascii.eqb c "/").

(** An extension: a full stop and at least one more character, no slash,
    and not the long form of the JPEG one. *)
Definition extension_like (ext : string) : Prop :=
  (exists r, ext = String "." r ∧ r <> "")
  ∧ Py.all_c not_slash ext = true ∧ ext <> ".jpeg".

(** Any character but the full stop. *)
Definition not_dot (c : ascii) : bool := negb (Ascii.eqb c ".").

End file_props.

Module site_props.

(** A character that [urlsplit] keeps in the path: not one that it removes
    (TAB, LF, CR) and not a delimiter of query, fragment or parameters. *)
Definition path_char (c : ascii) : bool :=
  negb (Py.mem_c c (String "009" (String "010" (String "013" "?#;")))).

End site_props.

Module profile_url_props.

(** The characters of a user name as the site writes it: lower-case
    letters, digits, underscore, hyphen and full stop. *)
Definition username_char (c : ascii) : bool :=
  Py.islower c || Py.isdigit_c c || Py.mem_c c "_-.".

(** A user name that [extract_profile_username] accepts as it stands. *)
Definition plain_username (username : string) : Prop :=
  username <> ""
  ∧ Py.all_c username_char username = true
  ∧ Py.in_list username pinterest_urls.RESERVED_PROFILE_SEGMENTS = false
  ∧ Py.startswith "_" username = false.

End profile_url_props.

Module candidate_props.
Import pinterest_resolver.

(** The entry of the dictionary [by_key] for a candidate. *)
Definition entry_of (item : MediaCandidate) : string * string * MediaCandidate :=
  (candidate_key item, item).
End candidate_props.

Module collector_props2.
Import profile_collector pinterest_urls.

(** What a returned result always is: some pins, each once, under the
    canonical address of the profile. *)
Definition well_formed (o : option ProfileCollectionResult) : Prop :=
  forall r, o = Some r ->
    pin_urls r <> []
    ∧ NoDup (pin_urls r)
    ∧ profile_url r = canonical_profile_url (profile_username r)
    ∧ profile_username r <> "".
(** The address the program gives to a pin: the canonical one of an
    identifier that [str.isdigit] accepts. *)
Definition canonical_pin (address : string) : Prop :=
  exists pin_id, Py.str_isdigit pin_id = true ∧ address = canonical_pin_url pin_id.

Definition pins_canonical (o : option ProfileCollectionResult) : Prop :=
  forall r, o = Some r -> Forall canonical_pin (pin_urls r).
End collector_props2.

(** ** Vocabulary for the queue of a run *)

Module worker_props.
Import pinterest_urls collector_props2.
Section WithLib.
Context {lib : PyLib}.
(** An address that may stand in the queue of a run: not the address of a
    profile, and either one of the sources or the canonical address of a
    pin. *)
Definition queued_from (source_urls : list string) (address : string) : Prop :=
  is_profile_url address = Ok false
  ∧ (address ∈ source_urls ∨ canonical_pin address).
End WithLib.
End worker_props.

(** ** Ranking and deduplication *)

Module resolver_facts.
Import pinterest_resolver resolver_props.


Lemma insert_ranked_perm item l : Permutation (insert_ranked item l) (item :: l).
Proof.
  induction l as [|other l IH]; simpl; [done|].
  destruct (quality_score item <? quality_score other).
  - rewrite IH. apply perm_swap.
  - done.
Qed.

Lemma insert_ranked_sorted item l : ranked l -> ranked (insert_ranked item l).
Proof.
  unfold ranked. induction 1 as [|other l Hl IH Hall]; simpl.
  - repeat constructor.
  - destruct (Z.ltb_spec (quality_score item) (quality_score other)) as [Hlt|Hge].
    + constructor; [exact IH|].
      rewrite Forall_forall in *. intros x Hx.
      rewrite insert_ranked_perm in Hx.
      apply elem_of_cons in Hx as [->|Hx].
      * unfold score_ge. lia.
      * by apply Hall.
    + constructor; [by constructor|].
      constructor; [unfold score_ge; lia|].
      rewrite Forall_forall in *. intros x Hx. specialize (Hall x Hx).
      unfold score_ge in *. lia.
Qed.

Lemma sort_by_score_desc_perm l : Permutation (sort_by_score_desc l) l.
Proof.
  induction l as [|x l IH]; simpl; [done|].
  rewrite insert_ranked_perm. by constructor.
Qed.

Lemma sort_by_score_desc_sorted l : ranked (sort_by_score_desc l).
Proof.
  induction l as [|x l IH]; simpl; [constructor|by apply insert_ranked_sorted].
Qed.

Section OrderedDictFacts.
Context {K V : Type} `{EqDecision K}.
Implicit Types (d : list (K * V)).

Lemma odict_get_set_eq key v d : OrderedDict.get key (OrderedDict.set key v d) = Some v.
Proof.
  induction d as [|[k v0] d IH]; simpl.
  - by rewrite decide_True.
  - destruct (decide (k = key)) as [->|Hne]; simpl.
    + by rewrite decide_True.
    + by rewrite decide_False.
Qed.

Lemma odict_get_set_ne key key' v d :
  key ≠ key' -> OrderedDict.get key' (OrderedDict.set key v d) = OrderedDict.get key' d.
Proof.
  intros Hne. induction d as [|[k v0] d IH]; simpl.
  - by rewrite decide_False.
  - destruct (decide (k = key)) as [->|Hk]; simpl.
    + by rewrite !decide_False.
    + by rewrite IH.
Qed.

Lemma odict_keys_set key v d :
  OrderedDict.keys (OrderedDict.set key v d)
  = match OrderedDict.get key d with
    | Some _ => OrderedDict.keys d
    | None => (OrderedDict.keys d ++ [key])%list
    end.
Proof.
  induction d as [|[k v0] d IH]; simpl; [done|].
  destruct (decide (k = key)) as [->|Hk]; simpl; [done|].
  rewrite IH. by destruct (OrderedDict.get key d).
Qed.

Lemma odict_get_None key d : OrderedDict.get key d = None -> key ∉ OrderedDict.keys d.
Proof.
  induction d as [|[k v0] d IH]; simpl; [intros _; apply not_elem_of_nil|].
  destruct (decide (k = key)) as [->|Hk]; [done|].
  intros Hget. apply not_elem_of_cons. split; [done|by apply IH].
Qed.

Lemma odict_get_Some key v d : OrderedDict.get key d = Some v -> (key, v) ∈ d.
Proof.
  induction d as [|[k v0] d IH]; simpl; [done|].
  destruct (decide (k = key)) as [->|Hk].
  - intros [= ->]. apply elem_of_cons. by left.
  - intros Hget. apply elem_of_cons. right. by apply IH.
Qed.

Lemma odict_elem_of_set k' v' key v d :
  (k', v') ∈ OrderedDict.set key v d -> (k', v') = (key, v) ∨ (k', v') ∈ d.
Proof.
  induction d as [|[k v0] d IH]; simpl.
  - intros Hin. apply list_elem_of_singleton in Hin. by left.
  - destruct (decide (k = key)) as [->|Hk]; intros Hin;
      apply elem_of_cons in Hin as [Heq|Hin].
    + by left.
    + right. apply elem_of_cons. by right.
    + right. apply elem_of_cons. by left.
    + destruct (IH Hin) as [?|?]; [by left|]. right. apply elem_of_cons. by right.
Qed.

Lemma odict_keys_NoDup_set key v d :
  NoDup (OrderedDict.keys d) -> NoDup (OrderedDict.keys (OrderedDict.set key v d)).
Proof.
  intros Hnd. rewrite odict_keys_set.
  destruct (OrderedDict.get key d) eqn:Hget; [done|].
  apply NoDup_app. split_and!; [done| |apply NoDup_singleton].
  intros x Hx Hx'. apply list_elem_of_singleton in Hx' as ->.
  by apply odict_get_None in Hget.
Qed.
End OrderedDictFacts.

Lemma by_key_inv_step seen by_key item :
  by_key_inv seen by_key -> by_key_inv (seen ++ [item]) (by_key_step by_key item).
Proof.
  intros [Hkeys Hentry Hbest]. unfold by_key_step.
  destruct (OrderedDict.get (candidate_key item) by_key) as [existing|] eqn:Hget.
  - destruct (Z.gtb_spec (quality_score item) (quality_score existing)) as [Hgt|Hle].
    + split.
      * by apply odict_keys_NoDup_set.
      * intros key it Hin. apply odict_elem_of_set in Hin as [[= -> ->]|Hin].
        -- split; [done|]. apply elem_of_app. right. by apply list_elem_of_singleton.
        -- destruct (Hentry _ _ Hin). split; [done|]. apply elem_of_app. by left.
      * intros it Hin. apply elem_of_app in Hin as [Hin|Hin].
        -- destruct (Hbest _ Hin) as (kept & Hk & Hle).
           destruct (decide (candidate_key item = candidate_key it)) as [Heq|Hne].
           ++ exists item. rewrite <- Heq, odict_get_set_eq. split; [done|].
              rewrite <- Heq, Hget in Hk. injection Hk as ->. lia.
           ++ exists kept. by rewrite odict_get_set_ne.
        -- apply list_elem_of_singleton in Hin as ->. exists item.
           rewrite odict_get_set_eq. split; [done|lia].
    + split; [done| |].
      * intros key it Hin. destruct (Hentry _ _ Hin). split; [done|].
        apply elem_of_app. by left.
      * intros it Hin. apply elem_of_app in Hin as [Hin|Hin]; [by apply Hbest|].
        apply list_elem_of_singleton in Hin as ->. exists existing. split; [done|lia].
  - split.
    + by apply odict_keys_NoDup_set.
    + intros key it Hin. apply odict_elem_of_set in Hin as [[= -> ->]|Hin].
      * split; [done|]. apply elem_of_app. right. by apply list_elem_of_singleton.
      * destruct (Hentry _ _ Hin). split; [done|]. apply elem_of_app. by left.
    + intros it Hin. apply elem_of_app in Hin as [Hin|Hin].
      * destruct (Hbest _ Hin) as (kept & Hk & Hle).
        destruct (decide (candidate_key item = candidate_key it)) as [Heq|Hne].
        -- rewrite <- Heq, Hget in Hk. done.
        -- exists kept. by rewrite odict_get_set_ne.
      * apply list_elem_of_singleton in Hin as ->. exists item.
        rewrite odict_get_set_eq. split; [done|lia].
Qed.

Lemma by_key_inv_foldl rest : forall seen by_key,
  by_key_inv seen by_key -> by_key_inv (seen ++ rest) (foldl by_key_step by_key rest).
Proof.
  induction rest as [|item rest IH]; intros seen by_key Hinv; simpl.
  - by rewrite app_nil_r.
  - replace (seen ++ item :: rest)%list with ((seen ++ [item]) ++ rest)%list
      by (by rewrite <- app_assoc).
    apply IH. by apply by_key_inv_step.
Qed.

Lemma by_key_inv_nil : by_key_inv [] [].
Proof.
  split.
  - constructor.
  - intros key item Hin. by apply elem_of_nil in Hin.
  - intros item Hin. by apply elem_of_nil in Hin.
Qed.

Lemma by_key_values_keys seen by_key :
  by_key_inv seen by_key ->
  List.map candidate_key (OrderedDict.values by_key) = OrderedDict.keys by_key.
Proof.
  intros [_ Hentry _]. clear -Hentry.
  induction by_key as [|[k v] d IH]; simpl; [done|].
  f_equal.
  - symmetry. apply (Hentry k v). apply elem_of_cons. by left.
  - apply IH. intros key item Hin. apply Hentry. apply elem_of_cons. by right.
Qed.

Lemma sort_and_dedupe_ranked candidates : ranked (_sort_and_dedupe candidates).
Proof. apply sort_by_score_desc_sorted. Qed.

Lemma sort_and_dedupe_distinct candidates : distinct_keys (_sort_and_dedupe candidates).
Proof.
  unfold distinct_keys, _sort_and_dedupe.
  pose proof (by_key_inv_foldl candidates [] [] by_key_inv_nil) as Hinv. simpl in Hinv.
  rewrite (sort_by_score_desc_perm _), (by_key_values_keys _ _ Hinv).
  apply Hinv.
Qed.

Lemma sort_and_dedupe_from_input candidates kept :
  kept ∈ _sort_and_dedupe candidates -> kept ∈ candidates.
Proof.
  unfold _sort_and_dedupe. rewrite sort_by_score_desc_perm.
  pose proof (by_key_inv_foldl candidates [] [] by_key_inv_nil) as Hinv. simpl in Hinv.
  intros Hin. apply list_elem_of_fmap in Hin as ([k v] & -> & Hin).
  by destruct (inv_entry _ _ Hinv _ _ Hin).
Qed.

Lemma sort_and_dedupe_keeps_best candidates item :
  item ∈ candidates ->
  exists kept, kept ∈ _sort_and_dedupe candidates
               ∧ candidate_key kept = candidate_key item
               ∧ quality_score item <= quality_score kept.
Proof.
  intros Hin.
  pose proof (by_key_inv_foldl candidates [] [] by_key_inv_nil) as Hinv. simpl in Hinv.
  destruct (inv_best _ _ Hinv _ Hin) as (kept & Hget & Hle).
  apply odict_get_Some in Hget. exists kept. split_and!; [|symmetry|done].
  - unfold _sort_and_dedupe. rewrite sort_by_score_desc_perm.
    apply list_elem_of_fmap. by exists (candidate_key item, kept).
  - by destruct (inv_entry _ _ Hinv _ _ Hget).
Qed.
End resolver_facts.

(** ** The network monad, and the shape of a resolution *)

Module net_facts.
Section WithSession.
Context {session : Session}.

Lemma bind_Ok {A B} (m : Net.M A) (f : A -> Net.M B) w b w' :
  Net.bind m f w = (Ok b, w') ->
  exists a w1, m w = (Ok a, w1) ∧ f a w1 = (Ok b, w').
Proof.
  unfold Net.bind. destruct (m w) as [[a|e] w1]; [|done]. intros Hf. by exists a, w1.
Qed.

Lemma bind_Raise {A B} (m : Net.M A) (f : A -> Net.M B) w e w' :
  Net.bind m f w = (Raise e, w') ->
  m w = (Raise e, w') ∨ exists a w1, m w = (Ok a, w1) ∧ f a w1 = (Raise e, w').
Proof.
  unfold Net.bind. destruct (m w) as [[a|e0] w1]; intros Hf.
  - right. by exists a, w1.
  - left. by injection Hf as -> ->.
Qed.

Lemma lift_inv {A} (r : result A) w r' w' :
  Net.lift r w = (r', w') -> r = r' ∧ w = w'.
Proof. unfold Net.lift. by intros [= -> ->]. Qed.

Lemma ret_inv {A} (a : A) w r w' :
  Net.ret a w = (r, w') -> r = Ok a ∧ w = w'.
Proof. unfold Net.ret. by intros [= <- <-]. Qed.

Lemma raise_inv {A} e w (r : result A) w' :
  Net.raise e w = (r, w') -> r = Raise e ∧ w = w'.
Proof. unfold Net.raise. by intros [= <- <-]. Qed.
End WithSession.
End net_facts.

Ltac net_inv :=
  repeat match goal with
  | H : Net.bind _ _ _ = (Ok _, _) |- _ =>
      apply net_facts.bind_Ok in H as (? & ? & ? & H)
  | H : Net.lift _ _ = (_, _) |- _ =>
      apply net_facts.lift_inv in H as [? ?]; subst
  | H : Net.ret _ _ = (_, _) |- _ =>
      apply net_facts.ret_inv in H as [? ?]; simplify_eq
  | H : Net.raise _ _ = (_, _) |- _ =>
      apply net_facts.raise_inv in H as [? ?]; simplify_eq
  end.

Module resolver_shape.
Import pinterest_resolver resolver_props resolver_facts validation.

Lemma filterM_sublist {A} (f : A -> result bool) l : forall l',
  filterM f l = Ok l' -> l' `sublist_of` l.
Proof.
  induction l as [|a l IH]; simpl; intros l' Hf.
  - injection Hf as <-. constructor.
  - destruct (f a) as [keep|]; [|done]. simpl in Hf.
    destruct (filterM f l) as [rest|]; [|done]. simpl in Hf.
    injection Hf as <-. destruct keep; constructor; by apply IH.
Qed.

Lemma sublist_elem {A} (l1 l2 : list A) x : l1 `sublist_of` l2 -> x ∈ l1 -> x ∈ l2.
Proof.
  induction 1 as [|y l1 l2 _ IH|y l1 l2 _ IH]; intros Hin; [done| |].
  - apply elem_of_cons in Hin as [->|Hin]; apply elem_of_cons; [by left|right; by apply IH].
  - apply elem_of_cons. right. by apply IH.
Qed.

Lemma ranked_sublist l1 l2 : l1 `sublist_of` l2 -> ranked l2 -> ranked l1.
Proof.
  unfold ranked. induction 1 as [|y l1 l2 Hsub IH|y l1 l2 Hsub IH]; intros Hs.
  - constructor.
  - apply StronglySorted_inv in Hs as [Hs Hall]. constructor; [by apply IH|].
    rewrite Forall_forall in *. intros x Hx. apply Hall. by eapply sublist_elem.
  - apply StronglySorted_inv in Hs as [Hs _]. by apply IH.
Qed.

Lemma distinct_keys_sublist l1 l2 : l1 `sublist_of` l2 -> distinct_keys l2 -> distinct_keys l1.
Proof.
  unfold distinct_keys. intros Hsub Hnd. eapply sublist_NoDup; [exact Hnd|].
  clear Hnd. induction Hsub; simpl; by constructor.
Qed.

Lemma sort_and_dedupe_nonempty candidates :
  candidates ≠ [] -> _sort_and_dedupe candidates ≠ [].
Proof.
  destruct candidates as [|item rest]; [done|]. intros _ Hnil.
  destruct (sort_and_dedupe_keeps_best (item :: rest) item) as (kept & Hin & _).
  - apply elem_of_cons. by left.
  - rewrite Hnil in Hin. by apply elem_of_nil in Hin.
Qed.

Section WithLib.
Context {lib : PyLib}.

Lemma dedupe_url_list_cons value values : _dedupe_url_list (value :: values) ≠ [].
Proof.
  assert (Hgen : forall vs acc, fst acc ≠ [] -> fst (foldl dedupe_step acc vs) ≠ []).
  { induction vs as [|v vs IH]; intros [d s] Hacc; simpl; [done|].
    apply IH. destruct (bool_decide (v ∈ s)); simpl; [done|].
    intros Heq. by apply app_eq_nil in Heq as [_ ?]. }
  unfold _dedupe_url_list. simpl. apply Hgen.
  rewrite bool_decide_false by set_solver. done.
Qed.

Lemma score_variants_length size_hint source variants out :
  score_variants size_hint source variants = Ok out -> List.length out = List.length variants.
Proof.
  revert out. induction variants as [|v vs IH]; simpl; intros out Hs.
  - by injection Hs as <-.
  - destruct (_score_image v size_hint); [|done]. simpl in Hs.
    destruct (score_variants size_hint source vs) as [rest|]; [|done]. simpl in Hs.
    injection Hs as <-. simpl. f_equal. by apply IH.
Qed.

Lemma pinimg_variants_nonempty url variants :
  _pinimg_variants url = Ok variants -> variants ≠ [].
Proof.
  unfold _pinimg_variants. destruct (urllib.urlparse url) as [parsed|]; [|done]. simpl.
  destruct (negb (_is_pinimg_host (urllib.netloc parsed))); [by intros [= <-]|].
  destruct (Py.nonempty_segments "/" (urllib.path parsed)) as [|first_segment rest];
    [by intros [= <-]|].
  intros [= <-].
  destruct (negb (first_segment =? "originals")%string
            && bool_decide (is_Some (Re.re_match SIZE_SEGMENT_RE first_segment)));
    apply dedupe_url_list_cons.
Qed.

Lemma build_candidates_nonempty url media_type source size_hint out :
  _build_candidates url media_type source size_hint = Ok out -> out ≠ [].
Proof.
  unfold _build_candidates. destruct (media_type =? "image")%string.
  - destruct (_pinimg_variants url) as [variants|] eqn:Hv; [|done]. simpl.
    intros Hs Hnil. apply score_variants_length in Hs. subst out.
    apply pinimg_variants_nonempty in Hv. by destruct variants.
  - destruct (_score_video url size_hint); [|done]. simpl. by intros [= <-].
Qed.

Section WithSession.
Context {session : Session}.

Lemma html_strategy_sublist response w out w' :
  html_strategy response w = (Ok out, w') ->
  exists candidates, out `sublist_of` _sort_and_dedupe candidates.
Proof.
  unfold html_strategy. intros Hrun. net_inv.
  match goal with H : filterM _ _ = Ok ?p |- _ =>
    apply filterM_sublist in H; destruct p end; eauto.
Qed.

(** A list that [resolve_media_candidates] returns is not empty and is part
    of an output of [_sort_and_dedupe]. *)
Lemma resolve_output_shape pin_url w out w' :
  resolve_media_candidates pin_url w = (Ok out, w') ->
  out ≠ [] ∧ exists candidates, out `sublist_of` _sort_and_dedupe candidates.
Proof.
  unfold resolve_media_candidates. intros Hrun. net_inv.
  destruct (negb _); [by net_inv|]. net_inv.
  match goal with H : direct_media_type_of _ = Ok ?d |- _ => destruct d; clear H end.
  { net_inv. match goal with H : _build_candidates _ _ _ _ = Ok _ |- _ =>
      apply build_candidates_nonempty in H end.
    split; [by apply sort_and_dedupe_nonempty|eauto]. }
  net_inv.
  match goal with H : final_media_type_of _ = Ok ?d |- _ => destruct d; clear H end.
  { net_inv. match goal with H : _build_candidates _ _ _ _ = Ok _ |- _ =>
      apply build_candidates_nonempty in H end.
    split; [by apply sort_and_dedupe_nonempty|eauto]. }
  net_inv.
  match goal with H : api_strategy _ _ _ = (Ok ?l, _) |- _ => destruct l; clear H end.
  2:{ net_inv. split; [by apply sort_and_dedupe_nonempty|eauto]. }
  net_inv.
  match goal with H : html_strategy _ _ = (Ok ?l, _) |- _ =>
    destruct l; [by net_inv|]; apply html_strategy_sublist in H end.
  net_inv. split; [done|eauto].
Qed.
End WithSession.
End WithLib.
End resolver_shape.

(** ** The pagination loop *)

Module collector_facts.
Import profile_collector collector_props.

Lemma can_continue_false_iff bookmark max_pins current_count :
  _can_continue_pagination bookmark max_pins current_count = false
  <-> (0 < max_pins ∧ max_pins <= current_count)
      ∨ (forall s, bookmark ≠ JStr s)
      ∨ bookmark = JStr EmptyString
      ∨ bookmark = JStr "-end-".
Proof.
  unfold _can_continue_pagination.
  destruct ((max_pins >? 0) && (current_count >=? max_pins)) eqn:Hfull.
  - split; [intros _|done]. left.
    apply andb_true_iff in Hfull as [?%Z.gtb_lt ?%Z.geb_le]. lia.
  - assert (Hnot : ~ (0 < max_pins ∧ max_pins <= current_count)).
    { intros [? ?]. apply andb_false_iff in Hfull as [Hf|Hf].
      - rewrite Z.gtb_ltb, Z.ltb_ge in Hf. lia.
      - rewrite Z.geb_leb, Z.leb_gt in Hf. lia. }
    destruct bookmark as [| | | |s| |];
      try (split; [intros _; right; left; congruence|done]).
    destruct s as [|c s]; cbn [negb Py.truthy].
    { split; [intros _; right; right; by left|done]. }
    destruct (String.eqb_spec (String c s) "-end-") as [Heq|Hne].
    + split; [intros _; right; right; right; by rewrite Heq|done].
    + split; [done|]. intros [?|[Hns|[?|?]]]; [done| |done|congruence].
      by destruct (Hns (String c s)).
Qed.

Section WithSession.
Context {lib : PyLib} {session : Session}.
Implicit Types (st : Pagination) (w : World).

Lemma turn_halts username profile max_pins st w :
  _can_continue_pagination (bookmark st) max_pins (Z.of_nat (List.length (collected st))) = false ->
  pagination_turn username profile max_pins st w = (Ok (inl st), w).
Proof. unfold pagination_turn. by intros ->. Qed.

Lemma turn_guard username profile max_pins st w b :
  bookmark st = JStr b -> b ∈ seen_bookmarks st ->
  pagination_turn username profile max_pins st w = (Ok (inl st), w).
Proof.
  unfold pagination_turn. intros -> Hin.
  destruct (negb _); [done|]. by rewrite bool_decide_true.
Qed.

Lemma turn_cases username profile max_pins st w r w' :
  pagination_turn username profile max_pins st w = (Ok r, w') ->
  (r = inl st ∧ w' = w)
  ∨ exists b, bookmark st = JStr b ∧ (b ∉ seen_bookmarks st)
      ∧ ((r = inl (after_send st b)
          ∧ (exists next, _fetch_user_pins_page username profile b w = (Ok ([], next), w')))
         ∨ exists row rows next,
             _fetch_user_pins_page username profile b w = (Ok (row :: rows, next), w')
             ∧ r = inr (after_page st b (row :: rows) next)).
Proof.
  unfold pagination_turn. destruct (negb _).
  { intros Hr. net_inv. by left. }
  destruct (bookmark st) as [| | | |b| |] eqn:Hb; try (intros Hr; net_inv; by left).
  destruct (bool_decide (b ∈ seen_bookmarks st)) eqn:Hseen.
  { intros Hr. net_inv. by left. }
  apply bool_decide_eq_false in Hseen.
  intros Hr. apply net_facts.bind_Ok in Hr as ([rows next] & w1 & Hfetch & Hr).
  right. exists b. split_and!; [done..|].
  destruct rows as [|row rows]; net_inv.
  - left. split; [by rewrite <- Hb|]. by exists next.
  - right. by exists row, rows, next.
Qed.

Lemma sent_once_after_send st b :
  sent_once st -> b ∉ seen_bookmarks st -> sent_once (after_send st b).
Proof.
  intros [Hnd Hiff] Hnew. split; simpl.
  - apply NoDup_app. split_and!; [done| |apply NoDup_singleton].
    intros x Hx Hx'. apply list_elem_of_singleton in Hx' as ->.
    apply Hnew. by apply Hiff.
  - intros x.
    rewrite elem_of_app, list_elem_of_singleton, elem_of_union, elem_of_singleton.
    by rewrite (Hiff x).
Qed.

Lemma turn_sent_once username profile max_pins st w r w' :
  pagination_turn username profile max_pins st w = (Ok r, w') ->
  sent_once st -> sent_once (state_of r).
Proof.
  intros Hturn Hinv.
  apply turn_cases in Hturn
    as [[-> _]|(b & Hb & Hnew & [[-> _]|(row & rows & next & _ & ->)])]; simpl.
  - done.
  - by apply sent_once_after_send.
  - by apply (sent_once_after_send st b).
Qed.

Lemma loop_sent_once fuel username profile max_pins : forall st w r w',
  pagination_loop fuel username profile max_pins st w = (Ok r, w') ->
  sent_once st -> sent_once (state_of r).
Proof.
  induction fuel as [|fuel IH]; simpl; intros st w r w' Hloop Hinv.
  - by net_inv.
  - apply net_facts.bind_Ok in Hloop as (turn & w1 & Hturn & Hloop).
    pose proof (turn_sent_once _ _ _ _ _ _ _ Hturn Hinv) as Hinv'.
    destruct turn as [final|st']; [by net_inv|].
    by eapply IH.
Qed.

Lemma loop_leaves_at_once fuel username profile max_pins st w :
  pagination_turn username profile max_pins st w = (Ok (inl st), w) ->
  pagination_loop (S fuel) username profile max_pins st w = (Ok (inl st), w).
Proof. simpl. unfold Net.bind. by intros ->. Qed.

Lemma loop_more_fuel fuel username profile max_pins : forall st w final w',
  pagination_loop fuel username profile max_pins st w = (Ok (inl final), w') ->
  pagination_loop (S fuel) username profile max_pins st w = (Ok (inl final), w').
Proof.
  induction fuel as [|fuel IH]; intros st w final w' Hloop.
  - simpl in Hloop. by net_inv.
  - change (pagination_loop (S fuel) username profile max_pins st w)
      with (Net.bind (pagination_turn username profile max_pins st)
              (fun turn => match turn with
                           | inl final => Net.ret (inl final)
                           | inr st' => pagination_loop fuel username profile max_pins st'
                           end) w) in Hloop.
    change (pagination_loop (S (S fuel)) username profile max_pins st w)
      with (Net.bind (pagination_turn username profile max_pins st)
              (fun turn => match turn with
                           | inl final => Net.ret (inl final)
                           | inr st' => pagination_loop (S fuel) username profile max_pins st'
                           end) w).
    apply net_facts.bind_Ok in Hloop as (turn & w1 & Hturn & Hloop).
    unfold Net.bind. rewrite Hturn. destruct turn as [f|st']; [done|]. by apply IH.
Qed.

Lemma repeated_cursor_stops fuel username profile max_pins st w b row rows w1 :
  _can_continue_pagination (bookmark st) max_pins (Z.of_nat (List.length (collected st))) = true ->
  bookmark st = JStr b -> b ∉ seen_bookmarks st ->
  _fetch_user_pins_page username profile b w = (Ok (row :: rows, b), w1) ->
  pagination_loop (S (S fuel)) username profile max_pins st w
  = (Ok (inl (after_page st b (row :: rows) b)), w1).
Proof.
  intros Hcont Hb Hnew Hfetch.
  assert (Hturn : pagination_turn username profile max_pins st w
                  = (Ok (inr (after_page st b (row :: rows) b)), w1)).
  { unfold pagination_turn. rewrite Hcont. simpl. rewrite Hb.
    rewrite bool_decide_false by done. unfold Net.bind. by rewrite Hfetch. }
  change (pagination_loop (S (S fuel)) username profile max_pins st w)
    with (Net.bind (pagination_turn username profile max_pins st)
            (fun turn => match turn with
                         | inl final => Net.ret (inl final)
                         | inr st' => pagination_loop (S fuel) username profile max_pins st'
                         end) w).
  unfold Net.bind at 1. rewrite Hturn.
  apply loop_leaves_at_once.
  destruct (_can_continue_pagination (bookmark (after_page st b (row :: rows) b)) max_pins
              (Z.of_nat (List.length (collected (after_page st b (row :: rows) b))))) eqn:Hc.
  - apply (turn_guard _ _ _ _ _ b); simpl; [done|set_solver].
  - by apply turn_halts.
Qed.
End WithSession.
End collector_facts.

(** ** The requests of a run of the loop *)

Module trace_facts.
Import profile_collector collector_props collector_facts.

Section WithSession.
Context {lib : PyLib} {session : Session}.
Implicit Types (st : Pagination) (w : World).

(** A fetch is one request, and nothing else touches the network. *)
Lemma fetch_is_one_request username profile b w :
  snd (_fetch_user_pins_page username profile b w) = snd (page_request username profile b w).
Proof.
  unfold _fetch_user_pins_page, page_request, Net.bind, Net.cookie, Net.post, Net.of_answer.
  destruct (session_post _ _ _ w) as [[msg|response] w1]; [reflexivity|].
  cbn [snd]. destruct (status_code response =? 403); [reflexivity|].
  unfold Net.lift. destruct (Net.raise_for_status response); [|reflexivity].
  destruct (resp_json response) as [payload|]; [|reflexivity].
  destruct (Json.get payload "resource_response") as [resource|e]; [|reflexivity].
  destruct resource; try reflexivity.
  destruct (Json.dict_get "data" _); reflexivity.
Qed.

(** A turn either asks for nothing, or asks once, for a cursor that has not
    been seen, and records it. *)
Lemma turn_trace username profile max_pins st w res w' :
  pagination_turn username profile max_pins st w = (res, w') ->
  (res = Ok (inl st) ∧ w' = w)
  ∨ exists b, bookmark st = JStr b ∧ (b ∉ seen_bookmarks st)
      ∧ w' = after_fetches username profile [b] w
      ∧ (forall e, res = Raise e ->
           _fetch_user_pins_page username profile b w = (Raise e, w'))
      ∧ (forall r, res = Ok r ->
           sent (state_of r) = (sent st ++ [b])%list
           ∧ seen_bookmarks (state_of r) = seen_bookmarks st ∪ {[ b ]}
           ∧ exists page next,
               _fetch_user_pins_page username profile b w = (Ok (page, next), w')).
Proof.
  unfold pagination_turn. destruct (negb _).
  { intros [= <- <-]. by left. }
  destruct (bookmark st) as [| | | |b| |] eqn:Hb; try (intros [= <- <-]; by left).
  destruct (bool_decide (b ∈ seen_bookmarks st)) eqn:Hseen.
  { intros [= <- <-]. by left. }
  apply bool_decide_eq_false in Hseen. unfold Net.bind.
  destruct (_fetch_user_pins_page username profile b w) as [[[page next]|e] w1] eqn:Hfetch.
  - intros Hr. right. exists b. split; [reflexivity|]. split; [exact Hseen|].
    cbn [after_fetches]. rewrite Hfetch. cbn [snd].
    destruct page as [|row rows]; injection Hr as <- <-.
    + split; [reflexivity|]. split; [discriminate|].
      intros r [= <-]. cbn [state_of sent seen_bookmarks].
      split; [reflexivity|]. split; [reflexivity|]. by exists [], next.
    + split; [reflexivity|]. split; [discriminate|].
      intros r [= <-]. cbn [state_of sent seen_bookmarks].
      split; [reflexivity|]. split; [reflexivity|]. by exists (row :: rows), next.
  - intros [= <- <-]. right. exists b. split; [reflexivity|]. split; [exact Hseen|].
    cbn [after_fetches]. rewrite Hfetch. cbn [snd].
    split; [reflexivity|]. split; [by intros e' [= <-]|]. intros r Hr. discriminate Hr.
Qed.

(** The cursors of a run, whatever its outcome: pairwise distinct, and the
    network is in the state that one fetch for each of them leaves. *)
Lemma loop_trace username profile max_pins fuel : forall st w res w',
  pagination_loop fuel username profile max_pins st w = (res, w') ->
  sent_once st ->
  exists cursors,
    NoDup (sent st ++ cursors)%list
    ∧ w' = after_fetches username profile cursors w
    ∧ forall r, res = Ok r ->
        sent (state_of r) = (sent st ++ cursors)%list ∧ sent_once (state_of r).
Proof.
  induction fuel as [|fuel IH]; intros st w res w' Hloop Hinv.
  - injection Hloop as <- <-. exists []. rewrite app_nil_r.
    split; [apply Hinv|]. split; [reflexivity|]. intros r [= <-]. by split.
  - cbn [pagination_loop] in Hloop. unfold Net.bind in Hloop.
    destruct (pagination_turn username profile max_pins st w) as [[turn|e] w1] eqn:Hturn.
    + pose proof (turn_sent_once _ _ _ _ _ _ _ Hturn Hinv) as Hinv1.
      apply turn_trace in Hturn
        as [[Hsame ->]|(b & Hb & Hnew & Hfetch & _ & Hsent)].
      * injection Hsame as ->. injection Hloop as <- <-. exists []. rewrite app_nil_r.
        split; [apply Hinv|]. split; [reflexivity|]. intros r [= <-]. by split.
      * destruct (Hsent turn eq_refl) as (Hsent1 & _ & _).
        destruct turn as [final|st1].
        -- injection Hloop as <- <-. exists [b]. cbn [state_of] in Hsent1, Hinv1.
           split; [rewrite <- Hsent1; apply Hinv1|]. split; [exact Hfetch|].
           intros r [= <-]. by split.
        -- cbn [state_of] in Hsent1, Hinv1.
           destruct (IH _ _ _ _ Hloop Hinv1) as (rest & Hnd & Hw & Hres).
           exists (b :: rest). rewrite Hsent1, <- app_assoc in Hnd. cbn [app] in Hnd.
           split; [exact Hnd|]. split.
           ++ rewrite Hw, Hfetch. reflexivity.
           ++ intros r Hr. destruct (Hres r Hr) as [Hs Hi]. split; [|exact Hi].
              rewrite Hs, Hsent1, <- app_assoc. reflexivity.
    + injection Hloop as <- <-.
      apply turn_trace in Hturn as [[Hsame _]|(b & Hb & Hnew & Hfetch & _)];
        [discriminate Hsame|].
      exists [b]. split.
      * apply NoDup_app. split; [apply Hinv|]. split; [|apply NoDup_singleton].
        intros x Hx ->%list_elem_of_singleton. by apply Hnew, Hinv.
      * split; [exact Hfetch|]. intros r Hr. discriminate Hr.
Qed.
End WithSession.
End trace_facts.

(** ** Which exceptions a call can raise *)

Module error_facts.

Lemma raises_only_Ok {A} P (a : A) : raises_only P (Ok a).
Proof. by intros e. Qed.

Lemma raises_only_Raise {A} (P : exn -> bool) e : P e = true -> raises_only (A := A) P (Raise e).
Proof. by intros HP e' [= <-]. Qed.

Lemma raises_only_bind {A B} P (m : result A) (f : A -> result B) :
  raises_only P m -> (forall a, raises_only P (f a)) -> raises_only P (rbind m f).
Proof.
  intros Hm Hf e. destruct m as [a|e0]; simpl.
  - apply Hf.
  - intros [= <-]. by apply Hm.
Qed.

Lemma raises_only_weaken {A} (P Q : exn -> bool) (r : result A) :
  (forall e, P e = true -> Q e = true) -> raises_only P r -> raises_only Q r.
Proof. intros HPQ Hr e He. apply HPQ. by apply Hr. Qed.

Lemma raises_only_concat_mapM {A B} P (f : A -> result (list B)) l :
  (forall a, raises_only P (f a)) -> raises_only P (concat_mapM f l).
Proof.
  intros Hf. induction l as [|a l IH]; simpl; [apply raises_only_Ok|].
  apply raises_only_bind; [apply Hf|intros bs].
  apply raises_only_bind; [apply IH|intros rest]. apply raises_only_Ok.
Qed.

Lemma raises_only_filterM {A} P (f : A -> result bool) l :
  (forall a, raises_only P (f a)) -> raises_only P (filterM f l).
Proof.
  intros Hf. induction l as [|a l IH]; simpl; [apply raises_only_Ok|].
  apply raises_only_bind; [apply Hf|intros keep].
  apply raises_only_bind; [apply IH|intros rest]. apply raises_only_Ok.
Qed.

Create HintDb raises discriminated.

(** One step through the body of a definition. *)
Ltac raises_step :=
  lazymatch goal with
  | |- raises_only _ (Ok _) => apply raises_only_Ok
  | |- raises_only _ (Raise _) => apply raises_only_Raise; reflexivity
  | |- raises_only _ (rbind _ _) => apply raises_only_bind; [|intros ?]
  | |- raises_only _ (concat_mapM _ _) => apply raises_only_concat_mapM; intros ?
  | |- raises_only _ (filterM _ _) => apply raises_only_filterM; intros ?
  | |- raises_only _ (match ?x with _ => _ end) => destruct x
  | |- raises_only _ (let _ := _ in _) => cbv zeta
  | |- raises_only _ _ => solve [auto with raises]
  end.

Ltac raises := repeat raises_step.

Lemma int_raises s : raises_only is_ValueError (Py.int s).
Proof. unfold Py.int. raises. Qed.

Lemma json_get_raises payload key : raises_only not_ResolutionError (Json.get payload key).
Proof. unfold Json.get. raises. Qed.

#[export] Hint Resolve int_raises json_get_raises : raises.

Section WithLib.
Context {lib : PyLib}.

Lemma check_bracketed_host_raises h : raises_only is_ValueError (urllib._check_bracketed_host h).
Proof. unfold urllib._check_bracketed_host. raises. Qed.
#[local] Hint Resolve check_bracketed_host_raises : raises.

Lemma check_bracketed_netloc_raises n :
  raises_only is_ValueError (urllib._check_bracketed_netloc n).
Proof. unfold urllib._check_bracketed_netloc. raises. Qed.
#[local] Hint Resolve check_bracketed_netloc_raises : raises.

Lemma split_netloc_raises url : raises_only is_ValueError (urllib.split_netloc url).
Proof. unfold urllib.split_netloc. raises. Qed.
#[local] Hint Resolve split_netloc_raises : raises.

Lemma urlsplit_raises url scheme : raises_only is_ValueError (urllib.urlsplit url scheme).
Proof. unfold urllib.urlsplit. raises. Qed.
#[local] Hint Resolve urlsplit_raises : raises.

Lemma urlparse_with_raises url scheme :
  raises_only is_ValueError (urllib.urlparse_with url scheme).
Proof. unfold urllib.urlparse_with. raises. Qed.

Lemma urlparse_raises url : raises_only is_ValueError (urllib.urlparse url).
Proof. apply urlparse_with_raises. Qed.

Lemma urljoin_raises base url : raises_only is_ValueError (urljoin_impl.urljoin base url).
Proof. unfold urljoin_impl.urljoin. pose proof urlparse_with_raises. raises. Qed.

(** [is_valid_http_url] never raises. *)
Lemma is_valid_http_url_total url : exists b, validation.is_valid_http_url url = Ok b.
Proof.
  unfold validation.is_valid_http_url.
  destruct (urllib.urlparse url) as [parsed|e] eqn:Hp; [by eexists|].
  apply urlparse_raises in Hp. rewrite Hp. by eexists.
Qed.
End WithLib.

Lemma value_error_quiet e : is_ValueError e = true -> not_ResolutionError e = true.
Proof. by destruct e. Qed.

Lemma request_error_quiet e : is_RequestException e = true -> not_ResolutionError e = true.
Proof. by destruct e. Qed.

Section Quiet.
Context {lib : PyLib}.
Import pinterest_resolver.

(** The library calls, seen as calls that do not raise the typed failure. *)
Lemma urlparse_quiet url : raises_only not_ResolutionError (urllib.urlparse url).
Proof. eapply raises_only_weaken; [apply value_error_quiet|apply urlparse_raises]. Qed.

Lemma urljoin_quiet base url :
  raises_only not_ResolutionError (urljoin_impl.urljoin base url).
Proof. eapply raises_only_weaken; [apply value_error_quiet|apply urljoin_raises]. Qed.

Lemma int_quiet s : raises_only not_ResolutionError (Py.int s).
Proof. eapply raises_only_weaken; [apply value_error_quiet|apply int_raises]. Qed.

Lemma is_valid_http_url_quiet url :
  raises_only not_ResolutionError (validation.is_valid_http_url url).
Proof. destruct (is_valid_http_url_total url) as [b ->]. apply raises_only_Ok. Qed.

#[local] Hint Resolve urlparse_quiet urljoin_quiet int_quiet is_valid_http_url_quiet : raises.

Lemma infer_media_type_quiet url :
  raises_only not_ResolutionError (media.infer_media_type_from_url url).
Proof. unfold media.infer_media_type_from_url. raises. Qed.

Lemma is_placeholder_image_quiet url :
  raises_only not_ResolutionError (_is_placeholder_image url).
Proof. unfold _is_placeholder_image. raises. Qed.

Lemma size_segment_bonus_quiet path : raises_only not_ResolutionError (size_segment_bonus path).
Proof. unfold size_segment_bonus. raises. Qed.
#[local] Hint Resolve infer_media_type_quiet is_placeholder_image_quiet
  size_segment_bonus_quiet : raises.

Lemma score_image_quiet url size_hint : raises_only not_ResolutionError (_score_image url size_hint).
Proof. unfold _score_image. raises. Qed.

Lemma score_video_quiet url size_hint : raises_only not_ResolutionError (_score_video url size_hint).
Proof. unfold _score_video. raises. Qed.

Lemma pinimg_variants_quiet url : raises_only not_ResolutionError (_pinimg_variants url).
Proof. unfold _pinimg_variants. raises. Qed.
#[local] Hint Resolve score_image_quiet score_video_quiet pinimg_variants_quiet : raises.

Lemma score_variants_quiet size_hint source variants :
  raises_only not_ResolutionError (score_variants size_hint source variants).
Proof. induction variants as [|v vs IH]; simpl; raises. Qed.
#[local] Hint Resolve score_variants_quiet : raises.

Lemma build_candidates_quiet url media_type source size_hint :
  raises_only not_ResolutionError (_build_candidates url media_type source size_hint).
Proof. unfold _build_candidates. raises. Qed.

Lemma normalize_candidate_quiet value base_url :
  raises_only not_ResolutionError (_normalize_candidate value base_url).
Proof. unfold _normalize_candidate. raises. Qed.
#[local] Hint Resolve build_candidates_quiet normalize_candidate_quiet : raises.

Lemma walk_string_quiet base_url source hint value key_hint :
  raises_only not_ResolutionError (walk_string base_url source hint value key_hint).
Proof. unfold walk_string. raises. Qed.
#[local] Hint Resolve walk_string_quiet : raises.

Lemma walk_quiet base_url source hint : forall value key_hint,
  raises_only not_ResolutionError (walk base_url source hint value key_hint).
Proof.
  fix IH 1. intros [| | | |s|items|entries] key_hint; simpl; try apply raises_only_Ok.
  - apply walk_string_quiet.
  - revert items. fix IHitems 1. intros [|nested items]; [apply raises_only_Ok|].
    apply raises_only_bind; [apply IH|intros found].
    apply raises_only_bind; [apply IHitems|intros rest]. apply raises_only_Ok.
  - revert entries. fix IHentries 1. intros [|[key nested] entries]; [apply raises_only_Ok|].
    apply raises_only_bind; [apply IH|intros found].
    apply raises_only_bind; [apply IHentries|intros rest]. apply raises_only_Ok.
Qed.
#[local] Hint Resolve walk_quiet : raises.

Lemma extract_candidates_from_object_quiet payload base_url source hint :
  raises_only not_ResolutionError
    (_extract_candidates_from_object payload base_url source hint).
Proof. unfold _extract_candidates_from_object. raises. Qed.
#[local] Hint Resolve extract_candidates_from_object_quiet : raises.

Lemma image_entry_candidates_quiet base_url entry :
  raises_only not_ResolutionError (image_entry_candidates base_url entry).
Proof. unfold image_entry_candidates. raises. Qed.
#[local] Hint Resolve image_entry_candidates_quiet json_get_raises : raises.

Lemma pin_api_candidates_quiet pin_id payload :
  raises_only not_ResolutionError (pin_api_candidates pin_id payload).
Proof. unfold pin_api_candidates. raises. Qed.

Lemma meta_candidates_quiet base_url raw :
  raises_only not_ResolutionError (meta_candidates base_url raw).
Proof. unfold meta_candidates. raises. Qed.

Lemma ldjson_block_candidates_quiet base_url m :
  raises_only not_ResolutionError (ldjson_block_candidates base_url m).
Proof. unfold ldjson_block_candidates. raises. Qed.
#[local] Hint Resolve meta_candidates_quiet ldjson_block_candidates_quiet : raises.

Lemma extract_ldjson_candidates_quiet html_text base_url :
  raises_only not_ResolutionError (_extract_ldjson_candidates html_text base_url).
Proof. unfold _extract_ldjson_candidates. raises. Qed.

Lemma hosted_candidates_quiet base_url m :
  raises_only not_ResolutionError (hosted_candidates base_url m).
Proof. unfold hosted_candidates. raises. Qed.
#[local] Hint Resolve extract_ldjson_candidates_quiet hosted_candidates_quiet : raises.

Lemma extract_html_candidates_quiet html_text base_url :
  raises_only not_ResolutionError (_extract_html_candidates html_text base_url).
Proof. unfold _extract_html_candidates. raises. Qed.

Lemma oembed_key_candidates_quiet page_url payload key :
  raises_only not_ResolutionError (oembed_key_candidates page_url payload key).
Proof. unfold oembed_key_candidates. raises. Qed.

Lemma is_preferred_quiet item : raises_only not_ResolutionError (is_preferred item).
Proof. unfold is_preferred. raises. Qed.

Lemma direct_media_type_of_quiet normalized :
  raises_only not_ResolutionError (direct_media_type_of normalized).
Proof. unfold direct_media_type_of. raises. Qed.

Lemma final_media_type_of_quiet final_url :
  raises_only not_ResolutionError (final_media_type_of final_url).
Proof. unfold final_media_type_of. raises. Qed.

Lemma raise_for_status_quiet response :
  raises_only not_ResolutionError (Net.raise_for_status response).
Proof. unfold Net.raise_for_status. raises. Qed.

Lemma json_of_quiet response : raises_only not_ResolutionError (Net.json_of response).
Proof. unfold Net.json_of. raises. Qed.
End Quiet.
End error_facts.

Module net_error_facts.
Import error_facts pinterest_resolver.

Section WithSession.
Context {lib : PyLib} {session : Session}.

Lemma net_ret {A} P (a : A) : net_raises_only P (Net.ret a).
Proof. by intros w e w'. Qed.

Lemma net_lift {A} P (r : result A) : raises_only P r -> net_raises_only P (Net.lift r).
Proof. intros Hr w e w' [= -> _]. by apply Hr. Qed.

Lemma net_bind {A B} P (m : Net.M A) (f : A -> Net.M B) :
  net_raises_only P m -> (forall a, net_raises_only P (f a)) ->
  net_raises_only P (Net.bind m f).
Proof.
  intros Hm Hf w e w' Hrun.
  apply net_facts.bind_Raise in Hrun as [Hrun|(a & w1 & _ & Hrun)].
  - by eapply Hm.
  - by eapply Hf.
Qed.

Lemma net_try_except {A} P (m handler : Net.M A) catches :
  net_raises_only P m -> net_raises_only P handler ->
  net_raises_only P (Net.try_except m catches handler).
Proof.
  intros Hm Hh w e w'. unfold Net.try_except.
  destruct (m w) as [[a|e0] w1] eqn:Hrun; [done|].
  destruct (catches e0).
  - apply Hh.
  - intros [= <- <-]. by eapply Hm.
Qed.

Lemma net_get_quiet address : net_raises_only not_ResolutionError (Net.get address).
Proof.
  intros w e w'. unfold Net.get, Net.of_answer.
  destruct (session_get address HTTP_HEADERS w) as [[msg|r] w1]; [|done].
  by intros [= <- _].
Qed.

Lemma net_post_quiet address params headers :
  net_raises_only not_ResolutionError (Net.post address params headers).
Proof.
  intros w e w'. unfold Net.post, Net.of_answer.
  destruct (session_post address params headers w) as [[msg|r] w1]; [|done].
  by intros [= <- _].
Qed.

Ltac net_raises_step :=
  lazymatch goal with
  | |- net_raises_only _ (Net.ret _) => apply net_ret
  | |- net_raises_only _ (Net.lift _) => apply net_lift; solve [auto with raises]
  | |- net_raises_only _ (Net.bind _ _) => apply net_bind; [|intros ?]
  | |- net_raises_only _ (Net.try_except _ _ _) => apply net_try_except
  | |- net_raises_only _ (match ?x with _ => _ end) => destruct x
  | |- net_raises_only _ (let _ := _ in _) => cbv zeta
  | |- net_raises_only _ _ => solve [auto with raises]
  end.

Ltac net_raises := repeat net_raises_step.

#[local] Hint Resolve net_get_quiet net_post_quiet raise_for_status_quiet json_of_quiet
  json_get_raises pin_api_candidates_quiet oembed_key_candidates_quiet
  extract_html_candidates_quiet is_preferred_quiet raises_only_concat_mapM
  raises_only_filterM : raises.

Lemma fetch_json_quiet endpoint : net_raises_only not_ResolutionError (fetch_json endpoint).
Proof. unfold fetch_json. net_raises. Qed.
#[local] Hint Resolve fetch_json_quiet : raises.

Lemma fetch_pin_api_candidates_quiet pin_id :
  net_raises_only not_ResolutionError (_fetch_pin_api_candidates pin_id).
Proof. unfold _fetch_pin_api_candidates. net_raises. Qed.

Lemma fetch_oembed_media_candidates_quiet page_url :
  net_raises_only not_ResolutionError (_fetch_oembed_media_candidates page_url).
Proof. unfold _fetch_oembed_media_candidates. net_raises. Qed.

Lemma resolve_pin_id_via_oembed_quiet page_url :
  net_raises_only not_ResolutionError (_resolve_pin_id_via_oembed page_url).
Proof. unfold _resolve_pin_id_via_oembed. net_raises. Qed.
#[local] Hint Resolve fetch_pin_api_candidates_quiet fetch_oembed_media_candidates_quiet
  resolve_pin_id_via_oembed_quiet : raises.

Lemma api_strategy_quiet normalized response :
  net_raises_only not_ResolutionError (api_strategy normalized response).
Proof. unfold api_strategy. net_raises. Qed.

Lemma html_strategy_quiet response :
  net_raises_only not_ResolutionError (html_strategy response).
Proof. unfold html_strategy. net_raises. Qed.
End WithSession.
End net_error_facts.

(** ** When resolution fails with the typed error *)

Module resolve_facts.
Import error_facts net_error_facts pinterest_resolver resolver_props validation.

Section WithSession.
Context {lib : PyLib} {session : Session}.

Lemma resolve_invalid pin_url w :
  is_valid_http_url (normalize_url pin_url) = Ok false ->
  resolve_media_candidates pin_url w = (Raise (ResolutionError "Invalid URL format."), w).
Proof.
  intros Hv. unfold resolve_media_candidates, Net.bind at 1, Net.lift at 1.
  by rewrite Hv.
Qed.

Lemma resolve_exhausted pin_url w w' :
  all_strategies_empty pin_url w w' ->
  resolve_media_candidates pin_url w = (Raise (ResolutionError no_media_message), w').
Proof.
  intros (Hv & Hd & response & w1 & w2 & Hget & Hst & Hf & Hapi & Hhtml).
  unfold resolve_media_candidates, Net.bind, Net.lift.
  rewrite Hv. simpl. rewrite Hd, Hget, Hst, Hf, Hapi, Hhtml. done.
Qed.

Lemma resolve_fetch_error pin_url w msg w1 :
  is_valid_http_url (normalize_url pin_url) = Ok true ->
  direct_media_type_of (normalize_url pin_url) = Ok None ->
  session_get (normalize_url pin_url) HTTP_HEADERS w = (inl msg, w1) ->
  resolve_media_candidates pin_url w = (Raise (RequestException msg), w1).
Proof.
  intros Hv Hd Hget.
  unfold resolve_media_candidates, Net.bind, Net.lift, Net.get.
  rewrite Hv. simpl. rewrite Hd, Hget. done.
Qed.

Lemma resolve_http_error pin_url w response w1 :
  is_valid_http_url (normalize_url pin_url) = Ok true ->
  direct_media_type_of (normalize_url pin_url) = Ok None ->
  session_get (normalize_url pin_url) HTTP_HEADERS w = (inr response, w1) ->
  400 <= status_code response < 600 ->
  resolve_media_candidates pin_url w = (Raise (HTTPError (status_code response)), w1).
Proof.
  intros Hv Hd Hget Hst.
  unfold resolve_media_candidates, Net.bind, Net.lift, Net.get, Net.raise_for_status.
  rewrite Hv. simpl. rewrite Hd, Hget. simpl.
  destruct (Z.leb_spec 400 (status_code response)); [|lia].
  destruct (Z.ltb_spec (status_code response) 600); [|lia]. done.
Qed.

(** The typed failure is raised at two places only. *)
Lemma resolve_typed_failure pin_url w msg w' :
  resolve_media_candidates pin_url w = (Raise (ResolutionError msg), w') ->
  is_valid_http_url (normalize_url pin_url) = Ok false
  ∨ all_strategies_empty pin_url w w'.
Proof.
  unfold resolve_media_candidates, all_strategies_empty.
  set (normalized := normalize_url pin_url).
  destruct (is_valid_http_url_total normalized) as [valid Hv].
  unfold Net.bind at 1, Net.lift at 1. rewrite Hv.
  destruct valid; [|by left]. simpl. intros Hrun. right. split; [done|].
  apply net_facts.bind_Raise in Hrun as [Hrun|(direct & w0 & Hd & Hrun)].
  { apply net_facts.lift_inv in Hrun as [Hrun _].
    by apply direct_media_type_of_quiet in Hrun. }
  apply net_facts.lift_inv in Hd as [Hd <-].
  destruct direct as [direct_media_type|].
  { apply net_facts.bind_Raise in Hrun as [Hrun|(? & ? & _ & Hrun)]; [|by net_inv].
    apply net_facts.lift_inv in Hrun as [Hrun _].
    by apply build_candidates_quiet in Hrun. }
  split; [done|].
  apply net_facts.bind_Raise in Hrun as [Hrun|(response & w1 & Hget & Hrun)].
  { by apply net_get_quiet in Hrun. }
  exists response, w1.
  apply net_facts.bind_Raise in Hrun as [Hrun|([] & ? & Hst & Hrun)].
  { apply net_facts.lift_inv in Hrun as [Hrun _].
    by apply raise_for_status_quiet in Hrun. }
  apply net_facts.lift_inv in Hst as [Hst <-].
  apply net_facts.bind_Raise in Hrun as [Hrun|(redirect & ? & Hf & Hrun)].
  { apply net_facts.lift_inv in Hrun as [Hrun _].
    by apply final_media_type_of_quiet in Hrun. }
  apply net_facts.lift_inv in Hf as [Hf <-].
  destruct redirect as [final_media_type|].
  { apply net_facts.bind_Raise in Hrun as [Hrun|(? & ? & _ & Hrun)]; [|by net_inv].
    apply net_facts.lift_inv in Hrun as [Hrun _].
    by apply build_candidates_quiet in Hrun. }
  apply net_facts.bind_Raise in Hrun as [Hrun|(api_candidates & w2 & Hapi & Hrun)].
  { by apply api_strategy_quiet in Hrun. }
  destruct api_candidates as [|item rest]; [|by net_inv].
  apply net_facts.bind_Raise in Hrun as [Hrun|(deduped & w3 & Hhtml & Hrun)].
  { by apply html_strategy_quiet in Hrun. }
  destruct deduped as [|item rest]; [|by net_inv].
  net_inv. by exists w2.
Qed.
End WithSession.
End resolve_facts.

(** ** The URL classifier *)

Module urls_facts.
Import pinterest_urls.

Lemma in_list_true s l : Py.in_list s l = true <-> s ∈ l.
Proof.
  unfold Py.in_list. induction l as [|x l IH]; simpl.
  - split; [done|]. intros Hin. by apply elem_of_nil in Hin.
  - rewrite orb_true_iff, IH, elem_of_cons.
    split; (intros [Heq|Hin]; [left|by right]).
    + by apply String.eqb_eq in Heq.
    + by apply String.eqb_eq.
Qed.

Lemma in_list_false s l : Py.in_list s l = false <-> s ∉ l.
Proof.
  rewrite <- in_list_true. destruct (Py.in_list s l); split; done.
Qed.

(** A reserved word is already trimmed and in lower case. *)
Lemma reserved_canonical s :
  s ∈ RESERVED_PROFILE_SEGMENTS -> Py.lower (Py.strip s) = s.
Proof.
  unfold RESERVED_PROFILE_SEGMENTS. intros Hin.
  repeat (apply elem_of_cons in Hin as [->|Hin]; [vm_compute; reflexivity|]).
  by apply elem_of_nil in Hin.
Qed.

(** Trimming and lowering keep a leading underscore. *)
Lemma underscore_kept s :
  Py.startswith "_" s = true -> Py.startswith "_" (Py.lower (Py.strip s)) = true.
Proof.
  destruct s as [|c s]; [done|]. intros Hc.
  cbn [Py.startswith] in Hc. apply andb_true_iff in Hc as [Hc _].
  apply Ascii.eqb_eq in Hc. subst c.
  unfold Py.strip, Py.strip_by.
  change (Py.lstrip_by Py.isspace (String "_" s)) with (String "_" s).
  cbn [Py.rstrip_by].
  destruct (Py.rstrip_by Py.isspace s); reflexivity.
Qed.

Section WithLib.
Context {lib : PyLib}.

Lemma extract_profile_username_sound url username :
  extract_profile_username url = Ok (Some username) ->
  (username ∉ RESERVED_PROFILE_SEGMENTS) ∧ Py.startswith "_" username = false.
Proof.
  unfold extract_profile_username.
  destruct (urllib.urlparse url) as [parsed|]; [|discriminate]. cbn [rbind].
  destruct (negb (is_pinterest_host (Py.lower (urllib.netloc parsed)))); [discriminate|].
  destruct (Py.in_list (Py.lower (urllib.netloc parsed)) PIN_SHORT_HOSTS); [discriminate|].
  destruct (Py.nonempty_segments "/" (urllib.path parsed)) as [|segment0 rest];
    [discriminate|].
  destruct (Py.in_list (Py.lower (Py.strip segment0)) RESERVED_PROFILE_SEGMENTS) eqn:Hres;
    [discriminate|].
  destruct (Py.startswith "_" (Py.lower (Py.strip segment0))) eqn:Hund; [discriminate|].
  intros [= <-]. split; [apply in_list_false; exact Hres|exact Hund].
Qed.

Lemma extract_profile_username_rejects url parsed segment0 rest :
  urllib.urlparse url = Ok parsed ->
  Py.nonempty_segments "/" (urllib.path parsed) = segment0 :: rest ->
  segment0 ∈ RESERVED_PROFILE_SEGMENTS ∨ Py.startswith "_" segment0 = true ->
  extract_profile_username url = Ok None.
Proof.
  intros Hp Hseg Hbad. unfold extract_profile_username. rewrite Hp. cbn [rbind].
  rewrite Hseg.
  destruct (negb (is_pinterest_host (Py.lower (urllib.netloc parsed)))); [reflexivity|].
  destruct (Py.in_list (Py.lower (urllib.netloc parsed)) PIN_SHORT_HOSTS); [reflexivity|].
  destruct (Py.in_list (Py.lower (Py.strip segment0)) RESERVED_PROFILE_SEGMENTS) eqn:Hres;
    [reflexivity|].
  destruct Hbad as [Hin|Hund].
  - apply in_list_false in Hres. destruct Hres. rewrite reserved_canonical; assumption.
  - rewrite underscore_kept by assumption. reflexivity.
Qed.

Lemma short_host_is_pin url parsed :
  urllib.urlparse url = Ok parsed ->
  Py.lower (urllib.netloc parsed) ∈ PIN_SHORT_HOSTS ->
  is_pin_url url = Ok true
  ∧ extract_profile_username url = Ok None
  ∧ is_profile_url url = Ok false.
Proof.
  intros Hp Hshort. apply in_list_true in Hshort.
  assert (Hpin : is_pin_url url = Ok true).
  { unfold is_pin_url. rewrite Hp. cbn [rbind]. rewrite Hshort. reflexivity. }
  split; [exact Hpin|]. split.
  - unfold extract_profile_username. rewrite Hp. cbn [rbind]. rewrite Hshort.
    destruct (negb (is_pinterest_host (Py.lower (urllib.netloc parsed)))); reflexivity.
  - unfold is_profile_url. rewrite Hpin. reflexivity.
Qed.

Lemma profile_is_not_pin url :
  is_profile_url url = Ok true -> is_pin_url url = Ok false.
Proof.
  unfold is_profile_url. destruct (is_pin_url url) as [[]|]; cbn [rbind]; congruence.
Qed.
End WithLib.
End urls_facts.

(** ** The result of an enumeration *)

Module collect_facts.
Import profile_collector collector_props collector_facts validation pinterest_urls.

Lemma truncate_length max_pins deduped :
  0 < max_pins -> Z.of_nat (List.length (truncate max_pins deduped)) <= max_pins.
Proof.
  intros Hpos. unfold truncate.
  destruct (Z.gtb_spec max_pins 0); [|lia].
  rewrite length_take. lia.
Qed.

Section WithSession.
Context {lib : PyLib} {session : Session}.

Lemma returns_bind {A B} (Q : B -> Prop) (m : Net.M A) (f : A -> Net.M B) :
  (forall a, returns Q (f a)) -> returns Q (Net.bind m f).
Proof.
  intros Hf w b w' Hrun. apply net_facts.bind_Ok in Hrun as (a & w1 & _ & Hrun).
  exact (Hf a w1 b w' Hrun).
Qed.

Lemma returns_ret {A} (Q : A -> Prop) a : Q a -> returns Q (Net.ret a).
Proof. intros HQ w b w' [= <- _]. exact HQ. Qed.

Lemma returns_raise {A} (Q : A -> Prop) e : returns Q (Net.raise e).
Proof. intros w b w' Hrun. discriminate Hrun. Qed.

Ltac returns_step :=
  lazymatch goal with
  | |- returns _ (Net.bind _ _) => apply returns_bind; intros ?
  | |- returns _ (Net.raise _) => apply returns_raise
  | |- returns _ (Net.ret _) => apply returns_ret
  | |- returns _ (match ?x with _ => _ end) => destruct x eqn:?
  | |- returns _ (let _ := _ in _) => cbv zeta
  end.

Lemma collect_counted fuel profile_url max_pins :
  returns (counted max_pins) (collect_profile_pin_urls fuel profile_url max_pins).
Proof.
  unfold collect_profile_pin_urls.
  repeat returns_step.
  all: try (intros r Hr; discriminate Hr).
  all: intros r [= <-]; cbn [discovered_count pin_urls]; split; [reflexivity|].
  all: intros Hpos.
  all: first
    [ apply truncate_length; assumption
    | match goal with
      | H : truncate ?m ?d = _, Hp : 0 < ?m |- _ =>
          let Hlen := fresh in
          pose proof (truncate_length m d Hp) as Hlen;
          rewrite H in Hlen; exact Hlen
      end ].
Qed.

Lemma extends_refl {A} (m : Net.M (option A)) : extends_to m m.
Proof. intros w r w' Hrun. exact Hrun. Qed.

Lemma extends_bind {A B} (m : Net.M A) (f1 f2 : A -> Net.M (option B)) :
  (forall a, extends_to (f1 a) (f2 a)) -> extends_to (Net.bind m f1) (Net.bind m f2).
Proof.
  intros Hf w r w' Hrun. apply net_facts.bind_Ok in Hrun as (a & w1 & Hm & Hrun).
  unfold Net.bind. rewrite Hm. exact (Hf a w1 r w' Hrun).
Qed.

Lemma extends_loop {B} fuel username profile max_pins st
    (k : Pagination -> Net.M (option B)) :
  extends_to
    (Net.bind (pagination_loop fuel username profile max_pins st)
       (fun final => match final with inr _ => Net.ret None | inl final => k final end))
    (Net.bind (pagination_loop (S fuel) username profile max_pins st)
       (fun final => match final with inr _ => Net.ret None | inl final => k final end)).
Proof.
  intros w r w' Hrun. apply net_facts.bind_Ok in Hrun as (final & w1 & Hloop & Hrun).
  destruct final as [final|st'].
  - apply loop_more_fuel in Hloop. unfold Net.bind. rewrite Hloop. exact Hrun.
  - discriminate Hrun.
Qed.

Ltac extends_step :=
  lazymatch goal with
  | |- extends_to (Net.bind (pagination_loop _ _ _ _ _) _) _ => apply extends_loop
  | |- extends_to (Net.bind ?m _) (Net.bind ?m _) => apply extends_bind; intros ?
  | |- extends_to (match ?x with _ => _ end) (match ?x with _ => _ end) => destruct x
  | |- extends_to (let _ := _ in _) _ => cbv zeta
  | |- extends_to ?m ?m => apply extends_refl
  end.

(** A result does not change when the loop is given more turns. *)
Lemma collect_more_fuel fuel profile_url max_pins :
  extends_to (collect_profile_pin_urls fuel profile_url max_pins)
    (collect_profile_pin_urls (S fuel) profile_url max_pins).
Proof.
  unfold collect_profile_pin_urls. repeat extends_step.
Qed.
End WithSession.
End collect_facts.

(** ** Bounds on the scores *)

Module score_facts.
Import pinterest_resolver.

Lemma int_acc_nonneg s : forall acc,
  Py.all_c Py.isdigit_c s = true -> 0 <= acc -> 0 <= Py.int_acc acc s.
Proof.
  induction s as [|c s IH]; intros acc Hd Hacc; cbn [Py.int_acc]; [exact Hacc|].
  cbn [Py.all_c] in Hd. apply andb_true_iff in Hd as [Hc Hs].
  apply IH; [exact Hs|].
  unfold Py.isdigit_c, Py.between in Hc. apply andb_true_iff in Hc as [Hlo _].
  apply Nat.leb_le in Hlo. lia.
Qed.

Lemma int_nonneg s n : Py.int s = Ok n -> 0 <= n.
Proof.
  unfold Py.int, Py.isdigit. destruct (Py.truthy s); cbn [andb]; [|discriminate].
  destruct (Py.all_c Py.isdigit_c s) eqn:Hd; [|discriminate].
  destruct (4300 <? Py.len s)%nat; [discriminate|].
  intros [= <-]. apply int_acc_nonneg; [exact Hd|lia].
Qed.

Section WithLib.
Context {lib : PyLib}.

(** A video never scores below 19550: the base 20000 less the two
    penalties. *)
Lemma score_video_lower url size_hint score :
  _score_video url size_hint = Ok score -> 19550 <= score.
Proof.
  unfold _score_video.
  destruct (urllib.urlparse url) as [parsed|]; [|discriminate]. cbn [rbind].
  set (path := Py.lower (urllib.path parsed)).
  assert (Hres : forall r, (match Re.search VIDEO_RESOLUTION_RE path with
                            | Some m => let? n := Py.int (default "" (Re.group1 m)) in
                                        Ok (20000 + n)
                            | None => Ok 20000
                            end) = Ok r -> 20000 <= r).
  { intros r. destruct (Re.search VIDEO_RESOLUTION_RE path) as [m|].
    - destruct (Py.int (default "" (Re.group1 m))) as [n|] eqn:Hn; cbn [rbind];
        [|discriminate].
      apply int_nonneg in Hn. intros [= <-]. lia.
    - intros [= <-]. lia. }
  destruct (match Re.search VIDEO_RESOLUTION_RE path with
            | Some m => _
            | None => _
            end) as [base|] eqn:Hbase; cbn [rbind]; [|discriminate].
  specialize (Hres base eq_refl). clear Hbase.
  destruct (Py.endswith ".mp4" path); destruct (Py.endswith ".m3u8" path);
    destruct (Py.contains "hls" path);
    destruct (Py.truthy size_hint && Py.endswith "p" (Py.lower size_hint));
    try (intros [= <-]; lia).
  all: destruct (Py.str_isdigit _); try (intros [= <-]; lia).
  all: destruct (Py.int _) as [n|] eqn:Hn; cbn [rbind]; [|discriminate].
  all: apply int_nonneg in Hn; intros [= <-]; lia.
Qed.

(** An image scores at most 10300 plus what its size segment adds. *)
Lemma score_image_upper url size_hint score parsed bonus :
  _score_image url size_hint = Ok score ->
  urllib.urlparse url = Ok parsed ->
  size_segment_bonus (Py.lower (urllib.path parsed)) = Ok bonus ->
  score <= 10300 + bonus.
Proof.
  unfold _score_image. intros Hscore Hp Hb. rewrite Hp in Hscore. cbn [rbind] in Hscore.
  rewrite Hb in Hscore. cbn [rbind] in Hscore. revert Hscore.
  set (path := Py.lower (urllib.path parsed)).
  destruct (Py.contains "/originals/" path || (Py.lower size_hint =? "orig")%string);
    destruct (Py.contains "75x75_rs" path || Py.contains "facebook_share_image" path);
    destruct (Py.contains "/images/" path && negb (Py.contains "/originals/" path));
    destruct (_is_pinimg_host (urllib.netloc parsed));
    intros [= <-]; lia.
Qed.
End WithLib.
End score_facts.

(** ** Strings, addresses and the item-info scenario *)

Module string_facts.

Lemma app_cons c s t : String c s ++ t = String c (s ++ t).
Proof. reflexivity. Qed.

Lemma app_nil_l t : "" ++ t = t.
Proof. reflexivity. Qed.

Lemma take_app s t : Py.take (Py.len s) (s ++ t) = s.
Proof.
  unfold Py.len. induction s as [|c s IH]; [by destruct t|].
  rewrite app_cons. cbn [String.length Py.take]. by rewrite IH.
Qed.

Lemma drop_app s t : Py.drop (Py.len s) (s ++ t) = t.
Proof. unfold Py.len. induction s as [|c s IH]; [by destruct t|]. exact IH. Qed.

Lemma len_app s t : Py.len (s ++ t) = (Py.len s + Py.len t)%nat.
Proof.
  unfold Py.len. induction s as [|c s IH]; [done|].
  rewrite app_cons. cbn [String.length]. by rewrite IH.
Qed.

Lemma find_from_ge needle s : forall i w, Py.find_from needle i s = Some w -> (i <= w)%nat.
Proof.
  induction s as [|c s IH]; intros i w; cbn [Py.find_from].
  - destruct (Py.startswith needle ""); [|discriminate]. intros [= <-]. lia.
  - destruct (Py.startswith needle (String c s)).
    + intros [= <-]. lia.
    + intros H. apply IH in H. lia.
Qed.

Lemma find_from_here c i s : Py.find_from (String c "") i (String c s) = Some i.
Proof. cbn [Py.find_from Py.startswith]. by rewrite Ascii.eqb_refl. Qed.

(** A character that does not occur in [host] is searched for after it. *)
Lemma find_from_skip c host : forall i s,
  Py.mem_c c host = false ->
  Py.find_from (String c "") i (host ++ s) = Py.find_from (String c "") (i + Py.len host) s.
Proof.
  induction host as [|h host IH]; intros i s Hc.
  - rewrite app_nil_l. cbn [Py.len String.length]. by rewrite Nat.add_0_r.
  - cbn [Py.mem_c] in Hc. apply orb_false_elim in Hc as [Hh Hc].
    rewrite app_cons. cbn [Py.find_from Py.startswith].
    rewrite Hh. cbn [andb]. rewrite IH by done. f_equal. unfold Py.len. cbn [String.length]. lia.
Qed.

End string_facts.

Module url_facts.
Import string_facts.

(** The netloc of [//host/rest] is [host] when [host] holds no delimiter. *)
Lemma splitnetloc_host host rest :
  Py.mem_c "/" host = false -> Py.mem_c "?" host = false -> Py.mem_c "#" host = false ->
  urllib._splitnetloc (String "/" (String "/" (host ++ String "/" rest))) 2
  = (host, String "/" rest).
Proof.
  intros Hs Hq Hh. unfold urllib._splitnetloc, urllib.find_at.
  cbn [Py.drop foldl].
  rewrite !find_from_skip by done. rewrite find_from_here.
  set (n := Py.len host).
  assert (Hlen : Py.len (String "/" (String "/" (host ++ String "/" rest)))
                 = (3 + n + Py.len rest)%nat).
  { cbn [Py.len String.length]. fold (Py.len (host ++ String "/" rest)).
    rewrite len_app. cbn [Py.len String.length]. subst n. unfold Py.len. lia. }
  rewrite Hlen.
  replace (Nat.min (3 + n + Py.len rest) (2 + n)) with (2 + n)%nat by lia.
  destruct (Py.find_from "?" (2 + n) (String "/" rest)) as [wq|] eqn:Hwq;
    [apply find_from_ge in Hwq; replace (Nat.min (2 + n) wq) with (2 + n)%nat by lia|];
    (destruct (Py.find_from "#" (2 + n) (String "/" rest)) as [wh|] eqn:Hwh;
     [apply find_from_ge in Hwh; replace (Nat.min (2 + n) wh) with (2 + n)%nat by lia|]);
    (replace (2 + n - 2)%nat with n by lia; subst n; rewrite take_app;
     cbn [Nat.add Py.drop]; by rewrite drop_app).
Qed.

Section WithLib.
Context {lib : PyLib}.

Lemma split_netloc_host host rest :
  Py.mem_c "/" host = false -> Py.mem_c "?" host = false -> Py.mem_c "#" host = false ->
  Py.contains "[" host = false -> Py.contains "]" host = false ->
  urllib.split_netloc (String "/" (String "/" (host ++ String "/" rest)))
  = Ok (host, String "/" rest).
Proof.
  intros Hs Hq Hh Hl Hr. unfold urllib.split_netloc.
  rewrite splitnetloc_host by done. rewrite Hl, Hr. reflexivity.
Qed.

Lemma pin_base_clean t :
  urllib.clean (Py.lstrip_by urllib._WHATWG_C0_CONTROL_OR_SPACE
                  ("https://www.pinterest.com/pin/" ++ t))
  = "https://www.pinterest.com/pin/" ++ urllib.clean t.
Proof. reflexivity. Qed.

Lemma pin_base_scheme t default :
  urllib.split_scheme ("https://www.pinterest.com/pin/" ++ t) default
  = ("https", String "/" (String "/" ("www.pinterest.com" ++ String "/" ("pin/" ++ t)))).
Proof. reflexivity. Qed.

(** The address a pin's candidates are resolved against always parses. *)
Lemma pin_base_parses pin_id :
  exists b, urllib.urlparse_with ("https://www.pinterest.com/pin/" ++ pin_id ++ "/") ""
            = Ok b.
Proof.
  unfold urllib.urlparse_with, urllib.urlsplit.
  rewrite pin_base_clean, pin_base_scheme.
  rewrite split_netloc_host by reflexivity. cbn [rbind].
  destruct (urllib.split_fragment_query _) as [[u q] f]. cbn [rbind].
  match goal with |- context [if ?c then _ else _] => destruct c end;
    [destruct (urllib._splitparams _) as [u' p']|]; eexists; reflexivity.
Qed.
End WithLib.

End url_facts.

Module api_facts.
Import pinterest_resolver Examples.
Section WithLib.
Context {lib : PyLib}.

Lemma image_736x_parses default :
  urllib.urlparse_with image_736x default
  = Ok {| urllib.scheme := "https"; urllib.netloc := "i.pinimg.com";
          urllib.path := "/736x/aa/bb/cc.jpg"; urllib.params := "";
          urllib.query := ""; urllib.fragment := "" |}.
Proof. reflexivity. Qed.

(** Joining the scenario's absolute address to a base that parses gives it
    back. *)
Lemma urljoin_image_736x base b :
  urllib.urlparse_with base "" = Ok b ->
  urljoin_impl.urljoin base image_736x = Ok image_736x.
Proof.
  intros Hb. unfold urljoin_impl.urljoin.
  destruct (negb (Py.truthy base)); [reflexivity|].
  change (negb (Py.truthy image_736x)) with false. cbv iota.
  rewrite Hb. cbn [rbind]. rewrite image_736x_parses. cbn [rbind urllib.scheme].
  destruct (String.eqb "https" (urllib.scheme b)); reflexivity.
Qed.

Lemma normalize_image_736x base b :
  urllib.urlparse_with base "" = Ok b ->
  _normalize_candidate image_736x base = Ok (Some image_736x).
Proof.
  intros Hb. unfold _normalize_candidate.
  change (html.unescape (Py.strip image_736x)) with image_736x.
  change (negb (Py.truthy image_736x)) with false. cbv iota zeta.
  match goal with
  | |- context [urljoin_impl.urljoin base ?u] => change u with image_736x
  end.
  rewrite (urljoin_image_736x base b Hb). reflexivity.
Qed.

Lemma image_736x_entry base b :
  urllib.urlparse_with base "" = Ok b ->
  image_entry_candidates base ("736x", JDict [("url", JStr image_736x)])
  = Ok image_candidates.
Proof.
  intros Hb. unfold image_entry_candidates.
  change (Json.dict_get "url" [("url", JStr image_736x)]) with (JStr image_736x).
  cbv iota. rewrite (normalize_image_736x base b Hb). reflexivity.
Qed.

End WithLib.
End api_facts.

(** ** Addresses that the normalizer leaves alone *)

Module normalize_facts.
Import pinterest_resolver normalize_props string_facts.

Lemma all_c_impl (p q : ascii -> bool) s :
  (forall c, p c = true -> q c = true) -> Py.all_c p s = true -> Py.all_c q s = true.
Proof.
  intros Hpq. induction s as [|c s IH]; [done|]. cbn [Py.all_c].
  intros [Hc Hs]%andb_prop. by rewrite (Hpq c Hc), IH.
Qed.

Lemma lstrip_by_head p c s : p c = false -> Py.lstrip_by p (String c s) = String c s.
Proof. intros Hc. cbn [Py.lstrip_by]. by rewrite Hc. Qed.

(** Nothing is stripped on the right of a text without a character of the
    class. *)
Lemma rstrip_by_none p s :
  Py.all_c (fun c => negb (p c)) s = true -> Py.rstrip_by p s = s.
Proof.
  induction s as [|c s IH]; [done|]. cbn [Py.all_c Py.rstrip_by].
  intros [Hc Hs]%andb_prop. rewrite (IH Hs).
  apply negb_true_iff in Hc. rewrite Hc. by destruct s.
Qed.

(** What [p] leaves on the right, [q] leaves too, when [q] is [p] on the
    characters of the text. *)
Lemma rstrip_by_weaken (p q u : ascii -> bool) s :
  (forall c, u c = true -> q c = true -> p c = true) ->
  Py.all_c u s = true -> Py.rstrip_by p s = s -> Py.rstrip_by q s = s.
Proof.
  intros Hq. induction s as [|c s IH]; [done|]. cbn [Py.all_c Py.rstrip_by].
  intros [Hc Hs]%andb_prop.
  destruct (Py.rstrip_by p s) as [|c' r] eqn:Hp.
  - destruct (p c) eqn:Hpc; [discriminate|]. intros [= <-].
    cbn [Py.rstrip_by]. destruct (q c) eqn:Hqc; [|done].
    by rewrite (Hq c Hc Hqc) in Hpc.
  - intros [= <-]. rewrite (IH Hs eq_refl). reflexivity.
Qed.

(** [replace] leaves a text without an occurrence alone. *)
Lemma replace_absent a old new s :
  Py.contains (String a old) s = false -> Py.replace (String a old) new s = s.
Proof.
  unfold Py.replace. induction s as [|c s IH]; [done|].
  cbn [Py.contains Py.replace_go]. intros [Hh Ht]%orb_false_elim.
  rewrite Hh. by rewrite (IH Ht).
Qed.

Lemma take_all s : Py.take (Py.len s) s = s.
Proof. unfold Py.len. induction s as [|c s IH]; [done|]. cbn [String.length Py.take]. by rewrite IH. Qed.

(** A greedy repetition without upper bound takes a whole text of its
    class, when the continuation accepts the end. *)
Lemma rep_takes_all {R} (p : ascii -> bool) mn (k : nat -> string -> option R) s :
  Py.all_c p s = true ->
  forall n i x, (mn <= n + Py.len s)%nat -> k (i + Py.len s)%nat "" = Some x ->
  Re.rep true p mn None k n i s = Some x.
Proof.
  unfold Py.len. induction s as [|c s IH]; intros Hs n i x Hmn Hk.
  - cbn [Re.rep String.length] in *. rewrite Nat.add_0_r in Hk, Hmn.
    apply Nat.leb_le in Hmn. by rewrite Hmn.
  - cbn [Py.all_c] in Hs. apply andb_prop in Hs as [Hc Hs].
    cbn [Re.rep Re.below andb]. rewrite Hc.
    rewrite (IH Hs (S n) (S i) x); [done| |].
    + cbn [String.length] in Hmn. lia.
    + cbn [String.length] in Hk. by replace (S i + length s)%nat with (i + S (length s))%nat by lia.
Qed.

Lemma url_char_not_space c : url_char c = true -> negb (Py.isspace c) = true.
Proof. unfold url_char. intros [_ H]%negb_true_iff%orb_false_elim. by rewrite H. Qed.

Lemma url_char_trailing c :
  url_char c = true ->
  Py.mem_c c (String "034" "' ),") = true -> Py.mem_c c ".,;" = true.
Proof.
  destruct c as [[] [] [] [] [] [] [] []]; vm_compute; congruence.
Qed.

Lemma match_http rest :
  Re.re_match NORMALIZED_URL_RE ("http://" ++ rest)
  = Re.rep true url_char 1 None
      (fun e _ => Some {| Re.m_start := 0; Re.m_end := e;
                          Re.group0 := Py.take (e - 0) ("http://" ++ rest);
                          Re.group1 := None |}) 0 7 rest.
Proof. reflexivity. Qed.

Lemma match_https rest :
  Re.re_match NORMALIZED_URL_RE ("https://" ++ rest)
  = match Re.rep true url_char 1 None
            (fun e _ => Some {| Re.m_start := 0; Re.m_end := e;
                                Re.group0 := Py.take (e - 0) ("https://" ++ rest);
                                Re.group1 := None |}) 0 8 rest with
    | Some x => Some x
    | None => None
    end.
Proof. reflexivity. Qed.

(** The pattern of a normalized address takes the whole of a text of
    address characters that begins with the scheme. *)
Lemma normalized_url_re_whole s :
  absolute_http s -> Py.all_c url_char s = true -> s <> "http://" -> s <> "https://" ->
  exists m, Re.re_match NORMALIZED_URL_RE s = Some m ∧ Re.group0 m = s.
Proof.
  intros [rest [-> | ->]] Hs H7 H8.
  - assert (Hrest : Py.all_c url_char rest = true).
    { rewrite !app_cons in Hs. cbn [Py.all_c] in Hs.
      repeat (apply andb_prop in Hs as [_ Hs]). exact Hs. }
    assert (Hlen : (1 <= 0 + Py.len rest)%nat).
    { destruct rest; [by destruct H7|]. cbn [Py.len String.length]. lia. }
    rewrite match_http. eexists. split.
    + apply (rep_takes_all _ _ _ _ Hrest _ _ _ Hlen). reflexivity.
    + cbn [Re.group0]. rewrite Nat.sub_0_r.
      change (7 + Py.len rest)%nat with (Py.len ("http://" ++ rest)). apply take_all.
  - assert (Hrest : Py.all_c url_char rest = true).
    { rewrite !app_cons in Hs. cbn [Py.all_c] in Hs.
      repeat (apply andb_prop in Hs as [_ Hs]). exact Hs. }
    assert (Hlen : (1 <= 0 + Py.len rest)%nat).
    { destruct rest; [by destruct H8|]. cbn [Py.len String.length]. lia. }
    rewrite match_https. eexists. split.
    + rewrite (rep_takes_all _ _ _ _ Hrest _ _ _ Hlen eq_refl). reflexivity.
    + cbn [Re.group0]. rewrite Nat.sub_0_r.
      change (8 + Py.len rest)%nat with (Py.len ("https://" ++ rest)). apply take_all.
Qed.

Section WithLib.
Context {lib : PyLib}.

Lemma bare_scheme_invalid s :
  validation.is_valid_http_url s = Ok true -> s <> "http://" ∧ s <> "https://".
Proof. intros Hv. split; intros ->; vm_compute in Hv; discriminate. Qed.

Lemma absolute_http_head s :
  absolute_http s -> exists tail, s = String "h" tail.
Proof. intros [rest [-> | ->]]; eexists; reflexivity. Qed.

Lemma strip_address s :
  absolute_http s -> Py.all_c url_char s = true -> Py.strip s = s.
Proof.
  intros [tail ->]%absolute_http_head Hs. unfold Py.strip, Py.strip_by.
  rewrite lstrip_by_head by reflexivity. apply rstrip_by_none.
  exact (all_c_impl _ _ _ url_char_not_space Hs).
Qed.

Lemma strip_chars_address s :
  absolute_http s -> Py.all_c url_char s = true -> Py.rstrip_chars ".,;" s = s ->
  Py.strip_chars (String "034" "' ),") s = s.
Proof.
  intros [tail ->]%absolute_http_head Hs Ht. unfold Py.strip_chars, Py.strip_by.
  rewrite lstrip_by_head by reflexivity.
  exact (rstrip_by_weaken _ _ _ _ url_char_trailing Hs Ht).
Qed.

End WithLib.

End normalize_facts.

(** * The claims *)

Module claims_resolver.
Import pinterest_resolver resolver_props resolver_facts resolver_shape resolve_facts validation.

(** C1. Every output of [_sort_and_dedupe], hence of every strategy, is in
    non-increasing order of [quality_score] and holds no two candidates with
    the same [(media_type, url)]; each kept candidate is one of the inputs,
    and every input has a kept candidate with its key and a score at least
    its own, so the kept one carries the maximum of its group.  A list
    returned by [resolve_media_candidates] is ranked and free of duplicate
    keys as well. *)
Theorem sort_and_dedupe_ranked_unique :
  (forall candidates,
     ranked (_sort_and_dedupe candidates)
     ∧ distinct_keys (_sort_and_dedupe candidates)
     ∧ (forall kept, kept ∈ _sort_and_dedupe candidates -> kept ∈ candidates)
     ∧ (forall item, item ∈ candidates ->
          exists kept, kept ∈ _sort_and_dedupe candidates
                       ∧ candidate_key kept = candidate_key item
                       ∧ quality_score item <= quality_score kept))
  ∧ (forall (lib : PyLib) (session : Session) pin_url w out w',
       resolve_media_candidates pin_url w = (Ok out, w') ->
       ranked out ∧ distinct_keys out).
Proof.
  split.
  - intros candidates. split_and!.
    + apply sort_and_dedupe_ranked.
    + apply sort_and_dedupe_distinct.
    + apply sort_and_dedupe_from_input.
    + apply sort_and_dedupe_keeps_best.
  - intros lib session pin_url w out w' Hrun.
    apply resolve_output_shape in Hrun as [_ [candidates Hsub]]. split.
    + eapply ranked_sublist; [exact Hsub|apply sort_and_dedupe_ranked].
    + eapply distinct_keys_sublist; [exact Hsub|apply sort_and_dedupe_distinct].
Qed.

Lemma sort_and_dedupe_ranked_unique_witness :
  (Examples.high ∈ [Examples.low; Examples.high]
   ∧ exists kept, kept ∈ _sort_and_dedupe [Examples.low; Examples.high]
                  ∧ candidate_key kept = candidate_key Examples.low
                  ∧ quality_score Examples.low <= quality_score kept)
  ∧ ranked [Examples.resized_236; Examples.originals_236] ∧ distinct_keys [Examples.resized_236; Examples.originals_236].
Proof.
  split.
  - split.
    + apply (proj1 (proj2 (proj2 (proj1 sort_and_dedupe_ranked_unique [Examples.low; Examples.high])))).
      vm_compute. apply list_elem_of_here.
    + apply (proj2 (proj2 (proj2 (proj1 sort_and_dedupe_ranked_unique [Examples.low; Examples.high])))).
      apply list_elem_of_here.
  - apply (proj2 sort_and_dedupe_ranked_unique Examples.example_lib Examples.offline
             "https://i.pinimg.com/236x/abc/def.jpg" tt _ tt).
    vm_compute. reflexivity.
Defined.

(** C3 (defect of the code).  On the direct fast path the size hint [orig]
    is given to every variant, so the resized address gets the bonus meant
    for originals and its size on top: for the address with path
    [/236x/abc/def.jpg] the [originals] variant is produced, but it is
    ranked behind the [236x] one (10300 against 10772). *)
Theorem direct_fast_path_ranks_resized_first (lib : PyLib) (session : Session) (w : World) :
  resolve_media_candidates "https://i.pinimg.com/236x/abc/def.jpg" w
  = (Ok [Examples.resized_236; Examples.originals_236], w).
Proof. vm_compute. reflexivity. Qed.

(** C5 as stated fails: with the page out of reach the resolver neither
    returns a list nor raises [ResolutionError]; the exception of the page
    fetch goes up as it is. *)
Lemma resolve_fetch_error_not_typed :
  resolve_media_candidates (lib := Examples.example_lib) (session := Examples.offline)
    "https://www.pinterest.com/pin/123/" tt
  = (Raise (RequestException "Connection refused"), tt)
  ∧ is_ResolutionError (RequestException "Connection refused") = false.
Proof. split; vm_compute; reflexivity. Qed.

(** C5 (amended).  [resolve_media_candidates] never returns an empty list.
    It raises [ResolutionError] when the input fails the http(s) validation,
    and when, the page being fetched, every strategy comes back empty; and
    whenever it raises [ResolutionError] one of the two is the case.  An
    exception of the page fetch is not turned into [ResolutionError]: it
    goes up unchanged. *)
Theorem resolve_nonempty_or_failure (lib : PyLib) (session : Session) pin_url (w : World) :
  (forall out w', resolve_media_candidates pin_url w = (Ok out, w') -> out ≠ [])
  ∧ (is_valid_http_url (normalize_url pin_url) = Ok false ->
     resolve_media_candidates pin_url w = (Raise (ResolutionError "Invalid URL format."), w))
  ∧ (forall w', all_strategies_empty pin_url w w' ->
     resolve_media_candidates pin_url w = (Raise (ResolutionError no_media_message), w'))
  ∧ (forall msg w', resolve_media_candidates pin_url w = (Raise (ResolutionError msg), w') ->
     is_valid_http_url (normalize_url pin_url) = Ok false
     ∨ all_strategies_empty pin_url w w')
  ∧ (forall msg w1,
     is_valid_http_url (normalize_url pin_url) = Ok true ->
     direct_media_type_of (normalize_url pin_url) = Ok None ->
     session_get (normalize_url pin_url) HTTP_HEADERS w = (inl msg, w1) ->
     resolve_media_candidates pin_url w = (Raise (RequestException msg), w1)).
Proof.
  split_and!.
  - intros out w' Hrun. by apply resolve_output_shape in Hrun as [? _].
  - apply resolve_invalid.
  - apply resolve_exhausted.
  - apply resolve_typed_failure.
  - apply resolve_fetch_error.
Qed.

Lemma all_strategies_empty_example :
  all_strategies_empty (lib := Examples.example_lib) (session := Examples.item_site)
    "https://www.pinterest.com/alice/" tt tt.
Proof.
  split; [vm_compute; reflexivity|]. split; [vm_compute; reflexivity|].
  exists (Examples.page EmptyString "https://www.pinterest.com/alice/"), tt, tt.
  split_and!; vm_compute; reflexivity.
Defined.

Lemma resolve_nonempty_or_failure_witness :
  [Examples.resized_236; Examples.originals_236] ≠ []
  ∧ resolve_media_candidates (lib := Examples.example_lib) (session := Examples.offline)
      "ftp://example.com/a.jpg" tt
    = (Raise (ResolutionError "Invalid URL format."), tt)
  ∧ resolve_media_candidates (lib := Examples.example_lib) (session := Examples.item_site)
      "https://www.pinterest.com/alice/" tt
    = (Raise (ResolutionError no_media_message), tt)
  ∧ (is_valid_http_url (lib := Examples.example_lib)
       (normalize_url "https://www.pinterest.com/alice/") = Ok false
     ∨ all_strategies_empty (lib := Examples.example_lib) (session := Examples.item_site)
         "https://www.pinterest.com/alice/" tt tt)
  ∧ resolve_media_candidates (lib := Examples.example_lib) (session := Examples.offline)
      "https://www.pinterest.com/pin/123/" tt
    = (Raise (RequestException "Connection refused"), tt).
Proof.
  split_and!.
  - apply (proj1 (resolve_nonempty_or_failure Examples.example_lib Examples.offline
                    "https://i.pinimg.com/236x/abc/def.jpg" tt) _ tt).
    vm_compute. reflexivity.
  - apply (proj1 (proj2 (resolve_nonempty_or_failure Examples.example_lib Examples.offline
                           "ftp://example.com/a.jpg" tt))).
    vm_compute. reflexivity.
  - apply (proj1 (proj2 (proj2 (resolve_nonempty_or_failure Examples.example_lib
                                  Examples.item_site "https://www.pinterest.com/alice/" tt)))).
    apply all_strategies_empty_example.
  - apply (proj1 (proj2 (proj2 (proj2 (resolve_nonempty_or_failure Examples.example_lib
             Examples.item_site "https://www.pinterest.com/alice/" tt)))) no_media_message tt).
    vm_compute. reflexivity.
  - apply (proj2 (proj2 (proj2 (proj2 (resolve_nonempty_or_failure Examples.example_lib
             Examples.offline "https://www.pinterest.com/pin/123/" tt)))) _ tt);
      vm_compute; reflexivity.
Defined.

End claims_resolver.

Module claims_urls.
Import pinterest_urls urls_facts.

(** C9. A handle returned by [extract_profile_username] is never a reserved
    word and never starts with an underscore; and when the first segment of
    the path is a reserved word or starts with an underscore, no handle is
    returned at all. *)
Theorem extract_profile_username_never_reserved (lib : PyLib) url :
  (forall username,
     extract_profile_username url = Ok (Some username) ->
     (username ∉ RESERVED_PROFILE_SEGMENTS) ∧ Py.startswith "_" username = false)
  ∧ (forall parsed segment0 rest,
     urllib.urlparse url = Ok parsed ->
     Py.nonempty_segments "/" (urllib.path parsed) = segment0 :: rest ->
     segment0 ∈ RESERVED_PROFILE_SEGMENTS ∨ Py.startswith "_" segment0 = true ->
     extract_profile_username url = Ok None).
Proof.
  split.
  - apply extract_profile_username_sound.
  - apply extract_profile_username_rejects.
Qed.

Lemma extract_profile_username_never_reserved_witness :
  ((("alice" : string) ∉ RESERVED_PROFILE_SEGMENTS) ∧ Py.startswith "_" "alice" = false)
  ∧ extract_profile_username (lib := Examples.example_lib)
      "https://www.pinterest.com/search/pins/" = Ok None
  ∧ extract_profile_username (lib := Examples.example_lib)
      "https://www.pinterest.com/_saved/" = Ok None.
Proof.
  split; [|split].
  - apply (proj1 (extract_profile_username_never_reserved Examples.example_lib
                    "https://www.pinterest.com/Alice/boards")).
    vm_compute. reflexivity.
  - apply (proj2 (extract_profile_username_never_reserved Examples.example_lib
                    "https://www.pinterest.com/search/pins/")
             {| urllib.scheme := "https"; urllib.netloc := "www.pinterest.com";
                urllib.path := "/search/pins/"; urllib.params := EmptyString;
                urllib.query := EmptyString; urllib.fragment := EmptyString |}
             "search" ["pins"]).
    + vm_compute. reflexivity.
    + vm_compute. reflexivity.
    + left. apply in_list_true. vm_compute. reflexivity.
  - apply (proj2 (extract_profile_username_never_reserved Examples.example_lib
                    "https://www.pinterest.com/_saved/")
             {| urllib.scheme := "https"; urllib.netloc := "www.pinterest.com";
                urllib.path := "/_saved/"; urllib.params := EmptyString;
                urllib.query := EmptyString; urllib.fragment := EmptyString |}
             "_saved" []).
    + vm_compute. reflexivity.
    + vm_compute. reflexivity.
    + right. vm_compute. reflexivity.
Defined.

(** C10, as stated, fails for the short-link host: the program compares
    the whole network location with the name of that host, so an address
    whose host is the short-link host but that also names a port, or a
    user, is not classified as a pin URL.  The host is read off the network
    location as [urllib] does, after the user and before the port. *)
Lemma short_host_with_port_is_not_pin :
  (exists parsed,
     urllib.urlparse (lib := Examples.example_lib) "https://pin.it:443/3xAmPlE" = Ok parsed
     ∧ fst (fst (Py.partition ":" (snd (Py.rpartition "@" (urllib.netloc parsed)))))
       = "pin.it"
     ∧ is_pin_url (lib := Examples.example_lib) "https://pin.it:443/3xAmPlE" = Ok false)
  ∧ (exists parsed,
     urllib.urlparse (lib := Examples.example_lib) "https://user@pin.it/3xAmPlE" = Ok parsed
     ∧ fst (fst (Py.partition ":" (snd (Py.rpartition "@" (urllib.netloc parsed)))))
       = "pin.it"
     ∧ is_pin_url (lib := Examples.example_lib) "https://user@pin.it/3xAmPlE" = Ok false).
Proof.
  split.
  - exists {| urllib.scheme := "https"; urllib.netloc := "pin.it:443";
              urllib.path := "/3xAmPlE"; urllib.params := EmptyString;
              urllib.query := EmptyString; urllib.fragment := EmptyString |}.
    split; [|split]; vm_compute; reflexivity.
  - exists {| urllib.scheme := "https"; urllib.netloc := "user@pin.it";
              urllib.path := "/3xAmPlE"; urllib.params := EmptyString;
              urllib.query := EmptyString; urllib.fragment := EmptyString |}.
    split; [|split]; vm_compute; reflexivity.
Qed.

(** C10 (corrected). No input is classified both as a pin URL and as a
    profile URL; and an address whose network location is, up to case, the
    name of the short-link host is a pin URL, yields no handle and is no
    profile URL. *)
Theorem pin_and_profile_exclusive (lib : PyLib) url :
  (is_profile_url url = Ok true -> is_pin_url url = Ok false)
  ∧ (forall parsed,
     urllib.urlparse url = Ok parsed ->
     Py.lower (urllib.netloc parsed) ∈ PIN_SHORT_HOSTS ->
     is_pin_url url = Ok true
     ∧ extract_profile_username url = Ok None
     ∧ is_profile_url url = Ok false).
Proof.
  split.
  - apply profile_is_not_pin.
  - apply short_host_is_pin.
Qed.

Lemma pin_and_profile_exclusive_witness :
  is_pin_url (lib := Examples.example_lib) "https://www.pinterest.com/alice/" = Ok false
  ∧ is_pin_url (lib := Examples.example_lib) "https://Pin.it/3xAmPlE" = Ok true
  ∧ extract_profile_username (lib := Examples.example_lib) "https://Pin.it/3xAmPlE" = Ok None
  ∧ is_profile_url (lib := Examples.example_lib) "https://Pin.it/3xAmPlE" = Ok false.
Proof.
  split.
  - apply (proj1 (pin_and_profile_exclusive Examples.example_lib
                    "https://www.pinterest.com/alice/")).
    vm_compute. reflexivity.
  - apply (proj2 (pin_and_profile_exclusive Examples.example_lib "https://Pin.it/3xAmPlE")
             {| urllib.scheme := "https"; urllib.netloc := "Pin.it";
                urllib.path := "/3xAmPlE"; urllib.params := EmptyString;
                urllib.query := EmptyString; urllib.fragment := EmptyString |}).
    + vm_compute. reflexivity.
    + apply in_list_true. vm_compute. reflexivity.
Defined.

End claims_urls.

Module claims_collector.
Import profile_collector collector_props collector_facts collect_facts trace_facts.

(** C4.  In a run of the pagination loop no cursor is handed to the
    resource endpoint twice.  Whatever the outcome of the run, there is a
    list of pairwise distinct cursors such that the network is left in the
    state that one call of [_fetch_user_pins_page] for each of them, in
    order, leaves; when the loop returns, this list is the list of the
    cursors sent, and they are the ones recorded as seen.  Such a call is
    one POST to the resource endpoint, with the cursor in its data.  A turn
    asks for nothing, or for one page: that of a cursor that has not been
    seen, which it records.  The loop is left at once, with no request,
    when the cursor has been seen before; in particular, when the page
    fetched for a cursor answers that same cursor, the loop ends after that
    one page.  It is also left at once when the cursor is no string, is
    empty or is the end mark, and when a positive [max_pins] has been
    reached. *)
Theorem pagination_never_repeats_a_cursor (lib : PyLib) (session : Session)
    username profile max_pins :
  (forall fuel urls cursor (w : World) res w',
     pagination_loop fuel username profile max_pins (fresh urls cursor) w = (res, w') ->
     exists cursors,
       NoDup cursors
       ∧ w' = after_fetches username profile cursors w
       ∧ forall r, res = Ok r ->
           sent (state_of r) = cursors
           ∧ (forall b, b ∈ cursors <-> b ∈ seen_bookmarks (state_of r)))
  ∧ (forall b (w : World),
     snd (_fetch_user_pins_page username profile b w)
     = snd (page_request username profile b w))
  ∧ (forall st (w : World) r w',
     pagination_turn username profile max_pins st w = (Ok r, w') ->
     (r = inl st ∧ w' = w)
     ∨ (exists b, bookmark st = JStr b ∧ (b ∉ seen_bookmarks st)
          ∧ sent (state_of r) = (sent st ++ [b])%list
          ∧ b ∈ seen_bookmarks (state_of r)
          ∧ exists page next,
              _fetch_user_pins_page username profile b w = (Ok (page, next), w')))
  ∧ (forall fuel st (w : World) b,
     bookmark st = JStr b -> b ∈ seen_bookmarks st ->
     pagination_loop (S fuel) username profile max_pins st w = (Ok (inl st), w))
  ∧ (forall fuel st (w : World) b row rows w1,
     _can_continue_pagination (bookmark st) max_pins
       (Z.of_nat (List.length (collected st))) = true ->
     bookmark st = JStr b -> (b ∉ seen_bookmarks st) ->
     _fetch_user_pins_page username profile b w = (Ok (row :: rows, b), w1) ->
     pagination_loop (S (S fuel)) username profile max_pins st w
     = (Ok (inl (after_page st b (row :: rows) b)), w1))
  ∧ (forall fuel st (w : World),
     (0 < max_pins ∧ max_pins <= Z.of_nat (List.length (collected st)))
     ∨ (forall s, bookmark st ≠ JStr s)
     ∨ bookmark st = JStr EmptyString
     ∨ bookmark st = JStr "-end-" ->
     pagination_loop (S fuel) username profile max_pins st w = (Ok (inl st), w)).
Proof.
  split; [|split; [|split; [|split; [|split]]]].
  - intros fuel urls cursor w res w' Hloop.
    assert (Hfresh : sent_once (fresh urls cursor)).
    { split; [constructor|]. intros b. cbn [fresh sent seen_bookmarks].
      split; intros Hin.
      - apply elem_of_nil in Hin. destruct Hin.
      - apply elem_of_empty in Hin. destruct Hin. }
    destruct (loop_trace username profile max_pins fuel _ _ _ _ Hloop Hfresh)
      as (cursors & Hnd & Hw & Hres).
    cbn [fresh sent app] in Hnd, Hres.
    exists cursors. split; [exact Hnd|]. split; [exact Hw|].
    intros r Hr. destruct (Hres r Hr) as [Hsent [_ Hseen]].
    split; [exact Hsent|]. intros b. rewrite <- Hsent. apply Hseen.
  - intros b w. apply fetch_is_one_request.
  - intros st w r w' Hturn.
    apply turn_trace in Hturn as [[Hsame ->]|(b & Hb & Hnew & _ & _ & Hsent)].
    + left. injection Hsame as ->. by split.
    + right. destruct (Hsent r eq_refl) as (Hs & Hseen & Hfetch).
      exists b. split; [exact Hb|]. split; [exact Hnew|]. split; [exact Hs|].
      split; [|exact Hfetch].
      rewrite Hseen. apply elem_of_union. right. apply elem_of_singleton. reflexivity.
  - intros fuel st w b Hb Hseen. apply loop_leaves_at_once.
    apply (turn_guard username profile max_pins st w b Hb Hseen).
  - intros fuel st w b row rows w1. apply repeated_cursor_stops.
  - intros fuel st w Hstop. apply loop_leaves_at_once. apply turn_halts.
    apply can_continue_false_iff. exact Hstop.
Qed.

Lemma pagination_never_repeats_a_cursor_witness :
  (exists cursors,
     NoDup cursors
     ∧ Examples.one_request
       = after_fetches (lib := Examples.example_lib) (session := Examples.looping_site)
           "alice" "https://www.pinterest.com/alice/" cursors Examples.no_request
     ∧ forall r, Ok (inl Examples.looping_final) = Ok r ->
         sent (state_of r) = cursors
         ∧ (forall b, b ∈ cursors <-> b ∈ seen_bookmarks (state_of r)))
  ∧ ((inr Examples.looping_final = inl Examples.looping_start
      ∧ Examples.one_request = Examples.no_request)
     ∨ (exists b, bookmark Examples.looping_start = JStr b
          ∧ (b ∉ seen_bookmarks Examples.looping_start)
          ∧ sent Examples.looping_final = (sent Examples.looping_start ++ [b])%list
          ∧ b ∈ seen_bookmarks Examples.looping_final
          ∧ exists page next,
              _fetch_user_pins_page (lib := Examples.example_lib)
                (session := Examples.looping_site)
                "alice" "https://www.pinterest.com/alice/" b Examples.no_request
              = (Ok (page, next), Examples.one_request)))
  ∧ pagination_loop (lib := Examples.example_lib) (session := Examples.looping_site) 1
      "alice" "https://www.pinterest.com/alice/" 0 Examples.looping_final
      Examples.one_request
    = (Ok (inl Examples.looping_final), Examples.one_request)
  ∧ pagination_loop (lib := Examples.example_lib) (session := Examples.looping_site) 2
      "alice" "https://www.pinterest.com/alice/" 0 Examples.looping_start
      Examples.no_request
    = (Ok (inl Examples.looping_final), Examples.one_request)
  ∧ pagination_loop (lib := Examples.example_lib) (session := Examples.looping_site) 1
      "alice" "https://www.pinterest.com/alice/" 0 Examples.ended_start
      Examples.no_request
    = (Ok (inl Examples.ended_start), Examples.no_request).
Proof.
  pose proof (pagination_never_repeats_a_cursor Examples.example_lib Examples.looping_site
                "alice" "https://www.pinterest.com/alice/" 0)
    as (H1 & _ & H2 & H3 & H4 & H5).
  split; [|split; [|split; [|split]]].
  - apply (H1 2%nat [] (JStr "B1") Examples.no_request (Ok (inl Examples.looping_final))
             Examples.one_request).
    vm_compute. reflexivity.
  - apply (H2 Examples.looping_start Examples.no_request (inr Examples.looping_final)
             Examples.one_request).
    vm_compute. reflexivity.
  - apply (H3 0%nat Examples.looping_final Examples.one_request "B1"); [reflexivity|].
    apply elem_of_union. right. apply elem_of_singleton. reflexivity.
  - apply (H4 0%nat Examples.looping_start Examples.no_request "B1" Examples.looping_row []
             Examples.one_request).
    + vm_compute. reflexivity.
    + reflexivity.
    + apply not_elem_of_empty.
    + vm_compute. reflexivity.
  - apply (H5 0%nat Examples.ended_start Examples.no_request). right. right. right.
    reflexivity.
Defined.

(** C6 as stated fails.  On a profile whose first page lists three pins
    and with [max_pins = 2], three distinct pins have been seen when the loop
    is left, two are returned, and the count that is returned is 2. *)
Lemma discovered_count_is_truncated :
  pagination_loop (lib := Examples.example_lib) (session := Examples.profile_site) 1
    "alice" "https://www.pinterest.com/alice/" 2 Examples.three_pins_start tt
  = (Ok (inl Examples.three_pins_start), tt)
  ∧ _dedupe_urls (lib := Examples.example_lib) (collected Examples.three_pins_start)
    = Ok Examples.three_pins
  ∧ collect_profile_pin_urls (lib := Examples.example_lib)
      (session := Examples.profile_site) 1 "https://www.pinterest.com/alice/" 2 tt
    = (Ok (Some Examples.two_of_three), tt)
  ∧ discovered_count Examples.two_of_three = 2
  ∧ List.length Examples.three_pins = 3%nat.
Proof. repeat split; vm_compute; reflexivity. Qed.

(** C6 (amended).  In every successful enumeration the count that is
    returned is the length of the list that is returned, taken after the
    truncation: with a positive [max_pins] it is at most [max_pins].  The
    result stays the same when the loop is allowed more turns. *)
Theorem discovered_count_is_returned_length (lib : PyLib) (session : Session)
    fuel profile_url max_pins (w : World) r w' :
  collect_profile_pin_urls fuel profile_url max_pins w = (Ok (Some r), w') ->
  discovered_count r = Z.of_nat (List.length (pin_urls r))
  ∧ (0 < max_pins -> discovered_count r <= max_pins)
  ∧ collect_profile_pin_urls (S fuel) profile_url max_pins w = (Ok (Some r), w').
Proof.
  intros Hrun.
  destruct (collect_counted fuel profile_url max_pins w (Some r) w' Hrun r eq_refl)
    as [Hlen Hmax].
  split; [exact Hlen|]. split; [exact Hmax|].
  exact (collect_more_fuel fuel profile_url max_pins w r w' Hrun).
Qed.

Lemma discovered_count_is_returned_length_witness :
  discovered_count Examples.two_of_three
  = Z.of_nat (List.length (pin_urls Examples.two_of_three))
  ∧ (0 < 2 -> discovered_count Examples.two_of_three <= 2)
  ∧ collect_profile_pin_urls (lib := Examples.example_lib)
      (session := Examples.profile_site) 2 "pinterest.com/alice" 2 tt
    = (Ok (Some Examples.two_of_three), tt).
Proof.
  apply (discovered_count_is_returned_length Examples.example_lib Examples.profile_site
           1 "pinterest.com/alice" 2 tt Examples.two_of_three tt).
  vm_compute. reflexivity.
Defined.

End claims_collector.

Module claims_scores.
Import pinterest_resolver score_facts.

(** C7 as stated fails.  The size segment of an image path adds its width
    and height without a bound: the image at [/10000x/a.jpg] on the media
    host scores 21300, above the plain MP4 video, which scores 20500. *)
Lemma oversized_image_outranks_video :
  _score_video (lib := Examples.example_lib) "https://v1.pinimg.com/videos/a.mp4" EmptyString
  = Ok 20500
  ∧ _score_image (lib := Examples.example_lib) "https://i.pinimg.com/10000x/a.jpg" EmptyString
    = Ok 21300
  ∧ ~ (21300 < 20500).
Proof.
  split; [vm_compute; reflexivity|]. split; [vm_compute; reflexivity|]. lia.
Qed.

(** C7 (amended).  A video scores at least 19550 and an image at most
    10300 plus the width and height read off its size segment; so the video
    is scored strictly above the image whenever that sum is below 9250, in
    particular when the image path has no size segment. *)
Theorem video_outranks_image_of_bounded_size (lib : PyLib)
    video_url video_hint image_url image_hint video_score image_score parsed bonus :
  _score_video video_url video_hint = Ok video_score ->
  _score_image image_url image_hint = Ok image_score ->
  urllib.urlparse image_url = Ok parsed ->
  size_segment_bonus (Py.lower (urllib.path parsed)) = Ok bonus ->
  bonus < 9250 ->
  19550 <= video_score ∧ image_score <= 10300 + bonus ∧ image_score < video_score.
Proof.
  intros Hv Hi Hp Hb Hsmall.
  apply score_video_lower in Hv.
  pose proof (score_image_upper _ _ _ _ _ Hi Hp Hb) as Hup.
  split; [exact Hv|]. split; [exact Hup|]. lia.
Qed.

Lemma video_outranks_image_of_bounded_size_witness :
  19550 <= 19550 ∧ 10772 <= 10300 + 472 ∧ 10772 < 19550.
Proof.
  apply (video_outranks_image_of_bounded_size Examples.example_lib
           "https://v1.pinimg.com/videos/hls/a.m3u8" EmptyString
           "https://i.pinimg.com/236x/abc/def.jpg" "orig" 19550 10772
           {| urllib.scheme := "https"; urllib.netloc := "i.pinimg.com";
              urllib.path := "/236x/abc/def.jpg"; urllib.params := EmptyString;
              urllib.query := EmptyString; urllib.fragment := EmptyString |} 472).
  - vm_compute. reflexivity.
  - vm_compute. reflexivity.
  - vm_compute. reflexivity.
  - vm_compute. reflexivity.
  - lia.
Defined.

End claims_scores.

(** ** The private API scenario *)

Module claims_api.
Import pinterest_resolver resolver_props api_facts url_facts.

(** C2, as stated, fails: the item-info answer of the scenario yields two
    image candidates, the originals variant first. *)
Lemma api_scenario_yields_two_candidates :
  _fetch_pin_api_candidates (lib := Examples.example_lib)
    (session := Examples.item_site) "123" tt
  = (Ok [ {| url := "https://i.pinimg.com/originals/aa/bb/cc.jpg";
             media_type := "image"; quality_score := 10300;
             source := "api-images" |};
          {| url := "https://i.pinimg.com/736x/aa/bb/cc.jpg";
             media_type := "image"; quality_score := 2772;
             source := "api-images" |} ], tt)
  ∧ first_path_segment (H := Examples.example_lib)
      {| url := "https://i.pinimg.com/originals/aa/bb/cc.jpg";
         media_type := "image"; quality_score := 10300; source := "api-images" |}
    = Ok (Some "originals").
Proof. split; vm_compute; reflexivity. Qed.

Section WithLib.
Context {lib : PyLib} {session : Session}.

(** C2 (corrected): when the private API answers with an item whose images
    dictionary is the single entry 736x of the scenario, with no videos, no
    story data and no video flag, the extraction returns, without raising,
    exactly two image candidates: the originals variant of the address
    with score 10300, then the 736x address itself with score 2772. *)
Theorem api_image_only_yields_originals_then_736x
    (pin_id : string) (payload : json) (fields : list (string * json))
    (more : list json) (w w' : World) :
  fetch_json ("https://api.pinterest.com/v3/pidgets/pins/info/?pin_ids=" ++ pin_id) w
    = (Ok (Some payload), w') ->
  Json.get payload "data" = Ok (JList (JDict fields :: more)) ->
  image_only fields ->
  _fetch_pin_api_candidates pin_id w = (Ok Examples.image_candidates, w')
  ∧ List.length Examples.image_candidates = 2%nat
  ∧ Forall (fun c => media_type c = "image") Examples.image_candidates
  ∧ (first_path_segment <$> Examples.image_candidates) = [Ok (Some "originals"); Ok (Some "736x")].
Proof.
  intros Hfetch Hdata (Himages & Hvideos & Hstory & Hflag).
  split; [|split; [reflexivity|split; [by repeat constructor|reflexivity]]].
  unfold _fetch_pin_api_candidates, Net.bind. rewrite Hfetch.
  unfold Net.lift. f_equal. unfold pin_api_candidates.
  rewrite Hdata. cbn [rbind]. rewrite Himages, Hvideos, Hstory, Hflag.
  cbn [negb concat_mapM].
  destruct (pin_base_parses pin_id) as [b Hb].
  rewrite (image_736x_entry _ b Hb). reflexivity.
Qed.
End WithLib.

Lemma api_image_only_yields_originals_then_736x_witness :
  _fetch_pin_api_candidates (lib := Examples.example_lib)
    (session := Examples.item_site) "123" tt = (Ok Examples.image_candidates, tt).
Proof.
  refine (proj1 (api_image_only_yields_originals_then_736x
                   (lib := Examples.example_lib) (session := Examples.item_site)
                   "123" Examples.item_info
                   [("images",
                     JDict [("736x", JDict [("url", JStr Examples.image_736x)])])]
                   [] tt tt _ _ _)).
  - reflexivity.
  - reflexivity.
  - unfold image_only. split; [reflexivity|]. split; [reflexivity|].
    split; reflexivity.
Defined.
End claims_api.

(** ** The candidate normalizer *)

Module claims_normalize.
Import pinterest_resolver normalize_props normalize_facts string_facts.

(** C8, as stated, fails: an address with a closing parenthesis in its path
    is cut before it, and an address that ends in an empty query loses the
    question mark, although neither holds anything the claim excludes. *)
Lemma normalize_cuts_canonical_address :
  _normalize_candidate (lib := Examples.example_lib)
    "https://example.com/a(b)c" "https://www.pinterest.com/pin/1/"
  = Ok (Some "https://example.com/a(b")
  ∧ _normalize_candidate (lib := Examples.example_lib)
      "https://example.com/path?" "https://www.pinterest.com/pin/1/"
    = Ok (Some "https://example.com/path").
Proof. split; vm_compute; reflexivity. Qed.

Section WithLib.
Context {lib : PyLib}.

(** C8 (corrected): an address is returned unchanged by
    [_normalize_candidate] when it begins with http:// or https:// in lower
    case, holds only address characters (no white space, quote, angle
    bracket, nor closing parenthesis, bracket or brace), is left alone by
    the decoding of HTML entities, holds no escaped separator, does not end
    in a full stop, comma or semicolon, is a valid http address, and is
    given back by [urljoin] against the base. *)
Theorem normalize_canonical_unchanged (s base : string) :
  absolute_http s ->
  Py.all_c url_char s = true ->
  html.unescape s = s ->
  no_escaped_separator s ->
  Py.rstrip_chars ".,;" s = s ->
  validation.is_valid_http_url s = Ok true ->
  urljoin_impl.urljoin base s = Ok s ->
  _normalize_candidate s base = Ok (Some s).
Proof.
  intros Habs Hs Hunescape (He1 & He2 & He3 & He4) Htrail Hvalid Hjoin.
  unfold _normalize_candidate.
  rewrite (strip_address s Habs Hs), Hunescape.
  rewrite (replace_absent _ _ _ _ He1), (replace_absent _ _ _ _ He2),
    (replace_absent _ _ _ _ He3), (replace_absent _ _ _ _ He4).
  rewrite (strip_chars_address s Habs Hs Htrail).
  destruct (bare_scheme_invalid s Hvalid) as [H7 H8].
  destruct (normalized_url_re_whole s Habs Hs H7 H8) as (m & Hm & Hg).
  destruct (absolute_http_head s Habs) as [tail Htail].
  assert (Htruthy : negb (Py.truthy s) = false) by (by rewrite Htail).
  assert (Hslashes : Py.startswith "//" s = false).
  { destruct Habs as [rest [-> | ->]]; reflexivity. }
  rewrite Htruthy, Hslashes, Hjoin. cbn [rbind].
  rewrite Htrail, Hm, Hg, Hvalid. reflexivity.
Qed.
End WithLib.

Lemma normalize_canonical_unchanged_witness :
  _normalize_candidate (lib := Examples.example_lib)
    "https://i.pinimg.com/originals/aa/bb/cc.jpg?x=1#top"
    "https://www.pinterest.com/pin/1/"
  = Ok (Some "https://i.pinimg.com/originals/aa/bb/cc.jpg?x=1#top").
Proof.
  apply (normalize_canonical_unchanged (lib := Examples.example_lib)).
  - exists "i.pinimg.com/originals/aa/bb/cc.jpg?x=1#top". right. reflexivity.
  - reflexivity.
  - reflexivity.
  - unfold no_escaped_separator. split; [reflexivity|]. split; [reflexivity|].
    split; reflexivity.
  - reflexivity.
  - reflexivity.
  - reflexivity.
Defined.
End claims_normalize.

(** ** Stripping, substitution and the input address *)

Module strip_facts.
Import string_facts text_props.

Lemma lstrip_by_lstripped p s : lstripped p (Py.lstrip_by p s).
Proof.
  induction s as [|c s IH]; [done|]. cbn [Py.lstrip_by].
  destruct (p c) eqn:Hc; [exact IH|exact Hc].
Qed.

Lemma lstrip_by_id p s : lstripped p s -> Py.lstrip_by p s = s.
Proof. destruct s as [|c s]; [done|]. cbn [lstripped Py.lstrip_by]. by intros ->. Qed.

Lemma rstrip_by_lstripped p s : lstripped p s -> lstripped p (Py.rstrip_by p s).
Proof.
  destruct s as [|c s]; [done|]. cbn [lstripped Py.rstrip_by]. intros Hc.
  destruct (Py.rstrip_by p s); [by rewrite Hc|exact Hc].
Qed.

Lemma rstrip_by_idem p s : Py.rstrip_by p (Py.rstrip_by p s) = Py.rstrip_by p s.
Proof.
  induction s as [|c s IH]; [done|]. cbn [Py.rstrip_by].
  destruct (Py.rstrip_by p s) as [|c' r] eqn:Hr.
  - destruct (p c) eqn:Hc; [done|]. cbn [Py.rstrip_by]. by rewrite Hc.
  - cbn [Py.rstrip_by] in IH |- *. by rewrite IH.
Qed.

Lemma strip_by_lstripped p s : lstripped p (Py.strip_by p s).
Proof. apply rstrip_by_lstripped, lstrip_by_lstripped. Qed.

Lemma strip_by_idem p s : Py.strip_by p (Py.strip_by p s) = Py.strip_by p s.
Proof.
  unfold Py.strip_by at 1. rewrite (lstrip_by_id p (Py.strip_by p s)) by apply strip_by_lstripped.
  apply rstrip_by_idem.
Qed.

(** Nothing is stripped on the right of [a ++ b] when nothing is on the
    right of a non-empty [b]. *)
Lemma rstrip_by_app p a b :
  b <> "" -> Py.rstrip_by p b = b -> Py.rstrip_by p (a ++ b) = a ++ b.
Proof.
  intros Hb Hr. induction a as [|c a IH]; [by rewrite app_nil_l|].
  rewrite app_cons. cbn [Py.rstrip_by]. rewrite IH.
  destruct (a ++ b) eqn:Hab; [|done].
  destruct a; [by rewrite app_nil_l in Hab|by rewrite app_cons in Hab].
Qed.

Lemma truthy_nonempty s : Py.truthy s = true <-> s <> "".
Proof. by destruct s. Qed.

End strip_facts.

Module validation_facts.
Import string_facts text_props strip_facts validation.

Lemma normalize_url_idem raw_url :
  normalize_url (normalize_url raw_url) = normalize_url raw_url.
Proof.
  assert (Hs : Py.strip (Py.strip raw_url) = Py.strip raw_url) by apply strip_by_idem.
  unfold normalize_url. set (url := Py.strip raw_url) in *.
  destruct (Py.truthy url) eqn:Ht; cbn [negb]; [|reflexivity].
  destruct (Py.contains "://" url) eqn:Hc; cbn [negb].
  - by rewrite Hs, Ht, Hc.
  - assert (Hstrip : Py.strip ("https://" ++ url) = "https://" ++ url).
    { unfold Py.strip, Py.strip_by. rewrite app_cons, lstrip_by_id by reflexivity.
      apply (rstrip_by_app Py.isspace "https://" url).
      - by apply truthy_nonempty.
      - unfold Py.strip, Py.strip_by in Hs.
        rewrite (lstrip_by_id Py.isspace url) in Hs; [exact Hs|].
        apply strip_by_lstripped. }
    rewrite Hstrip. reflexivity.
Qed.
End validation_facts.

Module sub_facts.
Import string_facts text_props strip_facts.

Lemma rep_greedy_span {R} (p : ascii -> bool) mn (k : nat -> string -> option R) s :
  forall n i x,
  (mn <= n + span p s)%nat ->
  k (i + span p s)%nat (Py.drop (span p s) s) = Some x ->
  Re.rep true p mn None k n i s = Some x.
Proof.
  induction s as [|c s IH]; intros n i x Hmn Hk.
  - cbn [Re.rep span Py.drop] in *. rewrite Nat.add_0_r in Hk, Hmn.
    apply Nat.leb_le in Hmn. by rewrite Hmn.
  - cbn [Re.rep Re.below andb]. cbn [span] in Hmn, Hk. destruct (p c) eqn:Hc.
    + rewrite (IH (S n) (S i) x); [done|lia|].
      cbn [Py.drop] in Hk. by replace (S i + span p s)%nat with (i + S (span p s))%nat by lia.
    + cbn [Py.drop] in Hk. rewrite Nat.add_0_r in Hk, Hmn.
      apply Nat.leb_le in Hmn. by rewrite Hmn.
Qed.

Lemma match_at_plus_hit p i s :
  (1 <= span p s)%nat ->
  Re.match_at (Re.plus p) i s
  = Some {| Re.m_start := i; Re.m_end := i + span p s;
            Re.group0 := Py.take (i + span p s - i) s; Re.group1 := None |}.
Proof.
  intros H. unfold Re.match_at, Re.plus. cbn [Re.run].
  by apply rep_greedy_span.
Qed.

Lemma match_at_plus_miss p i s :
  span p s = 0%nat -> Re.match_at (Re.plus p) i s = None.
Proof.
  unfold Re.match_at, Re.plus. cbn [Re.run]. destruct s as [|c s]; [done|].
  cbn [span Re.rep Re.below andb]. by destruct (p c).
Qed.

Lemma squash_in_run p s : squash p true s = squash p false (Py.drop (span p s) s).
Proof.
  induction s as [|c s IH]; [done|]. cbn [squash span]. destruct (p c) eqn:Hc.
  - cbn [Py.drop]. exact IH.
  - cbn [Py.drop squash]. by rewrite Hc.
Qed.

Lemma len_drop n s : Py.len (Py.drop n s) = (Py.len s - n)%nat.
Proof.
  unfold Py.len. revert s.
  induction n as [|n IH]; intros [|c s]; cbn [Py.drop String.length]; try lia.
  apply IH.
Qed.

Lemma drop_drop n m s : Py.drop n (Py.drop m s) = Py.drop (m + n) s.
Proof.
  revert s. induction m as [|m IH]; intros s; [done|].
  destruct s as [|c s]; [by destruct n|]. cbn [Py.drop Nat.add]. apply IH.
Qed.

Lemma search_from_plus_bounds p s : forall i m,
  Re.search_from (Re.plus p) i s = Some m ->
  (i <= Re.m_start m)%nat ∧ (Re.m_start m < Re.m_end m)%nat.
Proof.
  induction s as [|c s IH]; intros i m; cbn [Re.search_from].
  - by rewrite match_at_plus_miss.
  - destruct (p c) eqn:Hc.
    + rewrite match_at_plus_hit by (cbn [span]; rewrite Hc; lia).
      intros [= <-]. cbn [Re.m_start Re.m_end span]. rewrite Hc. lia.
    + rewrite match_at_plus_miss by (cbn [span]; by rewrite Hc).
      intros Hm. apply IH in Hm. lia.
Qed.

(** [sub] with the pattern [p+] and the replacement [_]. *)
Lemma sub_go_plus p fuel : forall s i,
  (Py.len s < fuel)%nat ->
  Re.sub_go (fun _ => "_") i s (Re.finditer_go fuel (Re.plus p) i s) = squash p false s.
Proof.
  induction fuel as [|fuel IHf]; intros s i Hlen; [lia|].
  induction s as [|c s IHs] in i, Hlen |- *.
  - reflexivity.
  - cbn [Re.finditer_go Re.search_from].
    destruct (p c) eqn:Hc.
    + rewrite match_at_plus_hit by (cbn [span]; rewrite Hc; lia).
      cbn [Re.m_start Re.m_end span]. rewrite Hc.
      replace (i <? i + S (span p s))%nat with true by (symmetry; apply Nat.ltb_lt; lia).
      replace (i + S (span p s) - i)%nat with (S (span p s)) by lia.
      cbn [Re.sub_go Re.m_start Re.m_end]. rewrite Nat.sub_diag.
      replace (i + S (span p s) - i)%nat with (S (span p s)) by lia.
      cbn [Py.take Py.drop squash]. rewrite Hc. rewrite app_nil_l.
      rewrite IHf.
      * rewrite app_cons, app_nil_l. by rewrite squash_in_run.
      * rewrite len_drop. cbn [Py.len String.length] in Hlen. unfold Py.len in *. lia.
    + rewrite match_at_plus_miss by (cbn [span]; by rewrite Hc).
      cbn [squash]. rewrite Hc.
      assert (Hs : (Py.len s < S fuel)%nat)
        by (cbn [Py.len String.length] in Hlen; unfold Py.len in *; lia).
      specialize (IHs (S i) Hs). cbn [Re.finditer_go] in IHs.
      destruct (Re.search_from (Re.plus p) (S i) s) as [m|] eqn:Hm.
      * destruct (search_from_plus_bounds p s (S i) m Hm) as [Hlo Hhi].
        assert (Hlt : (Re.m_start m <? Re.m_end m)%nat = true) by (apply Nat.ltb_lt; lia).
        rewrite Hlt in IHs |- *. cbn [Re.sub_go] in IHs |- *.
        replace (Re.m_end m - i)%nat with (S (Re.m_end m - S i)) by lia.
        replace (Re.m_start m - i)%nat with (S (Re.m_start m - S i)) by lia.
        cbn [Py.take Py.drop]. rewrite app_cons. by rewrite IHs.
      * cbn [Re.sub_go] in *. by rewrite <- IHs.
Qed.

Lemma sub_plus p s : Re.sub (Re.plus p) (fun _ => "_") s = squash p false s.
Proof. unfold Re.sub, Re.finditer. apply sub_go_plus. lia. Qed.

(** Nothing of [p] is left, when the underscore is not of [p]. *)
Lemma squash_clean p s : p "_"%char = false ->
  forall in_run, Py.all_c (fun c => negb (p c)) (squash p in_run s) = true.
Proof.
  intros Hu. induction s as [|c s IH]; intros in_run; [done|]. cbn [squash].
  destruct (p c) eqn:Hc.
  - destruct in_run; [apply IH|]. cbn [Py.all_c]. by rewrite Hu, IH.
  - cbn [Py.all_c]. by rewrite Hc, IH.
Qed.

End sub_facts.

(** ** File names and input lines *)

Module paths_facts.
Import string_facts text_props strip_facts sub_facts paths.

Lemma all_c_lstrip_by q p s : Py.all_c q s = true -> Py.all_c q (Py.lstrip_by p s) = true.
Proof.
  induction s as [|c s IH]; [done|]. cbn [Py.all_c Py.lstrip_by].
  intros [Hc Hs]%andb_prop. destruct (p c); [by apply IH|]. cbn [Py.all_c]. by rewrite Hc, Hs.
Qed.

Lemma all_c_rstrip_by q p s : Py.all_c q s = true -> Py.all_c q (Py.rstrip_by p s) = true.
Proof.
  induction s as [|c s IH]; [done|]. cbn [Py.all_c Py.rstrip_by].
  intros [Hc Hs]%andb_prop. specialize (IH Hs).
  destruct (Py.rstrip_by p s) as [|c' r].
  - destruct (p c); [done|]. cbn [Py.all_c]. by rewrite Hc.
  - cbn [Py.all_c] in IH |- *. by rewrite Hc, IH.
Qed.

Lemma all_c_take q n s : Py.all_c q s = true -> Py.all_c q (Py.take n s) = true.
Proof.
  revert n. induction s as [|c s IH]; intros [|n]; try done. cbn [Py.all_c Py.take].
  intros [Hc Hs]%andb_prop. by rewrite Hc, IH.
Qed.

Lemma lstripped_take p n s : lstripped p s -> lstripped p (Py.take n s).
Proof. destruct s as [|c s], n as [|n]; done. Qed.

Lemma len_take n s : (Py.len (Py.take n s) <= n)%nat.
Proof.
  unfold Py.len. revert s. induction n as [|n IH]; intros [|c s]; cbn [Py.take String.length]; try lia.
  specialize (IH s). lia.
Qed.

Lemma all_c_slice_to q n s : Py.all_c q s = true -> Py.all_c q (PyMore.slice_to n s) = true.
Proof. unfold PyMore.slice_to. destruct (0 <=? n); apply all_c_take. Qed.

Lemma lstripped_slice_to p n s : lstripped p s -> lstripped p (PyMore.slice_to n s).
Proof. unfold PyMore.slice_to. destruct (0 <=? n); apply lstripped_take. Qed.

(** A character that may stand in a file name. *)
Lemma invalid_underscore : invalid_filename_char "_" = false.
Proof. reflexivity. Qed.

(** The name before it is cut to length. *)
Lemma cleaned_shape name :
  let cleaned := Py.strip_chars "._ "
                   (Re.sub INVALID_FILENAME_CHARS_RE (fun _ => "_") (Py.strip name)) in
  let cleaned := if negb (Py.truthy cleaned) then "image" else cleaned in
  cleaned <> ""
  ∧ Py.all_c (fun c => negb (invalid_filename_char c)) cleaned = true
  ∧ lstripped (fun c => Py.mem_c c "._ ") cleaned.
Proof.
  cbv zeta. unfold INVALID_FILENAME_CHARS_RE. rewrite sub_plus.
  set (raw := squash _ _ _).
  assert (Hraw : Py.all_c (fun c => negb (invalid_filename_char c)) raw = true)
    by apply (squash_clean _ _ invalid_underscore).
  destruct (Py.truthy (Py.strip_chars "._ " raw)) eqn:Ht; cbn [negb].
  - split; [by apply truthy_nonempty|]. split.
    + unfold Py.strip_chars, Py.strip_by. by apply all_c_rstrip_by, all_c_lstrip_by.
    + apply strip_by_lstripped.
  - split; [done|]. split; reflexivity.
Qed.

End paths_facts.

Module lines_facts.
Import validation validation_lines lines_props strip_facts error_facts.
Section WithLib.
Context {lib : PyLib}.

Lemma parse_line_ok st line :
  lines_inv st ->
  exists st', parse_line st line = Ok st' ∧ lines_inv st' ∧ grows st st' ∧ covered [line] st'.
Proof.
  intros [Hnd Hseen Hv Hi]. unfold parse_line.
  destruct (Py.truthy (Py.strip line)) eqn:Ht; cbn [negb].
  - destruct (is_valid_http_url_total (normalize_url (Py.strip line))) as [valid Hvalid].
    rewrite Hvalid. cbn [rbind]. destruct valid; cbn [negb].
    + destruct (bool_decide (normalize_url (Py.strip line) ∉ seen st)) eqn:Hd.
      * apply bool_decide_eq_true in Hd. eexists. split; [reflexivity|].
        split; [split; cbn|split; [split; cbn|]].
        -- apply NoDup_app. split; [done|]. split; [|apply NoDup_singleton].
           intros u Hu ->%list_elem_of_singleton. by apply Hd, Hseen.
        -- intros u. rewrite elem_of_union, elem_of_singleton, elem_of_app,
             list_elem_of_singleton, Hseen. tauto.
        -- apply Forall_app. split; [done|]. by apply Forall_singleton.
        -- done.
        -- intros u Hu. apply elem_of_app. by left.
        -- done.
        -- intros l ->%list_elem_of_singleton _. left. cbn. apply elem_of_app. right.
           by apply list_elem_of_singleton.
      * apply bool_decide_eq_false in Hd. apply dec_stable in Hd.
        exists st. split; [reflexivity|]. split; [done|]. split; [done|].
        intros l ->%list_elem_of_singleton _. left. by apply Hseen.
    + eexists. split; [reflexivity|]. split; [split; cbn; try done|split; [split; cbn|]].
      * apply Forall_app. split; [done|]. apply Forall_singleton.
        split; [by apply truthy_nonempty|done].
      * done.
      * intros u Hu. apply elem_of_app. by left.
      * intros l ->%list_elem_of_singleton _. right. cbn. apply elem_of_app. right.
        by apply list_elem_of_singleton.
  - exists st. split; [reflexivity|]. split; [done|]. split; [done|].
    intros l ->%list_elem_of_singleton Hne. apply truthy_nonempty in Hne. congruence.
Qed.

Lemma parse_lines_ok lines : forall st,
  lines_inv st ->
  exists st', parse_lines st lines = Ok st' ∧ lines_inv st' ∧ grows st st' ∧ covered lines st'.
Proof.
  induction lines as [|line lines IH]; intros st Hinv.
  - exists st. split; [reflexivity|]. split; [done|]. split; [done|].
    intros l Hl. by apply elem_of_nil in Hl.
  - destruct (parse_line_ok st line Hinv) as (st1 & H1 & Hinv1 & [Hg1 Hg1'] & Hc1).
    destruct (IH st1 Hinv1) as (st2 & H2 & Hinv2 & [Hg2 Hg2'] & Hc2).
    exists st2. cbn [parse_lines]. rewrite H1. cbn [rbind]. split; [exact H2|].
    split; [done|]. split; [split; set_solver|].
    intros l [->|Hl]%elem_of_cons Hne.
    + destruct (Hc1 line) as [Hv|Hv]; [by apply list_elem_of_singleton|done| |].
      * left. by apply Hg2.
      * right. by apply Hg2'.
    + by apply Hc2.
Qed.

Lemma lines_inv_empty : lines_inv {| valid_urls := []; invalid_entries := []; seen := ∅ |}.
Proof.
  split; cbn; [apply NoDup_nil_2| |done|done].
  intros u. split; [by intros ?%elem_of_empty|by intros ?%elem_of_nil].
Qed.
End WithLib.
End lines_facts.

(** ** The name of a saved file *)

Module pathlib_facts.
Import string_facts text_props file_props strip_facts sub_facts paths_facts normalize_facts.

Lemma rfind_from_spec needle s : forall i j,
  Py.rfind_from needle i s = Some j ->
  (i <= j)%nat ∧ Py.startswith needle (Py.drop (j - i) s) = true.
Proof.
  induction s as [|c s IH]; intros i j; cbn [Py.rfind_from].
  - destruct (Py.startswith needle "") eqn:Hs; [|done]. intros [= <-].
    rewrite Nat.sub_diag. by split.
  - destruct (Py.rfind_from needle (S i) s) as [j'|] eqn:Hr.
    + intros [= <-]. apply IH in Hr as [Hle Hst]. split; [lia|].
      replace (j' - i)%nat with (S (j' - S i)) by lia. exact Hst.
    + destruct (Py.startswith needle (String c s)) eqn:Hs; [|done]. intros [= <-].
      rewrite Nat.sub_diag. by split.
Qed.

Lemma all_c_drop q n s : Py.all_c q s = true -> Py.all_c q (Py.drop n s) = true.
Proof.
  revert n. induction s as [|c s IH]; intros [|n]; try done. cbn [Py.all_c Py.drop].
  intros [_ Hs]%andb_prop. by apply IH.
Qed.

Lemma all_c_app q s t :
  Py.all_c q (s ++ t) = Py.all_c q s && Py.all_c q t.
Proof.
  induction s as [|c s IH]; [done|]. rewrite app_cons. cbn [Py.all_c].
  by rewrite IH, andb_assoc.
Qed.

(** No piece of a split holds the separator. *)
Lemma split_pieces sep s :
  Forall (fun w => Py.all_c (fun c => negb (Ascii.eqb c sep)) w = true) (Py.split sep s).
Proof.
  induction s as [|c s IH]; [by repeat constructor|]. cbn [Py.split].
  destruct (Ascii.eqb c sep) eqn:Hc; [by constructor|].
  destruct (Py.split sep s) as [|w ws]; [repeat constructor; cbn [Py.all_c]; by rewrite Hc|].
  apply Forall_cons in IH as [Hw Hws]. constructor; [|done].
  cbn [Py.all_c]. by rewrite Hc, Hw.
Qed.

Lemma last_Forall {A} (P : A -> Prop) l d : Forall P l -> P d -> P (List.last l d).
Proof.
  intros Hl Hd. induction Hl as [|x l Hx Hl IH]; [done|].
  destruct l; [done|]. exact IH.
Qed.

Lemma name_no_slash p : Py.all_c not_slash (pathlib.name p) = true.
Proof.
  unfold pathlib.name. apply (last_Forall (fun w => Py.all_c not_slash w = true)); [|done].
  apply Forall_forall. intros w Hw.
  apply list_elem_of_In, filter_In in Hw as [Hw _]. apply list_elem_of_In in Hw.
  pose proof (split_pieces "/" p) as Hall.
  by apply (proj1 (Forall_forall _ _) Hall).
Qed.

(** The suffix of a path is empty, or a full stop followed by at least one
    character, none of them a slash. *)
Lemma suffix_shape p :
  pathlib.suffix p = ""
  ∨ exists r, pathlib.suffix p = String "." r ∧ r <> ""
              ∧ Py.all_c not_slash (pathlib.suffix p) = true.
Proof.
  unfold pathlib.suffix. cbv zeta.
  destruct (Py.rfind "." (pathlib.name p)) as [i|] eqn:Hr; [|by left].
  destruct ((0 <? i)%nat && (i <? Py.len (pathlib.name p) - 1)%nat) eqn:Hi; [|by left].
  right. apply andb_prop in Hi as [_ Hi%Nat.ltb_lt].
  apply rfind_from_spec in Hr as [_ Hst]. rewrite Nat.sub_0_r in Hst.
  pose proof (len_drop i (pathlib.name p)) as Hlen.
  destruct (Py.drop i (pathlib.name p)) as [|c r] eqn:Hd; [done|].
  cbn [Py.startswith] in Hst. apply andb_prop in Hst as [Hc%Ascii.eqb_eq _]. subst c.
  exists r. split; [done|]. split.
  - intros ->. cbn [Py.len String.length] in Hlen. lia.
  - rewrite <- Hd. apply all_c_drop, name_no_slash.
Qed.

Lemma lower_c_not_slash c : not_slash c = true -> not_slash (Py.lower_c c) = true.
Proof. destruct c as [[] [] [] [] [] [] [] []]; vm_compute; congruence. Qed.

Lemma lower_not_slash s : Py.all_c not_slash s = true -> Py.all_c not_slash (Py.lower s) = true.
Proof.
  induction s as [|c s IH]; [done|]. cbn [Py.all_c Py.lower].
  intros [Hc Hs]%andb_prop. by rewrite lower_c_not_slash, IH.
Qed.

End pathlib_facts.

Module downloader_facts.
Import string_facts text_props file_props strip_facts sub_facts paths paths_facts normalize_facts.
Import pathlib_facts downloader.

Lemma lower_nonempty s : s <> "" -> Py.lower s <> "".
Proof. by destruct s. Qed.

Lemma literal_extension r :
  r <> "" -> Py.all_c not_slash (String "." r) = true -> String "." r <> ".jpeg" ->
  extension_like (String "." r).
Proof. intros Hr Hs Hj. split; [by exists r|by split]. Qed.

Lemma table_extension key ext :
  lookup key CONTENT_TYPE_TO_EXT = Some ext -> extension_like ext.
Proof.
  unfold CONTENT_TYPE_TO_EXT, IMAGE_CONTENT_TYPE_TO_EXT, VIDEO_CONTENT_TYPE_TO_EXT.
  cbn [app lookup].
  repeat (destruct (String.eqb key _);
          [intros [= <-]; apply literal_extension; [discriminate|reflexivity|discriminate]|]).
  discriminate.
Qed.

Section WithLib.
Context {lib : PyLib}.

Lemma infer_raises_iff url e :
  media.infer_media_type_from_url url = Raise e <-> urllib.urlparse url = Raise e.
Proof.
  unfold media.infer_media_type_from_url.
  destruct (urllib.urlparse url) as [parsed|e'] eqn:Hp; cbn [rbind]; [|split; intros [= ->]; reflexivity].
  split; [|discriminate].
  repeat match goal with
         | |- context [if ?b then _ else _] => destruct b
         | |- context [match ?l with [] => _ | _ :: _ => _ end] => destruct l
         end; discriminate.
Qed.

Lemma detect_extension_ok media_url basename content_type ext :
  _detect_extension media_url basename content_type = Ok ext -> extension_like ext.
Proof.
  unfold _detect_extension. cbv zeta.
  destruct (Py.truthy (Py.lower (pathlib.suffix basename))) eqn:Ht.
  - intros [= <-]. destruct (suffix_shape basename) as [He|(r & He & Hr & Hs)].
    + rewrite He in Ht. discriminate.
    + destruct (String.eqb (Py.lower (pathlib.suffix basename)) ".jpeg") eqn:Hj.
      * apply literal_extension; [discriminate|reflexivity|discriminate].
      * split; [|split].
        -- rewrite He. cbn [Py.lower]. exists (Py.lower r). split; [reflexivity|].
           by apply lower_nonempty.
        -- by apply lower_not_slash.
        -- intros Heq. rewrite Heq in Hj. discriminate.
  - destruct (lookup _ CONTENT_TYPE_TO_EXT) as [v|] eqn:Hl.
    + intros [= <-]. by apply table_extension in Hl.
    + destruct (media.infer_media_type_from_url media_url) as [mt|e]; cbn [rbind];
        [|discriminate].
      destruct (bool_decide (mt = Some "video")); intros [= <-];
        (apply literal_extension; [discriminate|reflexivity|discriminate]).
Qed.

Lemma detect_extension_raises media_url basename content_type e :
  _detect_extension media_url basename content_type = Raise e ->
  urllib.urlparse media_url = Raise e.
Proof.
  unfold _detect_extension. cbv zeta.
  destruct (Py.truthy _); [discriminate|].
  destruct (lookup _ CONTENT_TYPE_TO_EXT); [discriminate|].
  destruct (media.infer_media_type_from_url media_url) as [mt|e'] eqn:Hi; cbn [rbind].
  - destruct (bool_decide _); discriminate.
  - intros [= ->]. by apply infer_raises_iff.
Qed.
End WithLib.
End downloader_facts.

Module filename_facts.
Import string_facts text_props file_props strip_facts sub_facts paths paths_facts normalize_facts.
Import pathlib_facts downloader downloader_facts.

Lemma allowed_not_slash c :
  negb (invalid_filename_char c) = true -> not_slash c = true.
Proof. destruct c as [[] [] [] [] [] [] [] []]; vm_compute; congruence. Qed.

(** The stem that [sanitize_filename] gives with its default length. *)
Lemma sanitize_default_shape name :
  sanitize_filename_default name <> ""
  ∧ Py.all_c not_slash (sanitize_filename_default name) = true
  ∧ Py.startswith "." (sanitize_filename_default name) = false.
Proof.
  destruct (cleaned_shape name) as (Hne & Hchars & Hhead).
  unfold sanitize_filename_default, sanitize_filename. cbv zeta in Hne, Hchars, Hhead.
  set (cleaned := if negb _ then _ else _) in *.
  unfold PyMore.slice_to. change (0 <=? 96) with true. cbv iota.
  destruct cleaned as [|c r]; [done|].
  change (Z.to_nat 96) with 96%nat. cbn [Py.take].
  split; [done|]. split.
  - apply (all_c_take _ 96 (String c r)) in Hchars. cbn [Py.take] in Hchars.
    revert Hchars. apply all_c_impl, allowed_not_slash.
  - cbn [lstripped Py.mem_c] in Hhead. apply orb_false_elim in Hhead as [Hdot _].
    cbn [Py.startswith]. by rewrite Ascii.eqb_sym, Hdot.
Qed.

Section WithLib.
Context {lib : PyLib}.
Context (unquote : string -> string).

Lemma build_filename_ok media_url content_type prefix name :
  _build_filename unquote media_url content_type prefix = Ok name ->
  exists stem ext,
    name = stem ++ ext ∧ extension_like ext
    ∧ stem <> "" ∧ Py.all_c not_slash stem = true ∧ Py.startswith "." stem = false.
Proof.
  unfold _build_filename.
  destruct (urllib.urlparse media_url) as [parsed|e]; cbn [rbind]; [|discriminate].
  cbv zeta.
  destruct (_detect_extension media_url _ content_type) as [ext|e] eqn:Hext;
    cbn [rbind]; [|discriminate].
  apply detect_extension_ok in Hext. intros [= <-].
  destruct (Py.truthy prefix).
  - eexists _, ext. split; [reflexivity|]. split; [done|]. apply sanitize_default_shape.
  - eexists _, ext. split; [reflexivity|]. split; [done|]. apply sanitize_default_shape.
Qed.

Lemma build_filename_raises media_url content_type prefix e :
  _build_filename unquote media_url content_type prefix = Raise e
  <-> urllib.urlparse media_url = Raise e.
Proof.
  unfold _build_filename.
  destruct (urllib.urlparse media_url) as [parsed|e'] eqn:Hp; cbn [rbind]; [|split; intros [= ->]; reflexivity].
  cbv zeta. split; [|discriminate].
  destruct (_detect_extension media_url _ content_type) as [ext|e'] eqn:Hext;
    cbn [rbind]; [discriminate|].
  apply detect_extension_raises in Hext. congruence.
Qed.
End WithLib.

Lemma app_head_dot stem ext :
  stem <> "" -> Py.startswith "." stem = false -> Py.startswith "." (stem ++ ext) = false.
Proof. destruct stem as [|c r]; [done|]. intros _. by rewrite app_cons. Qed.

Lemma app_nonempty stem ext : stem <> "" -> stem ++ ext <> "".
Proof. destruct stem as [|c r]; [done|]. intros _. by rewrite app_cons. Qed.

End filename_facts.

(** ** Addresses of the site *)

Module site_facts.
Import string_facts text_props strip_facts normalize_facts url_facts site_props.

Lemma mem_c_absent (p : ascii -> bool) a s :
  Py.all_c p s = true -> p a = false -> Py.mem_c a s = false.
Proof.
  intros Hs Ha. induction s as [|c s IH]; [done|]. cbn [Py.all_c Py.mem_c] in *.
  apply andb_prop in Hs as [Hc Hs]. rewrite (IH Hs), orb_false_r.
  destruct (Ascii.eqb_spec a c) as [->|]; [congruence|done].
Qed.

Lemma contains_absent a s : Py.mem_c a s = false -> Py.contains (String a "") s = false.
Proof.
  induction s as [|c s IH]; [done|]. cbn [Py.mem_c Py.contains Py.startswith].
  intros [Hc Hs]%orb_false_elim. by rewrite Hc, (IH Hs).
Qed.

Lemma path_char_absent a s :
  Py.all_c path_char s = true -> path_char a = false ->
  Py.contains (String a "") s = false.
Proof. intros Hs Ha. by apply contains_absent, (mem_c_absent path_char). Qed.

Lemma clean_path s : Py.all_c path_char s = true -> urllib.clean s = s.
Proof.
  intros Hs. unfold urllib.clean, urllib._UNSAFE_URL_BYTES_TO_REMOVE. cbn [foldl].
  rewrite (replace_absent "009" "" "" s) by by apply path_char_absent.
  rewrite (replace_absent "013" "" "" s) by by apply path_char_absent.
  by rewrite (replace_absent "010" "" "" s) by by apply path_char_absent.
Qed.

Section WithLib.
Context {lib : PyLib}.

Lemma site_clean t :
  urllib.clean (Py.lstrip_by urllib._WHATWG_C0_CONTROL_OR_SPACE
                  ("https://www.pinterest.com/" ++ t))
  = "https://www.pinterest.com/" ++ urllib.clean t.
Proof. reflexivity. Qed.

Lemma site_scheme t default :
  urllib.split_scheme ("https://www.pinterest.com/" ++ t) default
  = ("https", String "/" (String "/" ("www.pinterest.com" ++ String "/" t))).
Proof. reflexivity. Qed.

(** An address of the site with a plain path parses into its parts. *)
Lemma site_parses t :
  Py.all_c path_char t = true ->
  urllib.urlparse ("https://www.pinterest.com/" ++ t)
  = Ok {| urllib.scheme := "https"; urllib.netloc := "www.pinterest.com";
          urllib.path := String "/" t; urllib.params := "";
          urllib.query := ""; urllib.fragment := "" |}.
Proof.
  intros Ht. unfold urllib.urlparse, urllib.urlparse_with, urllib.urlsplit.
  rewrite site_clean, (clean_path t Ht), site_scheme.
  rewrite split_netloc_host by reflexivity. cbn [rbind].
  assert (Hc : forall a, path_char a = false -> a <> "/"%char ->
                 Py.contains (String a "") (String "/" t) = false).
  { intros a Ha Hne. cbn [Py.contains Py.startswith].
    rewrite (path_char_absent a t Ht Ha), orb_false_r.
    destruct (Ascii.eqb_spec a "/"); [done|reflexivity]. }
  unfold urllib.split_fragment_query.
  rewrite (Hc "#"%char), (Hc "?"%char) by done. cbn [rbind urllib.s_scheme urllib.s_path].
  rewrite (Hc ";"%char) by done. rewrite andb_false_r. reflexivity.
Qed.
End WithLib.
End site_facts.

(** ** Matches of the patterns *)

Module re_facts.
Import string_facts text_props strip_facts sub_facts normalize_facts.

Lemma span_app_stop p s t :
  Py.all_c p s = true -> span p t = 0%nat -> span p (s ++ t) = Py.len s.
Proof.
  intros Hs Ht. induction s as [|c s IH]; [by rewrite app_nil_l|].
  cbn [Py.all_c] in Hs. apply andb_prop in Hs as [Hc Hs].
  rewrite app_cons. cbn [span]. rewrite Hc, (IH Hs). reflexivity.
Qed.

(** What a repetition has taken when the match goes through. *)
Lemma rep_inv {R} greedy (p : ascii -> bool) mn mx (k : nat -> string -> option R) s :
  forall n i x,
  Re.rep greedy p mn mx k n i s = Some x ->
  exists pre post,
    s = pre ++ post ∧ Py.all_c p pre = true ∧ (mn <= n + Py.len pre)%nat
    ∧ k (i + Py.len pre)%nat post = Some x.
Proof.
  assert (Hstop : forall n i s x,
            (if (mn <=? n)%nat then k i s else None) = Some x ->
            exists pre post,
              s = pre ++ post ∧ Py.all_c p pre = true ∧ (mn <= n + Py.len pre)%nat
              ∧ k (i + Py.len pre)%nat post = Some x).
  { intros n i s0 x H. destruct (mn <=? n)%nat eqn:Hmn; [|discriminate].
    apply Nat.leb_le in Hmn. exists "", s0. cbn [Py.len String.length].
    rewrite !Nat.add_0_r. by rewrite app_nil_l. }
  induction s as [|c s IH]; intros n i x.
  - cbn [Re.rep]. destruct greedy.
    + apply Hstop.
    + destruct (if (mn <=? n)%nat then k i "" else None) eqn:Hk; [|discriminate].
      intros [= <-]. by apply Hstop.
  - cbn [Re.rep].
    assert (Hgo : (if Re.below mx n && p c
                   then Re.rep greedy p mn mx k (S n) (S i) s else None) = Some x ->
                  exists pre post,
                    String c s = pre ++ post ∧ Py.all_c p pre = true
                    ∧ (mn <= n + Py.len pre)%nat ∧ k (i + Py.len pre)%nat post = Some x).
    { destruct (Re.below mx n && p c) eqn:Hc; [|discriminate].
      apply andb_prop in Hc as [_ Hc]. intros Hr.
      apply IH in Hr as (pre & post & -> & Hpre & Hmn & Hk).
      exists (String c pre), post. rewrite app_cons. cbn [Py.all_c Py.len String.length].
      rewrite Hc, Hpre. split; [done|]. split; [done|]. split; [unfold Py.len in *; lia|].
      by replace (i + S (String.length pre))%nat with (S i + Py.len pre)%nat
        by (unfold Py.len; lia). }
    destruct greedy.
    + destruct (if Re.below mx n && p c then _ else None) as [y|] eqn:Hy.
      * intros [= <-]. by apply Hgo.
      * apply Hstop.
    + destruct (if (mn <=? n)%nat then k i (String c s) else None) as [y|] eqn:Hy.
      * intros [= <-]. by apply Hstop.
      * apply Hgo.
Qed.

Lemma search_from_hit r i s m :
  Re.match_at r i s = Some m -> Re.search_from r i s = Some m.
Proof. intros H. destruct s; cbn [Re.search_from]; by rewrite H. Qed.

Lemma search_from_miss r i c s :
  Re.match_at r i (String c s) = None ->
  Re.search_from r i (String c s) = Re.search_from r (S i) s.
Proof. intros H. cbn [Re.search_from]. by rewrite H. Qed.

(** A match found by [search] is a match at some place of the subject. *)
Lemma search_from_inv r s : forall i m,
  Re.search_from r i s = Some m ->
  exists pre post, s = pre ++ post ∧ Re.match_at r (i + Py.len pre) post = Some m.
Proof.
  induction s as [|c s IH]; intros i m; cbn [Re.search_from].
  - destruct (Re.match_at r i "") as [m'|] eqn:Hm; [|discriminate]. intros [= <-].
    exists "", "". cbn [Py.len String.length]. by rewrite Nat.add_0_r.
  - destruct (Re.match_at r i (String c s)) as [m'|] eqn:Hm.
    + intros [= <-]. exists "", (String c s). cbn [Py.len String.length].
      by rewrite Nat.add_0_r.
    + intros H. apply IH in H as (pre & post & -> & H).
      exists (String c pre), post. rewrite app_cons. split; [done|].
      cbn [Py.len String.length].
      by replace (i + S (String.length pre))%nat with (S i + Py.len pre)%nat
        by (unfold Py.len; lia).
Qed.

Lemma isdigit_of_run pre :
  Py.all_c Re.digit pre = true -> (1 <= Py.len pre)%nat -> Py.isdigit pre = true.
Proof.
  intros Hd Hl. unfold Py.isdigit. destruct pre; [cbn in Hl; lia|]. exact Hd.
Qed.

End re_facts.

Module pin_id_facts.
Import string_facts text_props strip_facts sub_facts normalize_facts re_facts.
Import pinterest_resolver.

(** The group of a match of [PIN_ID_PATH_RE] is a run of digits. *)
Lemma pin_id_match_digits i s m :
  Re.match_at PIN_ID_PATH_RE i s = Some m ->
  exists id, Re.group1 m = Some id ∧ Py.isdigit id = true.
Proof.
  unfold Re.match_at, PIN_ID_PATH_RE.
  cbn [Re.seq Re.lit Re.run Re.chr Re.opt Re.plus].
  destruct s as [|c1 s]; [discriminate|]. destruct (Ascii.eqb "/" c1); [|discriminate].
  destruct s as [|c2 s]; [discriminate|]. destruct (Ascii.eqb "p" c2); [|discriminate].
  destruct s as [|c3 s]; [discriminate|]. destruct (Ascii.eqb "i" c3); [|discriminate].
  destruct s as [|c4 s]; [discriminate|]. destruct (Ascii.eqb "n" c4); [|discriminate].
  destruct s as [|c5 s]; [discriminate|]. destruct (Ascii.eqb "/" c5); [|discriminate].
  intros (pre & post & -> & Hpre & Hlen & Hk)%rep_inv.
  exists pre. split; [|by apply isdigit_of_run].
  replace (S (S (S (S (S i)))) + Py.len pre - S (S (S (S (S i)))))%nat
    with (Py.len pre) in Hk by lia.
  rewrite take_app in Hk.
  destruct post as [|c post]; [by injection Hk as <-|].
  destruct (Ascii.eqb "/" c); by injection Hk as <-.
Qed.

Lemma extract_pin_id_digits text id :
  _extract_pin_id text = Some id -> Py.isdigit id = true.
Proof.
  unfold _extract_pin_id, Re.search.
  destruct (Re.search_from PIN_ID_PATH_RE 0 text) as [m|] eqn:Hm; [|discriminate].
  apply search_from_inv in Hm as (pre & post & _ & Hm).
  apply pin_id_match_digits in Hm as (id' & Hg & Hd). rewrite Hg. by intros [= <-].
Qed.

End pin_id_facts.

(** ** Further properties: file names and input lines *)

Module extras_files.
Import string_facts text_props strip_facts sub_facts paths paths_facts normalize_facts.
Import validation validation_lines lines_props lines_facts validation_facts.

(** X1: whatever the name and the length, [sanitize_filename] returns only
    ASCII letters, digits, full stops, underscores and hyphens (so no path
    separator), and the result does not begin with a full stop or an
    underscore. *)
Theorem sanitize_filename_safe (name : string) (max_length : Z) :
  Py.all_c (fun c => PyMore.isalnum_c c || Py.mem_c c "._-")
    (sanitize_filename name max_length) = true
  ∧ Py.startswith "." (sanitize_filename name max_length) = false
  ∧ Py.startswith "_" (sanitize_filename name max_length) = false.
Proof.
  destruct (cleaned_shape name) as (_ & Hchars & Hhead).
  unfold sanitize_filename. cbv zeta in Hchars, Hhead.
  set (cleaned := if negb _ then _ else _) in *.
  apply (all_c_slice_to _ max_length) in Hchars.
  apply (lstripped_slice_to _ max_length) in Hhead.
  split; [|destruct (PyMore.slice_to max_length cleaned) as [|c r]; [done|]].
  - revert Hchars. apply all_c_impl. intros c. unfold invalid_filename_char.
    by rewrite negb_involutive.
  - cbn [lstripped Py.mem_c] in Hhead. apply orb_false_elim in Hhead as [Hdot Hrest].
    apply orb_false_elim in Hrest as [Hus _].
    cbn [Py.startswith]. rewrite Ascii.eqb_sym, Hdot. rewrite (Ascii.eqb_sym "_" c), Hus.
    done.
Qed.

(** X2: with a length of at least one, [sanitize_filename] returns a
    non-empty name of at most that many characters. *)
Theorem sanitize_filename_length (name : string) (max_length : Z) :
  1 <= max_length ->
  sanitize_filename name max_length <> ""
  ∧ Z.of_nat (Py.len (sanitize_filename name max_length)) <= max_length.
Proof.
  intros Hmax. destruct (cleaned_shape name) as (Hne & _ & _).
  unfold sanitize_filename. cbv zeta in Hne.
  set (cleaned := if negb _ then _ else _) in *.
  unfold PyMore.slice_to. destruct (0 <=? max_length) eqn:Hle; [|lia].
  split.
  - destruct cleaned as [|c r]; [done|].
    destruct (Z.to_nat max_length) as [|n] eqn:Hn; [lia|done].
  - pose proof (len_take (Z.to_nat max_length) cleaned). lia.
Qed.

Lemma sanitize_filename_length_witness :
  sanitize_filename "a/b c.JPG" 5 <> ""
  ∧ Z.of_nat (Py.len (sanitize_filename "a/b c.JPG" 5)) <= 5.
Proof. apply sanitize_filename_length. lia. Defined.

(** X3: [normalize_url] is idempotent: normalizing its own result changes
    nothing. *)
Theorem normalize_url_idempotent (raw_url : string) :
  normalize_url (normalize_url raw_url) = normalize_url raw_url.
Proof. apply normalize_url_idem. Qed.

Section WithLib.
Context {lib : PyLib}.

(** X4: [parse_url_lines] never raises; the accepted addresses it returns
    are pairwise distinct and each passes [is_valid_http_url], and every
    rejected entry is a non-empty item whose normalized form fails it. *)
Theorem parse_url_lines_sorts_entries (text : string) :
  exists valid invalid,
    parse_url_lines text = Ok (valid, invalid)
    ∧ NoDup valid
    ∧ Forall (fun u => is_valid_http_url u = Ok true) valid
    ∧ Forall (fun item => item <> ""
                ∧ is_valid_http_url (normalize_url item) = Ok false) invalid.
Proof.
  unfold parse_url_lines.
  destruct (parse_lines_ok (PyMore.splitlines text) _ lines_inv_empty)
    as (st & Hst & [Hnd _ Hv Hi] & _ & _).
  rewrite Hst. cbn [rbind]. by exists (valid_urls st), (invalid_entries st).
Qed.

(** X5: no non-blank line is lost by [parse_url_lines]: the stripped line
    is among the rejected entries, or its normalized form is among the
    accepted addresses. *)
Theorem parse_url_lines_covers (text line : string) (valid invalid : list string) :
  parse_url_lines text = Ok (valid, invalid) ->
  line ∈ PyMore.splitlines text ->
  Py.strip line <> "" ->
  normalize_url (Py.strip line) ∈ valid ∨ Py.strip line ∈ invalid.
Proof.
  unfold parse_url_lines. intros Hparse Hline Hne.
  destruct (parse_lines_ok (PyMore.splitlines text) _ lines_inv_empty)
    as (st & Hst & _ & _ & Hcov).
  rewrite Hst in Hparse. cbn [rbind] in Hparse. injection Hparse as <- <-.
  by apply Hcov.
Qed.
End WithLib.

Lemma parse_url_lines_covers_witness :
  normalize_url (Py.strip " pin.it/abc ") ∈ ["https://pin.it/abc"]
  ∨ Py.strip " pin.it/abc " ∈ ["ftp://x"].
Proof.
  apply (parse_url_lines_covers (lib := Examples.example_lib)
           (" pin.it/abc " ++ String "010" ("ftp://x" ++ String "010" "pin.it/abc"))).
  - vm_compute. reflexivity.
  - vm_compute. apply list_elem_of_here.
  - vm_compute. discriminate.
Defined.

End extras_files.

(** ** Further properties: the downloader and the classifiers *)

Module extras_download.
Import string_facts text_props file_props strip_facts paths paths_facts normalize_facts.
Import pathlib_facts downloader downloader_facts filename_facts error_facts.

Section WithLib.
Context {lib : PyLib}.
Context (unquote : string -> string).

(** X6: whatever the address, the content type, the prefix and the
    decoding of percent escapes, a file name built by [_build_filename] is
    a single path component: it is not empty, holds no slash and does not
    begin with a full stop; it is a sanitized stem followed by an
    extension. *)
Theorem build_filename_single_component
    (media_url content_type prefix name : string) :
  _build_filename unquote media_url content_type prefix = Ok name ->
  name <> ""
  ∧ Py.all_c not_slash name = true
  ∧ Py.startswith "." name = false
  ∧ exists stem ext, name = stem ++ ext ∧ extension_like ext.
Proof.
  intros Hname.
  destruct (build_filename_ok unquote _ _ _ _ Hname)
    as (stem & ext & -> & Hext & Hne & Hslash & Hdot).
  split; [by apply app_nonempty|]. split; [|split].
  - rewrite all_c_app, Hslash. by destruct Hext as (_ & -> & _).
  - by apply app_head_dot.
  - by exists stem, ext.
Qed.

(** X7: [_build_filename] raises exactly when [urlparse] rejects the
    address, and then with the same exception; neither the content type nor
    the prefix can make it fail. *)
Theorem build_filename_fails_only_on_parse
    (media_url content_type prefix : string) (e : exn) :
  _build_filename unquote media_url content_type prefix = Raise e
  <-> urllib.urlparse media_url = Raise e.
Proof. apply build_filename_raises. Qed.

(** X8: an extension returned by [_detect_extension] is a full stop
    followed by at least one character, holds no slash, and is never the
    long form .jpeg. *)
Theorem detect_extension_dotted (media_url basename content_type ext : string) :
  _detect_extension media_url basename content_type = Ok ext ->
  extension_like ext.
Proof. apply detect_extension_ok. Qed.

(** X9: [is_valid_http_url] never raises: an address that [urlparse]
    rejects is reported as not valid. *)
Theorem is_valid_http_url_never_raises (url : string) :
  exists valid,
    validation.is_valid_http_url url = Ok valid
    ∧ forall e, urllib.urlparse url = Raise e -> valid = false.
Proof.
  unfold validation.is_valid_http_url.
  destruct (urllib.urlparse url) as [parsed|e] eqn:Hp.
  - eexists. split; [reflexivity|]. discriminate.
  - apply urlparse_raises in Hp. rewrite Hp. exists false. by split.
Qed.

(** X10: [infer_media_type_from_url] does not catch the error of
    [urlparse]: it raises exactly when [urlparse] does; a type that it
    returns is image or video. *)
Theorem infer_media_type_from_url_outcomes (url : string) :
  (forall e, media.infer_media_type_from_url url = Raise e
             <-> urllib.urlparse url = Raise e)
  ∧ forall t, media.infer_media_type_from_url url = Ok (Some t)
              -> t = "image" ∨ t = "video".
Proof.
  split; [intros e; apply infer_raises_iff|].
  intros t. unfold media.infer_media_type_from_url.
  destruct (urllib.urlparse url) as [parsed|e]; cbn [rbind]; [|discriminate].
  repeat match goal with
         | |- context [if ?b then _ else _] => destruct b
         | |- context [match ?l with [] => _ | _ :: _ => _ end] => destruct l
         end; intros [= <-]; auto.
Qed.
End WithLib.

Lemma build_filename_single_component_witness :
  "pin_001_cc.jpg" <> ""
  ∧ Py.all_c not_slash "pin_001_cc.jpg" = true
  ∧ Py.startswith "." "pin_001_cc.jpg" = false
  ∧ exists stem ext, "pin_001_cc.jpg" = stem ++ ext ∧ extension_like ext.
Proof.
  apply (build_filename_single_component (lib := Examples.example_lib) (fun s => s)
           "https://i.pinimg.com/originals/aa/bb/cc.JPEG" "" "pin_001").
  vm_compute. reflexivity.
Defined.

Lemma detect_extension_dotted_witness : extension_like ".png".
Proof.
  apply (detect_extension_dotted (lib := Examples.example_lib)
           "https://i.pinimg.com/originals/aa/bb/cc" "cc" "image/PNG; q=1").
  vm_compute. reflexivity.
Defined.

End extras_download.

(** ** Canonical addresses of pins *)

Module pin_url_facts.
Import string_facts text_props strip_facts sub_facts normalize_facts re_facts.
Import site_props site_facts pinterest_urls.

Lemma digit_path_char c : Re.digit c = true -> path_char c = true.
Proof. destruct c as [[] [] [] [] [] [] [] []]; vm_compute; congruence. Qed.

Lemma pin_tail_plain pin_id :
  Py.all_c Re.digit pin_id = true -> Py.all_c path_char ("pin/" ++ pin_id ++ "/") = true.
Proof.
  intros Hd. rewrite !app_cons, app_nil_l. cbn [Py.all_c].
  change (path_char "p") with true. change (path_char "i") with true.
  change (path_char "n") with true. change (path_char "/") with true. cbn [andb].
  rewrite pathlib_facts.all_c_app. rewrite (all_c_impl _ _ _ digit_path_char Hd).
  reflexivity.
Qed.

Lemma isdigit_run pin_id :
  Py.isdigit pin_id = true -> Py.all_c Re.digit pin_id = true ∧ (1 <= Py.len pin_id)%nat.
Proof.
  unfold Py.isdigit. intros [Ht Hd]%andb_prop. split; [exact Hd|].
  destruct pin_id; [discriminate|]. cbn [Py.len String.length]. lia.
Qed.

(** The path of a canonical pin address matches [PIN_PATH_RE]. *)
Lemma pin_path_matches pin_id :
  Py.isdigit pin_id = true ->
  is_Some (Re.re_match PIN_PATH_RE ("/pin/" ++ pin_id ++ "/")).
Proof.
  intros [Hd Hl]%isdigit_run. unfold Re.re_match, Re.match_at, PIN_PATH_RE.
  rewrite !app_cons, app_nil_l.
  cbn [Re.seq Re.ilit Re.lit Re.run Re.chr Re.ichr Re.opt Re.plus Nat.eqb].
  change (Ascii.eqb (Py.lower_c "/") (Py.lower_c "/")) with true.
  change (Ascii.eqb (Py.lower_c "p") (Py.lower_c "p")) with true.
  change (Ascii.eqb (Py.lower_c "i") (Py.lower_c "i")) with true.
  change (Ascii.eqb (Py.lower_c "n") (Py.lower_c "n")) with true.
  cbv iota.
  eexists. apply rep_greedy_span.
  - rewrite span_app_stop by done. lia.
  - rewrite span_app_stop by done. rewrite drop_app. reflexivity.
Qed.

Section WithLib.
Context {lib : PyLib}.

Lemma canonical_pin_parses pin_id :
  Py.isdigit pin_id = true ->
  urllib.urlparse (canonical_pin_url pin_id)
  = Ok {| urllib.scheme := "https"; urllib.netloc := "www.pinterest.com";
          urllib.path := "/pin/" ++ pin_id ++ "/"; urllib.params := "";
          urllib.query := ""; urllib.fragment := "" |}.
Proof.
  intros [Hd _]%isdigit_run.
  change (canonical_pin_url pin_id) with ("https://www.pinterest.com/" ++ "pin/" ++ pin_id ++ "/").
  by rewrite (site_parses _ (pin_tail_plain pin_id Hd)).
Qed.

Lemma site_host_is_pinterest :
  Py.in_list (Py.lower "www.pinterest.com") PIN_SHORT_HOSTS = false
  ∧ is_pinterest_host (Py.lower "www.pinterest.com") = true.
Proof. split; vm_compute; reflexivity. Qed.

Lemma is_pin_url_canonical pin_id :
  Py.isdigit pin_id = true -> is_pin_url (canonical_pin_url pin_id) = Ok true.
Proof.
  intros Hd. unfold is_pin_url. rewrite (canonical_pin_parses pin_id Hd).
  cbn [rbind urllib.netloc urllib.path].
  destruct site_host_is_pinterest as [-> ->]. cbn [negb].
  by rewrite (bool_decide_eq_true_2 _ (pin_path_matches pin_id Hd)).
Qed.

Lemma is_profile_url_canonical_pin pin_id :
  Py.isdigit pin_id = true -> is_profile_url (canonical_pin_url pin_id) = Ok false.
Proof. intros Hd. unfold is_profile_url. by rewrite (is_pin_url_canonical pin_id Hd). Qed.
End WithLib.

(** The identifier is read back from a canonical pin address. *)
Lemma extract_pin_id_canonical pin_id :
  Py.isdigit pin_id = true ->
  pinterest_resolver._extract_pin_id (canonical_pin_url pin_id) = Some pin_id.
Proof.
  intros [Hd Hl]%isdigit_run. unfold pinterest_resolver._extract_pin_id, Re.search.
  unfold canonical_pin_url. rewrite !app_cons, app_nil_l.
  do 25 (rewrite search_from_miss by reflexivity).
  assert (Hm : exists m,
            Re.match_at pinterest_resolver.PIN_ID_PATH_RE 25
              (String "/" (String "p" (String "i" (String "n" (String "/" (pin_id ++ "/"))))))
            = Some m ∧ Re.group1 m = Some pin_id).
  { unfold Re.match_at, pinterest_resolver.PIN_ID_PATH_RE.
    cbn [Re.seq Re.lit Re.run Re.chr Re.opt Re.plus].
    change (Ascii.eqb "/" "/") with true. change (Ascii.eqb "p" "p") with true.
    change (Ascii.eqb "i" "i") with true. change (Ascii.eqb "n" "n") with true.
    cbv iota. eexists. split.
    - apply rep_greedy_span.
      + rewrite span_app_stop by done. lia.
      + rewrite span_app_stop by done. rewrite drop_app. reflexivity.
    - cbn [Re.group1]. replace (30 + Py.len pin_id - 30)%nat with (Py.len pin_id) by lia.
      by rewrite take_app. }
  destruct Hm as (m & Hm & Hg). by rewrite (search_from_hit _ _ _ _ Hm).
Qed.

End pin_url_facts.

(** ** Canonical addresses of profiles *)

Module profile_url_facts.
Import string_facts text_props file_props strip_facts sub_facts normalize_facts re_facts.
Import site_props site_facts pathlib_facts pin_url_facts pinterest_urls profile_url_props.

Lemma username_char_facts c :
  username_char c = true ->
  path_char c = true ∧ not_slash c = true ∧ negb (Py.isspace c) = true ∧ Py.lower_c c = c.
Proof. destruct c as [[] [] [] [] [] [] [] []]; vm_compute; intuition congruence. Qed.

Lemma lower_id s : Py.all_c username_char s = true -> Py.lower s = s.
Proof.
  induction s as [|c s IH]; [done|]. cbn [Py.all_c Py.lower].
  intros [Hc Hs]%andb_prop. rewrite (IH Hs).
  by destruct (username_char_facts c Hc) as (_ & _ & _ & ->).
Qed.

Lemma strip_id s : Py.all_c username_char s = true -> Py.strip s = s.
Proof.
  intros Hs. unfold Py.strip, Py.strip_by.
  assert (Hn : Py.all_c (fun c => negb (Py.isspace c)) s = true).
  { revert Hs. apply all_c_impl. intros c Hc. by destruct (username_char_facts c Hc) as (_ & _ & ? & _). }
  rewrite lstrip_by_id.
  - by apply rstrip_by_none.
  - destruct s as [|c s]; [done|]. cbn [lstripped Py.all_c] in *.
    apply andb_prop in Hn as [Hc _]. by apply negb_true_iff in Hc.
Qed.

(** A split at the first separator, when none stands before it. *)
Lemma split_first sep s rest :
  Py.all_c (fun c => negb (Ascii.eqb c sep)) s = true ->
  Py.split sep (s ++ String sep rest) = s :: Py.split sep rest.
Proof.
  induction s as [|c s IH]; intros Hs.
  - rewrite app_nil_l. cbn [Py.split]. by rewrite Ascii.eqb_refl.
  - cbn [Py.all_c] in Hs. apply andb_prop in Hs as [Hc Hs].
    rewrite app_cons. cbn [Py.split]. apply negb_true_iff in Hc. rewrite Hc.
    by rewrite (IH Hs).
Qed.

Lemma profile_tail_plain username :
  Py.all_c username_char username = true ->
  Py.all_c path_char (username ++ "/") = true.
Proof.
  intros Hu. rewrite all_c_app. cbn [Py.all_c]. change (path_char "/") with true.
  rewrite andb_true_r. revert Hu. apply all_c_impl. intros c Hc.
  by destruct (username_char_facts c Hc) as (? & _).
Qed.

Lemma profile_segments username :
  username <> "" -> Py.all_c username_char username = true ->
  Py.nonempty_segments "/" (String "/" (username ++ "/")) = [username].
Proof.
  intros Hne Hu. unfold Py.nonempty_segments. cbn [Py.split].
  change (Ascii.eqb "/" "/") with true. cbv iota.
  rewrite (split_first "/" username "").
  - cbn [Py.split List.filter Py.truthy]. by destruct username.
  - revert Hu. apply all_c_impl. intros c Hc.
    by destruct (username_char_facts c Hc) as (_ & ? & _).
Qed.

(** The path of a canonical profile address is not that of a pin. *)
Lemma profile_path_no_pin username :
  Py.all_c username_char username = true ->
  Re.re_match PIN_PATH_RE (String "/" (username ++ "/")) = None.
Proof.
  intros Hu. unfold Re.re_match, Re.match_at, PIN_PATH_RE.
  cbn [Re.seq Re.ilit Re.lit Re.run Re.chr Re.ichr Re.opt Re.plus Nat.eqb].
  change (Ascii.eqb (Py.lower_c "/") (Py.lower_c "/")) with true. cbv iota.
  destruct username as [|c1 u]; [reflexivity|]. rewrite app_cons. cbv iota.
  destruct (Ascii.eqb (Py.lower_c c1) (Py.lower_c "p")); [|reflexivity].
  destruct u as [|c2 u]; [reflexivity|]. rewrite app_cons. cbv iota.
  destruct (Ascii.eqb (Py.lower_c c2) (Py.lower_c "i")); [|reflexivity].
  destruct u as [|c3 u]; [reflexivity|]. rewrite app_cons. cbv iota.
  destruct (Ascii.eqb (Py.lower_c c3) (Py.lower_c "n")); [|reflexivity].
  destruct u as [|c4 u]; [reflexivity|]. rewrite app_cons. cbv iota.
  cbn [Py.all_c] in Hu. do 3 (apply andb_prop in Hu as [_ Hu]).
  apply andb_prop in Hu as [Hc4 _].
  destruct (username_char_facts c4 Hc4) as (_ & Hs & _ & Hl). rewrite Hl.
  unfold not_slash in Hs. apply negb_true_iff in Hs.
  change (Py.lower_c "/") with "/"%char. by rewrite Hs.
Qed.

Section WithLib.
Context {lib : PyLib}.

Lemma canonical_profile_parses username :
  Py.all_c username_char username = true ->
  urllib.urlparse (canonical_profile_url username)
  = Ok {| urllib.scheme := "https"; urllib.netloc := "www.pinterest.com";
          urllib.path := String "/" (username ++ "/"); urllib.params := "";
          urllib.query := ""; urllib.fragment := "" |}.
Proof.
  intros Hu. unfold canonical_profile_url.
  by rewrite (site_parses _ (profile_tail_plain username Hu)).
Qed.

Lemma extract_canonical_profile username :
  plain_username username ->
  extract_profile_username (canonical_profile_url username) = Ok (Some username).
Proof.
  intros (Hne & Hu & Hres & Hus). unfold extract_profile_username.
  rewrite (canonical_profile_parses username Hu). cbn [rbind urllib.netloc urllib.path].
  destruct site_host_is_pinterest as [-> ->]. cbn [negb].
  rewrite (profile_segments username Hne Hu).
  rewrite (strip_id username Hu), (lower_id username Hu), Hres, Hus. reflexivity.
Qed.

Lemma is_pin_url_canonical_profile username :
  Py.all_c username_char username = true ->
  is_pin_url (canonical_profile_url username) = Ok false.
Proof.
  intros Hu. unfold is_pin_url. rewrite (canonical_profile_parses username Hu).
  cbn [rbind urllib.netloc urllib.path].
  destruct site_host_is_pinterest as [-> ->]. cbn [negb].
  rewrite (profile_path_no_pin username Hu). reflexivity.
Qed.

Lemma is_profile_url_canonical username :
  plain_username username ->
  is_profile_url (canonical_profile_url username) = Ok true.
Proof.
  intros Hp. unfold is_profile_url.
  rewrite (is_pin_url_canonical_profile username (proj1 (proj2 Hp))). cbn [rbind].
  rewrite (extract_canonical_profile username Hp). reflexivity.
Qed.
End WithLib.
End profile_url_facts.

(** ** Further properties: canonical addresses *)

Module extras_urls.
Import pinterest_urls profile_url_props pin_url_facts profile_url_facts pin_id_facts.

Section WithLib.
Context {lib : PyLib}.

(** X11: for an identifier made of digits, the address built by
    [canonical_pin_url] is classified as a pin and not as a profile, and
    [_extract_pin_id] reads the identifier back from it. *)
Theorem canonical_pin_url_round_trip (pin_id : string) :
  Py.isdigit pin_id = true ->
  is_pin_url (canonical_pin_url pin_id) = Ok true
  ∧ is_profile_url (canonical_pin_url pin_id) = Ok false
  ∧ pinterest_resolver._extract_pin_id (canonical_pin_url pin_id) = Some pin_id.
Proof.
  intros Hd. split; [|split].
  - by apply is_pin_url_canonical.
  - by apply is_profile_url_canonical_pin.
  - by apply extract_pin_id_canonical.
Qed.

(** X13: for a user name in lower-case letters, digits, underscore, hyphen
    and full stop that is not reserved and does not begin with an
    underscore, the address built by [canonical_profile_url] is classified
    as a profile and not as a pin, and [extract_profile_username] gives the
    name back. *)
Theorem canonical_profile_url_round_trip (username : string) :
  plain_username username ->
  extract_profile_username (canonical_profile_url username) = Ok (Some username)
  ∧ is_profile_url (canonical_profile_url username) = Ok true
  ∧ is_pin_url (canonical_profile_url username) = Ok false.
Proof.
  intros Hp. split; [|split].
  - by apply extract_canonical_profile.
  - by apply is_profile_url_canonical.
  - apply is_pin_url_canonical_profile. by destruct Hp as (_ & Hu & _).
Qed.
End WithLib.

(** X12: an identifier that [_extract_pin_id] finds in a text is a
    non-empty string of decimal digits. *)
Theorem extract_pin_id_gives_digits (text pin_id : string) :
  pinterest_resolver._extract_pin_id text = Some pin_id -> Py.isdigit pin_id = true.
Proof. apply extract_pin_id_digits. Qed.

Lemma canonical_pin_url_round_trip_witness :
  is_pin_url (lib := Examples.example_lib) (canonical_pin_url "123") = Ok true
  ∧ is_profile_url (lib := Examples.example_lib) (canonical_pin_url "123") = Ok false
  ∧ pinterest_resolver._extract_pin_id (canonical_pin_url "123") = Some "123".
Proof. apply (canonical_pin_url_round_trip (lib := Examples.example_lib)). reflexivity. Defined.

Lemma canonical_profile_url_round_trip_witness :
  extract_profile_username (lib := Examples.example_lib) (canonical_profile_url "alice_99")
    = Ok (Some "alice_99")
  ∧ is_profile_url (lib := Examples.example_lib) (canonical_profile_url "alice_99") = Ok true
  ∧ is_pin_url (lib := Examples.example_lib) (canonical_profile_url "alice_99") = Ok false.
Proof.
  apply (canonical_profile_url_round_trip (lib := Examples.example_lib)).
  unfold plain_username. split; [discriminate|]. split; [reflexivity|].
  split; reflexivity.
Defined.

Lemma extract_pin_id_gives_digits_witness : Py.isdigit "42" = true.
Proof.
  apply (extract_pin_id_gives_digits "see https://pin.example/pin/42/x").
  vm_compute. reflexivity.
Defined.

End extras_urls.

(** ** Lists of candidates and of addresses *)

Module list_facts.
Import pinterest_resolver resolver_props resolver_facts candidate_props.

Lemma odict_get_absent {V} (key : string * string) (d : list (string * string * V)) :
  key ∉ OrderedDict.keys d -> OrderedDict.get key d = None.
Proof.
  induction d as [|[k v] d IH]; [done|]. cbn [OrderedDict.keys List.map fst OrderedDict.get].
  intros Hk. apply not_elem_of_cons in Hk as [Hne Hk].
  destruct (decide (k = key)) as [->|_]; [done|]. by apply IH.
Qed.

Lemma odict_set_absent {V} (key : string * string) (v : V) d :
  OrderedDict.get key d = None -> OrderedDict.set key v d = (d ++ [(key, v)])%list.
Proof.
  induction d as [|[k v0] d IH]; [done|]. cbn [OrderedDict.get OrderedDict.set].
  destruct (decide (k = key)); [discriminate|]. intros H. by rewrite (IH H).
Qed.

(** On candidates with pairwise distinct keys the dictionary takes each of
    them, in order. *)
Lemma by_key_distinct items : forall by_key,
  NoDup (OrderedDict.keys by_key ++ List.map candidate_key items)%list ->
  foldl by_key_step by_key items = (by_key ++ List.map entry_of items)%list.
Proof.
  induction items as [|item items IH]; intros by_key Hnd.
  - cbn [foldl List.map]. by rewrite app_nil_r.
  - cbn [foldl List.map] in *. unfold by_key_step at 2.
    assert (Hk : candidate_key item ∉ OrderedDict.keys by_key).
    { apply NoDup_app in Hnd as (_ & Hd & _). intros Hin. apply (Hd _ Hin), list_elem_of_here. }
    rewrite (odict_get_absent _ _ Hk), (odict_set_absent _ _ _ (odict_get_absent _ _ Hk)).
    rewrite IH.
    + by rewrite <- app_assoc.
    + unfold OrderedDict.keys in *. rewrite map_app. cbn [List.map fst].
      by rewrite <- app_assoc.
Qed.

Lemma sort_ranked_id items : ranked items -> sort_by_score_desc items = items.
Proof.
  unfold sort_by_score_desc. induction 1 as [|item items Hs IH Hall]; [done|].
  cbn [foldr]. rewrite IH. destruct items as [|other items]; [done|].
  cbn [insert_ranked]. apply Forall_cons in Hall as [Hge _]. unfold score_ge in Hge.
  by replace (quality_score item <? quality_score other) with false
    by (symmetry; apply Z.ltb_ge; exact Hge).
Qed.

(** A ranked list without duplicate keys is left as it is. *)
Lemma sort_and_dedupe_fixed items :
  ranked items -> distinct_keys items -> _sort_and_dedupe items = items.
Proof.
  intros Hr Hd. unfold _sort_and_dedupe. cbv zeta.
  rewrite (by_key_distinct items []) by exact Hd.
  cbn [app]. unfold OrderedDict.values. rewrite map_map. cbn [entry_of snd].
  rewrite map_id. by apply sort_ranked_id.
Qed.

Lemma sort_and_dedupe_idem candidates :
  _sort_and_dedupe (_sort_and_dedupe candidates) = _sort_and_dedupe candidates.
Proof.
  apply sort_and_dedupe_fixed; [apply sort_and_dedupe_ranked|apply sort_and_dedupe_distinct].
Qed.

(** The loop of [_dedupe_url_list], from any state in which [seen] is the
    set of [deduped]. *)
Lemma dedupe_url_loop values : forall deduped (seen : gset string),
  (forall v, v ∈ seen <-> v ∈ deduped) -> NoDup deduped ->
  let out := fst (foldl dedupe_step (deduped, seen) values) in
  NoDup out
  ∧ (forall v : string, v ∈ out <-> v ∈ deduped ∨ v ∈ values)
  ∧ out `sublist_of` (deduped ++ values)%list
  ∧ (NoDup (deduped ++ values)%list -> out = (deduped ++ values)%list).
Proof.
  induction values as [|value values IH]; intros deduped seen Hseen Hnd; cbv zeta.
  - cbn [foldl fst]. rewrite app_nil_r. split; [done|]. split; [|done].
    intros v. split; [by left|]. intros [H|H]; [done|by apply elem_of_nil in H].
  - cbn [foldl].
    change (dedupe_step (deduped, seen) value)
      with (if bool_decide (value ∈ seen) then (deduped, seen)
            else ((deduped ++ [value])%list, seen ∪ {[ value ]})).
    destruct (bool_decide (value ∈ seen)) eqn:Hin.
    + apply bool_decide_eq_true in Hin.
      destruct (IH deduped seen Hseen Hnd) as (H1 & H2 & H3 & H4).
      split; [done|]. split; [|split].
      * intros v. rewrite H2, elem_of_cons. split; [tauto|].
        intros [H|[->|H]]; [by left| |by right]. left. by apply Hseen.
      * etrans; [exact H3|]. apply sublist_app; [done|]. by apply sublist_cons.
      * intros Hd. exfalso. apply NoDup_app in Hd as (_ & Hd & _).
        apply (Hd value); [by apply Hseen|apply list_elem_of_here].
    + apply bool_decide_eq_false in Hin.
      destruct (IH (deduped ++ [value])%list (seen ∪ {[ value ]})) as (H1 & H2 & H3 & H4).
      * intros v. rewrite elem_of_union, elem_of_singleton, elem_of_app,
          list_elem_of_singleton, Hseen. tauto.
      * apply NoDup_app. split; [done|]. split; [|apply NoDup_singleton].
        intros v Hv ->%list_elem_of_singleton. by apply Hin, Hseen.
      * split; [done|]. split; [|split].
        -- intros v. rewrite H2, elem_of_app, list_elem_of_singleton, elem_of_cons. tauto.
        -- by rewrite <- app_assoc in H3.
        -- intros Hd. rewrite <- app_assoc in H4. by apply H4.
Qed.

Lemma dedupe_url_list_spec values :
  NoDup (_dedupe_url_list values)
  ∧ (forall v, v ∈ _dedupe_url_list values <-> v ∈ values)
  ∧ _dedupe_url_list values `sublist_of` values
  ∧ (NoDup values -> _dedupe_url_list values = values).
Proof.
  unfold _dedupe_url_list.
  destruct (dedupe_url_loop values [] ∅) as (H1 & H2 & H3 & H4).
  - intros v. split; [by intros ?%elem_of_empty|by intros ?%elem_of_nil].
  - apply NoDup_nil_2.
  - split; [done|]. split; [|by split].
    intros v. rewrite H2. split; [|by right]. intros [H|H]; [by apply elem_of_nil in H|done].
Qed.

End list_facts.

(** ** Further properties: ranking and deduplication *)

Module extras_lists.
Import pinterest_resolver resolver_props list_facts.

(** X14: [_sort_and_dedupe] is idempotent: a list that it has returned is
    returned unchanged when it is given to it again. *)
Theorem sort_and_dedupe_idempotent (candidates : list MediaCandidate) :
  _sort_and_dedupe (_sort_and_dedupe candidates) = _sort_and_dedupe candidates.
Proof.
  apply sort_and_dedupe_fixed.
  - apply resolver_facts.sort_and_dedupe_ranked.
  - apply resolver_facts.sort_and_dedupe_distinct.
Qed.


End extras_lists.

(** ** The shape of an enumeration result *)

Module collect_shape.
Import profile_collector collector_props collector_props2 collector_facts collect_facts.
Import validation pinterest_urls.

Section WithLib.
Context {lib : PyLib}.

Lemma dedupe_go_shape urls : forall deduped (seen : gset string) out seen',
  (forall v, v ∈ seen <-> v ∈ deduped) -> NoDup deduped ->
  dedupe_go (deduped, seen) urls = Ok (out, seen') ->
  NoDup out ∧ ((deduped <> [] ∨ urls <> []) -> out <> []).
Proof.
  induction urls as [|url urls IH]; intros deduped seen out seen' Hseen Hnd; cbn [dedupe_go].
  - intros [= <- <-]. split; [done|]. intros [H|H]; done.
  - unfold dedupe_step.
    destruct (urllib.urlparse url) as [parsed|e]; cbn [rbind]; [|discriminate].
    set (normalized := urllib.geturl _).
    destruct (bool_decide (normalized ∈ seen)) eqn:Hin; cbn [rbind]; intros Hgo.
    + apply bool_decide_eq_true in Hin.
      destruct (IH _ _ _ _ Hseen Hnd Hgo) as [H1 H2]. split; [done|].
      intros _. apply H2. left. intros ->. apply Hseen in Hin. by apply elem_of_nil in Hin.
    + apply bool_decide_eq_false in Hin.
      apply IH in Hgo as [H1 H2].
      * split; [done|]. intros _. apply H2. left. by destruct deduped.
      * intros v. rewrite elem_of_union, elem_of_singleton, elem_of_app,
          list_elem_of_singleton, Hseen. tauto.
      * apply NoDup_app. split; [done|]. split; [|apply NoDup_singleton].
        intros v Hv ->%list_elem_of_singleton. by apply Hin, Hseen.
Qed.

Lemma dedupe_urls_shape urls out :
  _dedupe_urls urls = Ok out -> NoDup out ∧ (urls <> [] -> out <> []).
Proof.
  unfold _dedupe_urls.
  destruct (dedupe_go ([], ∅) urls) as [[deduped seen]|e] eqn:Hgo; cbn [rbind]; [|discriminate].
  intros [= <-]. cbn [fst].
  apply dedupe_go_shape in Hgo as [H1 H2].
  - split; [done|]. intros H. apply H2. by right.
  - intros v. split; [by intros ?%elem_of_empty|by intros ?%elem_of_nil].
  - apply NoDup_nil_2.
Qed.

Lemma truncate_shape max_pins deduped :
  NoDup deduped -> NoDup (truncate max_pins deduped)
  ∧ (deduped <> [] -> truncate max_pins deduped <> []).
Proof.
  intros Hnd. unfold truncate. destruct (Z.gtb_spec max_pins 0) as [Hpos|]; [|done].
  split.
  - eapply sublist_NoDup; [exact Hnd|apply sublist_take].
  - destruct deduped as [|u deduped]; [done|]. intros _.
    destruct (Z.to_nat max_pins) as [|n] eqn:Hn; [lia|done].
Qed.
End WithLib.
End collect_shape.

Module collect_shape2.
Import profile_collector collector_props collector_props2 collector_facts collect_facts.
Import collect_shape validation pinterest_urls.

Section WithSession.
Context {lib : PyLib} {session : Session}.

Lemma returns_bind_lift {A B} (Q : B -> Prop) (r : result A) (f : A -> Net.M B) :
  (forall a, r = Ok a -> returns Q (f a)) -> returns Q (Net.bind (Net.lift r) f).
Proof.
  intros Hf w b w' Hrun. apply net_facts.bind_Ok in Hrun as (a & w1 & Hl & Hrun).
  apply net_facts.lift_inv in Hl as [Hr _]. exact (Hf a Hr w1 b w' Hrun).
Qed.

Lemma and_truthy_nonempty o s :
  pinterest_resolver.and_truthy true o = Some s -> s <> "".
Proof.
  destruct o as [s'|]; [|discriminate]. cbn [pinterest_resolver.and_truthy andb].
  destruct s'; [discriminate|]. by intros [= <-].
Qed.

Ltac shape_step :=
  lazymatch goal with
  | |- returns _ (Net.bind (Net.lift _) _) => apply returns_bind_lift; intros ? ?
  | |- returns _ (Net.bind _ _) => apply returns_bind; intros ?
  | |- returns _ (Net.raise _) => apply returns_raise
  | |- returns _ (match ?x with _ => _ end) => destruct x eqn:?
  | |- returns _ (let _ := _ in _) => cbv zeta
  end.

Lemma collect_well_formed fuel address max_pins :
  returns well_formed (collect_profile_pin_urls fuel address max_pins).
Proof.
  unfold collect_profile_pin_urls.
  repeat shape_step.
  all: apply returns_ret; intros r Hr; try discriminate Hr.
  all: injection Hr as <-; cbn [pin_urls profile_url profile_username].
  all: match goal with
       | H : pinterest_resolver.and_truthy true _ = Some ?u |- _ =>
           pose proof (and_truthy_nonempty _ _ H)
       end.
  all: match goal with
       | H : _dedupe_urls ?u = Ok ?d |- _ =>
           destruct (dedupe_urls_shape _ _ H) as [Hnd Hne];
           destruct (truncate_shape max_pins d Hnd) as [Hnd' Hne']
       end.
  all: split; [|split; [|split; [reflexivity|assumption]]].
  all: try (rewrite <- ?Heql; first [exact Hnd' | match goal with H : truncate _ _ = _ |- _ => rewrite <- H; exact Hnd' end]).
  all: try (apply Hne', Hne; congruence).
  all: try congruence.
Qed.
End WithSession.
End collect_shape2.

(** ** Further properties: the enumeration of a profile *)

Module extras_collect.
Import profile_collector collector_props collector_props2 collect_shape2.
Import validation pinterest_urls.

Section WithSession.
Context {lib : PyLib} {session : Session}.

(** X16: a result of [collect_profile_pin_urls] always holds at least one
    pin address, holds no address twice, and names the profile by the
    canonical address of the user name it reports, which is not empty. *)
Theorem collect_result_well_formed
    (fuel : nat) (address : string) (max_pins : Z) (w w' : World)
    (r : ProfileCollectionResult) :
  collect_profile_pin_urls fuel address max_pins w = (Ok (Some r), w') ->
  pin_urls r <> []
  ∧ NoDup (pin_urls r)
  ∧ profile_url r = canonical_profile_url (profile_username r)
  ∧ profile_username r <> "".
Proof.
  intros Hrun.
  exact (collect_well_formed fuel address max_pins w (Some r) w' Hrun r eq_refl).
Qed.

(** X17: an input that is not a valid http address, or in which no profile
    name is found, is refused with [ProfileCollectionError] before anything
    is requested: the outcome is the same for every session and the state
    of the network is left as it was. *)
Theorem collect_refuses_before_any_request
    (fuel : nat) (address : string) (max_pins : Z) (w : World) :
  is_valid_http_url (normalize_url address) = Ok false
  ∨ extract_profile_username (normalize_url address) = Ok None ->
  exists message,
    collect_profile_pin_urls fuel address max_pins w
    = (Raise (ProfileCollectionError message), w).
Proof.
  intros Hbad. unfold collect_profile_pin_urls. cbv zeta.
  unfold Net.bind at 1, Net.lift at 1.
  destruct (error_facts.is_valid_http_url_total (normalize_url address)) as [valid Hvalid].
  rewrite Hvalid. destruct valid; cbn [negb].
  - destruct Hbad as [Hbad|Hbad]; [congruence|].
    unfold Net.bind at 1, Net.lift at 1. rewrite Hbad.
    cbn [pinterest_resolver.and_truthy]. by eexists.
  - by eexists.
Qed.
End WithSession.

Lemma collect_result_well_formed_witness :
  pin_urls Examples.two_of_three <> []
  ∧ NoDup (pin_urls Examples.two_of_three)
  ∧ profile_url Examples.two_of_three
    = canonical_profile_url (profile_username Examples.two_of_three)
  ∧ profile_username Examples.two_of_three <> "".
Proof.
  apply (collect_result_well_formed (lib := Examples.example_lib)
           (session := Examples.profile_site) 2 "pinterest.com/alice" 2 tt tt).
  vm_compute. reflexivity.
Defined.

Lemma collect_refuses_before_any_request_witness :
  exists message,
    collect_profile_pin_urls (lib := Examples.example_lib)
      (session := Examples.profile_site) 3 "https://www.pinterest.com/pin/123/" 0 tt
    = (Raise (ProfileCollectionError message), tt).
Proof.
  apply (collect_refuses_before_any_request (lib := Examples.example_lib)
           (session := Examples.profile_site)).
  right. vm_compute. reflexivity.
Defined.

End extras_collect.

(** ** Variants of an address and the candidates built from them *)

Module variant_facts.
Import pinterest_resolver resolver_props resolver_facts resolver_shape list_facts validation.

Lemma dedupe_single a : _dedupe_url_list [a] = [a].
Proof. apply dedupe_url_list_spec, NoDup_singleton. Qed.

Lemma dedupe_pair a b :
  _dedupe_url_list [a; b] = if decide (a = b) then [a] else [a; b].
Proof.
  destruct (decide (a = b)) as [->|Hne].
  - unfold _dedupe_url_list. cbn [foldl].
    change (dedupe_step ([], ∅) b) with
      (if bool_decide (b ∈ (∅ : gset string)) then ([], ∅) else (([] ++ [b])%list, (∅ : gset string) ∪ {[ b ]})).
    rewrite bool_decide_eq_false_2 by set_solver.
    change (dedupe_step (([] ++ [b])%list, (∅ : gset string) ∪ {[ b ]}) b) with
      (if bool_decide (b ∈ (∅ : gset string) ∪ {[ b ]}) then (([] ++ [b])%list, (∅ : gset string) ∪ {[ b ]})
       else ((([] ++ [b]) ++ [b])%list, ((∅ : gset string) ∪ {[ b ]}) ∪ {[ b ]})).
    rewrite bool_decide_eq_true_2 by set_solver. reflexivity.
  - apply dedupe_url_list_spec. apply NoDup_cons. split; [|apply NoDup_singleton].
    by intros ->%list_elem_of_singleton.
Qed.

Section WithLib.
Context {lib : PyLib}.

(** The variants of an address: the address itself, last, and at most the
    originals form before it. *)
Lemma pinimg_variants_shape url variants :
  _pinimg_variants url = Ok variants ->
  variants = [url] ∨ exists original, original <> url ∧ variants = [original; url].
Proof.
  unfold _pinimg_variants. destruct (urllib.urlparse url) as [parsed|]; [|discriminate].
  cbn [rbind].
  destruct (negb (_is_pinimg_host (urllib.netloc parsed))); [intros [= <-]; by left|].
  destruct (Py.nonempty_segments "/" (urllib.path parsed)) as [|first_segment rest];
    [intros [= <-]; by left|].
  cbv zeta.
  destruct (negb (String.eqb first_segment "originals")
            && bool_decide (is_Some (Re.re_match SIZE_SEGMENT_RE first_segment))).
  - intros [= <-]. rewrite dedupe_pair. destruct (decide _) as [->|Hne]; [by left|].
    right. eexists. by split.
  - intros [= <-]. left. apply dedupe_single.
Qed.

Lemma score_variants_urls size_hint source_name variants : forall out,
  score_variants size_hint source_name variants = Ok out ->
  List.map url out = variants
  ∧ Forall (fun c => media_type c = "image" ∧ source c = source_name) out.
Proof.
  induction variants as [|v vs IH]; cbn [score_variants]; intros out.
  - intros [= <-]. by split.
  - destruct (_score_image v size_hint); cbn [rbind]; [|discriminate].
    destruct (score_variants size_hint source_name vs) as [rest|]; cbn [rbind]; [|discriminate].
    intros [= <-]. destruct (IH rest eq_refl) as [Hu Hf]. cbn [List.map url].
    rewrite Hu. split; [done|]. by constructor.
Qed.

(** The candidates built for an address: the address itself is the last of
    them, at most one comes before it, and all carry the source. *)
Lemma build_candidates_shape address kind source_name size_hint out :
  _build_candidates address kind source_name size_hint = Ok out ->
  (List.map url out = [address]
   ∨ exists original, original <> address ∧ List.map url out = [original; address])
  ∧ Forall (fun c => source c = source_name
                     ∧ media_type c = (if String.eqb kind "image" then "image" else "video"))
      out.
Proof.
  unfold _build_candidates. destruct (String.eqb kind "image").
  - destruct (_pinimg_variants address) as [variants|] eqn:Hv; cbn [rbind]; [|discriminate].
    intros [Hu Hf]%score_variants_urls. rewrite Hu. split.
    + by apply pinimg_variants_shape.
    + eapply Forall_impl; [exact Hf|]. by intros c [-> ->].
  - destruct (_score_video address size_hint); cbn [rbind]; [|discriminate].
    intros [= <-]. split; [by left|]. by repeat constructor.
Qed.

Lemma sort_and_dedupe_keeps_url candidates address :
  address ∈ List.map url candidates -> address ∈ List.map url (_sort_and_dedupe candidates).
Proof.
  intros (item & -> & Hin)%list_elem_of_fmap.
  destruct (sort_and_dedupe_keeps_best candidates item Hin) as (kept & Hk & Hkey & _).
  apply list_elem_of_fmap. exists kept. split; [|done].
  unfold candidate_key in Hkey. by injection Hkey as _ ->.
Qed.
End WithLib.
End variant_facts.

(** ** Further properties: the resolver *)

Module extras_resolver.
Import pinterest_resolver resolver_props variant_facts validation.

Section WithSession.
Context {lib : PyLib} {session : Session}.

(** X18: the candidates that [_build_candidates] returns for an address
    always end with the address itself; at most one other candidate, the
    originals form, comes before it; every candidate carries the given
    source, and the media type image or video as asked. *)
Theorem build_candidates_keep_address
    (address kind source_name size_hint : string) (out : list MediaCandidate) :
  _build_candidates address kind source_name size_hint = Ok out ->
  (List.map url out = [address]
   ∨ exists original, original <> address ∧ List.map url out = [original; address])
  ∧ Forall (fun c => source c = source_name
                     ∧ media_type c = (if String.eqb kind "image" then "image" else "video"))
      out.
Proof. apply build_candidates_shape. Qed.

(** X19: when the normalized input is itself a media address on a pinimg
    host, [resolve_media_candidates] answers without any request: the
    outcome is the ranked list built from the input alone, the same for
    every session, the state of the network is left as it was, and the
    input is among the addresses returned. *)
Theorem direct_address_needs_no_request
    (pin_url kind : string) (w : World) :
  is_valid_http_url (normalize_url pin_url) = Ok true ->
  direct_media_type_of (normalize_url pin_url) = Ok (Some kind) ->
  resolve_media_candidates pin_url w
  = ((let? candidates := _build_candidates (normalize_url pin_url) kind "direct" "orig" in
      Ok (_sort_and_dedupe candidates)), w)
  ∧ forall out w',
      resolve_media_candidates pin_url w = (Ok out, w') ->
      normalize_url pin_url ∈ List.map url out.
Proof.
  intros Hvalid Hdirect.
  assert (Hrun : resolve_media_candidates pin_url w
    = ((let? candidates := _build_candidates (normalize_url pin_url) kind "direct" "orig" in
        Ok (_sort_and_dedupe candidates)), w)).
  { unfold resolve_media_candidates. cbv zeta.
    unfold Net.bind at 1, Net.lift at 1. rewrite Hvalid. cbn [negb].
    unfold Net.bind at 1, Net.lift at 1. rewrite Hdirect.
    unfold Net.bind, Net.lift, Net.ret.
    by destruct (_build_candidates (normalize_url pin_url) kind "direct" "orig"). }
  split; [exact Hrun|].
  intros out w'. rewrite Hrun.
  destruct (_build_candidates (normalize_url pin_url) kind "direct" "orig")
    as [candidates|e] eqn:Hb; cbn [rbind]; [|discriminate].
  intros [= <- _]. apply sort_and_dedupe_keeps_url.
  destruct (build_candidates_shape _ _ _ _ _ Hb) as [[->|(original & _ & ->)] _].
  - apply list_elem_of_here.
  - apply list_elem_of_further, list_elem_of_here.
Qed.

(** X20: [resolve_image_urls] never returns an empty list: what it returns
    are the addresses of the image candidates of
    [resolve_media_candidates], in their order, and there is at least
    one. *)
Theorem resolve_image_urls_nonempty (pin_url : string) (w w' : World) (urls : list string) :
  resolve_image_urls pin_url w = (Ok urls, w') ->
  urls <> []
  ∧ exists candidates,
      resolve_media_candidates pin_url w = (Ok candidates, w')
      ∧ urls = List.map url
                 (List.filter (fun item => String.eqb (media_type item) "image") candidates).
Proof.
  unfold resolve_image_urls. intros Hrun.
  apply net_facts.bind_Ok in Hrun as (candidates & w1 & Hres & Hrun).
  destruct (List.filter _ candidates) as [|item items] eqn:Hf; [discriminate Hrun|].
  injection Hrun as <- <-. split; [discriminate|].
  exists candidates. split; [exact Hres|]. by rewrite Hf.
Qed.
End WithSession.

Lemma build_candidates_keep_address_witness :
  (List.map url Examples.image_candidates = [Examples.image_736x]
   ∨ exists original, original <> Examples.image_736x
       ∧ List.map url Examples.image_candidates = [original; Examples.image_736x])
  ∧ Forall (fun c => source c = "api-images"
                     ∧ media_type c = (if String.eqb "image" "image" then "image" else "video"))
      Examples.image_candidates.
Proof.
  apply (build_candidates_keep_address (lib := Examples.example_lib)
           Examples.image_736x "image" "api-images" "736x").
  vm_compute. reflexivity.
Defined.

Lemma direct_address_needs_no_request_witness :
  resolve_media_candidates (lib := Examples.example_lib) (session := Examples.offline)
    "i.pinimg.com/236x/abc/def.jpg" tt
  = ((let? candidates :=
        _build_candidates (lib := Examples.example_lib)
          (normalize_url "i.pinimg.com/236x/abc/def.jpg") "image" "direct" "orig" in
      Ok (_sort_and_dedupe candidates)), tt)
  ∧ forall out w',
      resolve_media_candidates (lib := Examples.example_lib) (session := Examples.offline)
        "i.pinimg.com/236x/abc/def.jpg" tt = (Ok out, w') ->
      normalize_url "i.pinimg.com/236x/abc/def.jpg" ∈ List.map url out.
Proof.
  apply (direct_address_needs_no_request (lib := Examples.example_lib)
           (session := Examples.offline)).
  - vm_compute. reflexivity.
  - vm_compute. reflexivity.
Defined.

Lemma resolve_image_urls_nonempty_witness :
  ["https://i.pinimg.com/236x/abc/def.jpg"; "https://i.pinimg.com/originals/abc/def.jpg"] <> []
  ∧ exists candidates,
      resolve_media_candidates (lib := Examples.example_lib) (session := Examples.offline)
        "https://i.pinimg.com/236x/abc/def.jpg" tt = (Ok candidates, tt)
      ∧ ["https://i.pinimg.com/236x/abc/def.jpg"; "https://i.pinimg.com/originals/abc/def.jpg"]
        = List.map url
            (List.filter (fun item => String.eqb (media_type item) "image") candidates).
Proof.
  apply (resolve_image_urls_nonempty (lib := Examples.example_lib)
           (session := Examples.offline)).
  vm_compute. reflexivity.
Defined.

End extras_resolver.

(** ** Addresses kept by the resolver *)

Module candidate_facts.
Import pinterest_resolver normalize_props string_facts normalize_facts re_facts validation.
Import paths_facts pathlib_facts.

Lemma scheme_letter_url_char x c :
  Py.mem_c c "htps:/" = true ->
  Ascii.eqb (Py.lower_c x) (Py.lower_c c) = true -> url_char x = true.
Proof.
  intros Hc Hx. apply Ascii.eqb_eq in Hx.
  destruct c as [[] [] [] [] [] [] [] []]; try discriminate Hc;
    destruct x as [[] [] [] [] [] [] [] []]; try discriminate Hx; reflexivity.
Qed.

Lemma exact_url_char x c :
  Py.mem_c c "htps:/" = true -> Ascii.eqb c x = true -> url_char x = true.
Proof.
  intros Hc Hx. apply Ascii.eqb_eq in Hx. subst x.
  destruct c as [[] [] [] [] [] [] [] []]; try discriminate Hc; reflexivity.
Qed.

(** The end of [NORMALIZED_URL_RE]: the separator and the run of address
    characters after a scheme made of address characters. *)
Lemma separator_and_run whole pre t m :
  whole = pre ++ t -> Py.all_c url_char pre = true ->
  Re.run (Re.Seq (Re.lit "://") (Re.plus url_char))
    (fun e _ g => Some {| Re.m_start := 0; Re.m_end := e;
                          Re.group0 := Py.take (e - 0) whole; Re.group1 := g |})
    (Py.len pre) t None = Some m ->
  Py.all_c url_char (Re.group0 m) = true.
Proof.
  intros -> Hpre. cbn [Re.lit Re.run Re.chr Re.plus].
  destruct t as [|d1 t]; [discriminate|].
  destruct (Ascii.eqb ":" d1) eqn:E1; [|discriminate].
  destruct t as [|d2 t]; [discriminate|].
  destruct (Ascii.eqb "/" d2) eqn:E2; [|discriminate].
  destruct t as [|d3 t]; [discriminate|].
  destruct (Ascii.eqb "/" d3) eqn:E3; [|discriminate].
  apply exact_url_char in E1, E2, E3; try reflexivity.
  intros (taken & post & -> & Htaken & _ & Hk)%rep_inv.
  apply (inj Some) in Hk. subst m. cbn [Re.group0]. rewrite Nat.sub_0_r.
  replace (pre ++ String d1 (String d2 (String d3 (taken ++ post))))
    with ((pre ++ String d1 (String d2 (String d3 taken))) ++ post).
  2:{ clear. induction pre as [|c pre IH]; [by rewrite !app_nil_l, !app_cons|].
      by rewrite !app_cons, IH. }
  replace (S (S (S (Py.len pre))) + Py.len taken)%nat
    with (Py.len (pre ++ String d1 (String d2 (String d3 taken)))).
  2:{ rewrite len_app. cbn [Py.len String.length]. unfold Py.len. lia. }
  rewrite take_app, all_c_app. cbn [Py.all_c]. by rewrite Hpre, E1, E2, E3, Htaken.
Qed.

(** What [NORMALIZED_URL_RE] matches is made of address characters only. *)
Lemma normalized_url_re_chars s m :
  Re.re_match NORMALIZED_URL_RE s = Some m -> Py.all_c url_char (Re.group0 m) = true.
Proof.
  unfold Re.re_match, Re.match_at, NORMALIZED_URL_RE.
  change (Re.seq [Re.Bol; Re.ilit "http"; Re.opt (Re.ichr "s"); Re.lit "://"; Re.plus url_char])
    with (Re.Seq Re.Bol (Re.Seq (Re.ilit "http")
            (Re.Seq (Re.opt (Re.ichr "s")) (Re.Seq (Re.lit "://") (Re.plus url_char))))).
  set (tail := Re.Seq (Re.lit "://") (Re.plus url_char)).
  cbn [Re.run Re.ilit Re.ichr Re.opt Nat.eqb].
  destruct s as [|c1 s]; [discriminate|].
  destruct (Ascii.eqb (Py.lower_c c1) _) eqn:H1; [|discriminate].
  destruct s as [|c2 s]; [discriminate|].
  destruct (Ascii.eqb (Py.lower_c c2) _) eqn:H2; [|discriminate].
  destruct s as [|c3 s]; [discriminate|].
  destruct (Ascii.eqb (Py.lower_c c3) _) eqn:H3; [|discriminate].
  destruct s as [|c4 s]; [discriminate|].
  destruct (Ascii.eqb (Py.lower_c c4) _) eqn:H4; [|discriminate].
  apply scheme_letter_url_char in H1, H2, H3, H4; try reflexivity.
  assert (Hplain : forall m0,
    Re.run tail (fun e _ g => Some {| Re.m_start := 0; Re.m_end := e;
        Re.group0 := Py.take (e - 0) (String c1 (String c2 (String c3 (String c4 s))));
        Re.group1 := g |}) 4 s None = Some m0 ->
    Py.all_c url_char (Re.group0 m0) = true).
  { intros m0. apply (separator_and_run _ (String c1 (String c2 (String c3 (String c4 ""))))).
    - by rewrite !app_cons, app_nil_l.
    - cbn [Py.all_c]. by rewrite H1, H2, H3, H4. }
  destruct s as [|c5 s]; [apply Hplain|].
  destruct (Ascii.eqb (Py.lower_c c5) _) eqn:H5; [|apply Hplain].
  apply scheme_letter_url_char in H5; [|reflexivity].
  destruct (Re.run tail _ 5 s None) as [m5|] eqn:Hm5; [|apply Hplain].
  intros [= <-]. revert Hm5.
  apply (separator_and_run _ (String c1 (String c2 (String c3 (String c4 (String c5 "")))))).
  - by rewrite !app_cons, app_nil_l.
  - cbn [Py.all_c]. by rewrite H1, H2, H3, H4, H5.
Qed.

Section WithLib.
Context {lib : PyLib}.

Lemma normalize_candidate_post value base_url address :
  _normalize_candidate value base_url = Ok (Some address) ->
  is_valid_http_url address = Ok true ∧ Py.all_c url_char address = true.
Proof.
  unfold _normalize_candidate. cbv zeta.
  destruct (negb (Py.truthy _)); [discriminate|].
  destruct (urljoin_impl.urljoin _ _) as [joined|e]; cbn [rbind]; [|discriminate].
  destruct (Re.re_match NORMALIZED_URL_RE _) as [m|] eqn:Hm; [|discriminate].
  apply normalized_url_re_chars in Hm.
  destruct (is_valid_http_url (Re.group0 m)) as [[]|e] eqn:Hv; cbn [rbind negb];
    try discriminate.
  by intros [= <-].
Qed.
End WithLib.
End candidate_facts.

(** ** Further properties: candidate addresses *)

Module extras_candidates.
Import pinterest_resolver candidate_facts validation.

(** X21: an address that [_normalize_candidate] returns passes
    [is_valid_http_url], and holds no white space, quote, angle bracket or
    closing bracket: it is made of the characters the pattern of a
    normalized address allows. *)
Theorem normalize_candidate_returns_clean_address
    {lib : PyLib} (value base_url address : string) :
  _normalize_candidate value base_url = Ok (Some address) ->
  is_valid_http_url address = Ok true ∧ Py.all_c url_char address = true.
Proof. apply normalize_candidate_post. Qed.

Lemma normalize_candidate_returns_clean_address_witness :
  is_valid_http_url (lib := Examples.example_lib) "https://i.pinimg.com/736x/ab/cd.jpg" = Ok true
  ∧ Py.all_c url_char "https://i.pinimg.com/736x/ab/cd.jpg" = true.
Proof.
  apply (normalize_candidate_returns_clean_address (lib := Examples.example_lib)
           "  //i.pinimg.com/736x/ab/cd.jpg'), and more"
           "https://www.pinterest.com/pin/1/").
  vm_compute. reflexivity.
Defined.
End extras_candidates.

(** ** Canonical addresses of identifiers that [str.isdigit] accepts *)

Module pin_address_facts.
Import string_facts text_props strip_facts sub_facts normalize_facts re_facts.
Import site_props site_facts pinterest_urls pin_url_facts profile_url_facts.

Lemma str_digit_path_char c : Py.str_isdigit_c c = true -> path_char c = true.
Proof. destruct c as [[] [] [] [] [] [] [] []]; vm_compute; congruence. Qed.

Lemma str_digit_not_slash c :
  Py.str_isdigit_c c = true -> negb (Ascii.eqb c "/") = true.
Proof. destruct c as [[] [] [] [] [] [] [] []]; vm_compute; congruence. Qed.

Lemma decimal_str_digit c : Py.isdigit_c c = true -> Py.str_isdigit_c c = true.
Proof. unfold Py.str_isdigit_c. by intros ->. Qed.

(** A run of decimal digits is accepted by [str.isdigit]. *)
Lemma decimal_is_digit s : Py.isdigit s = true -> Py.str_isdigit s = true.
Proof.
  unfold Py.isdigit, Py.str_isdigit. intros [-> Hd]%andb_prop. cbn [andb].
  revert Hd. apply all_c_impl, decimal_str_digit.
Qed.

Lemma str_isdigit_run pin_id :
  Py.str_isdigit pin_id = true ->
  Py.all_c Py.str_isdigit_c pin_id = true ∧ pin_id <> "".
Proof.
  unfold Py.str_isdigit. intros [Ht Hd]%andb_prop. split; [exact Hd|]. by destruct pin_id.
Qed.

Lemma pin_address_tail_plain pin_id :
  Py.all_c Py.str_isdigit_c pin_id = true ->
  Py.all_c path_char ("pin/" ++ pin_id ++ "/") = true.
Proof.
  intros Hd. rewrite !app_cons, app_nil_l. cbn [Py.all_c].
  change (path_char "p") with true. change (path_char "i") with true.
  change (path_char "n") with true. change (path_char "/") with true. cbn [andb].
  rewrite pathlib_facts.all_c_app. rewrite (all_c_impl _ _ _ str_digit_path_char Hd).
  reflexivity.
Qed.

Lemma app_inv_last s : forall t c d,
  s ++ String c "" = t ++ String d "" -> s = t ∧ c = d.
Proof.
  induction s as [|a s IH]; intros [|b t] c d; rewrite ?app_nil_l, ?app_cons.
  - by intros [= ->].
  - intros [= _ H]. by destruct t.
  - intros [= _ H]. by destruct s.
  - intros [= -> H]. apply IH in H as [-> ->]. done.
Qed.

Lemma app_two_last s a b :
  s ++ String a (String b "") = (s ++ String a "") ++ String b "".
Proof. induction s as [|c s IH]; [done|]. by rewrite !app_cons, IH. Qed.

(** [PIN_PATH_RE] matches the path of a canonical address only when the
    identifier is a run of decimal digits. *)
Lemma pin_path_match_decimal pin_id m :
  Re.re_match PIN_PATH_RE ("/pin/" ++ pin_id ++ "/") = Some m -> Py.isdigit pin_id = true.
Proof.
  unfold Re.re_match, Re.match_at, PIN_PATH_RE.
  rewrite !app_cons, app_nil_l.
  cbn [Re.seq Re.ilit Re.lit Re.run Re.chr Re.ichr Re.opt Re.plus Nat.eqb].
  change (Ascii.eqb (Py.lower_c "/") (Py.lower_c "/")) with true.
  change (Ascii.eqb (Py.lower_c "p") (Py.lower_c "p")) with true.
  change (Ascii.eqb (Py.lower_c "i") (Py.lower_c "i")) with true.
  change (Ascii.eqb (Py.lower_c "n") (Py.lower_c "n")) with true.
  cbv iota.
  intros (pre & post & Heq & Hpre & Hlen & Hk)%rep_inv.
  assert (Hslash : forall t, Py.all_c Re.digit (t ++ "/") = true -> False).
  { intros t. rewrite pathlib_facts.all_c_app. cbn [Py.all_c].
    change (Re.digit "/") with false. cbn [andb]. rewrite andb_false_r. discriminate. }
  destruct post as [|c post].
  - exfalso. apply (Hslash pin_id). rewrite Heq.
    clear -Hpre. induction pre as [|a pre IH]; [done|].
    rewrite app_cons. cbn [Py.all_c] in *. apply andb_prop in Hpre as [-> Hp].
    by apply IH.
  - destruct (Ascii.eqb "/" c) eqn:Hc.
    + apply Ascii.eqb_eq in Hc as <-. destruct post as [|d post].
      * apply app_inv_last in Heq as [-> _]. unfold Py.isdigit.
        destruct pre; [cbn [Py.len String.length] in Hlen; lia|exact Hpre].
      * exfalso. destruct post as [|e post].
        -- rewrite app_two_last in Heq. apply app_inv_last in Heq as [_ Hd]. subst d.
           discriminate Hk.
        -- destruct (Ascii.eqb d "010"); discriminate Hk.
    + exfalso. destruct post as [|d post].
      * apply app_inv_last in Heq as [_ Hd]. subst c. discriminate Hc.
      * discriminate Hk.
Qed.

Lemma pin_address_segments pin_id :
  exists rest, Py.nonempty_segments "/" ("/pin/" ++ pin_id ++ "/") = "pin" :: rest.
Proof.
  unfold Py.nonempty_segments.
  change ("/pin/" ++ pin_id ++ "/") with (String "/" ("pin" ++ String "/" (pin_id ++ "/"))).
  cbn [Py.split]. change (Ascii.eqb "/" "/") with true. cbv iota.
  rewrite (split_first "/" "pin" (pin_id ++ "/") eq_refl).
  cbn [List.filter Py.truthy]. by eexists.
Qed.

Section WithLib.
Context {lib : PyLib}.

Lemma pin_address_parses pin_id :
  Py.str_isdigit pin_id = true ->
  urllib.urlparse (canonical_pin_url pin_id)
  = Ok {| urllib.scheme := "https"; urllib.netloc := "www.pinterest.com";
          urllib.path := "/pin/" ++ pin_id ++ "/"; urllib.params := "";
          urllib.query := ""; urllib.fragment := "" |}.
Proof.
  intros [Hd _]%str_isdigit_run.
  change (canonical_pin_url pin_id) with ("https://www.pinterest.com/" ++ "pin/" ++ pin_id ++ "/").
  by rewrite (site_parses _ (pin_address_tail_plain pin_id Hd)).
Qed.

(** [is_pin_url] accepts the canonical address of an identifier exactly
    when the identifier is a run of decimal digits. *)
Lemma is_pin_url_pin_address pin_id :
  Py.str_isdigit pin_id = true ->
  is_pin_url (canonical_pin_url pin_id) = Ok (Py.isdigit pin_id).
Proof.
  intros Hd. unfold is_pin_url. rewrite (pin_address_parses pin_id Hd).
  cbn [rbind urllib.netloc urllib.path].
  destruct site_host_is_pinterest as [-> ->]. cbn [negb]. f_equal.
  destruct (Py.isdigit pin_id) eqn:Hdec.
  - by rewrite (bool_decide_eq_true_2 _ (pin_path_matches pin_id Hdec)).
  - apply bool_decide_eq_false_2. intros [m Hm].
    apply pin_path_match_decimal in Hm. congruence.
Qed.

Lemma extract_pin_address pin_id :
  Py.str_isdigit pin_id = true ->
  extract_profile_username (canonical_pin_url pin_id) = Ok None.
Proof.
  intros Hd. unfold extract_profile_username. rewrite (pin_address_parses pin_id Hd).
  cbn [rbind urllib.netloc urllib.path].
  destruct site_host_is_pinterest as [-> ->]. cbn [negb].
  destruct (pin_address_segments pin_id) as [rest ->]. reflexivity.
Qed.

(** The canonical address of a pin is never that of a profile. *)
Lemma is_profile_url_pin_address pin_id :
  Py.str_isdigit pin_id = true ->
  is_profile_url (canonical_pin_url pin_id) = Ok false.
Proof.
  intros Hd. unfold is_profile_url. rewrite (is_pin_url_pin_address pin_id Hd).
  cbn [rbind]. destruct (Py.isdigit pin_id); [reflexivity|].
  by rewrite (extract_pin_address pin_id Hd).
Qed.
End WithLib.
End pin_address_facts.

(** ** The pin addresses of an enumeration *)

Module pin_list_facts.
Import string_facts text_props strip_facts sub_facts normalize_facts re_facts.
Import profile_collector collector_props collector_props2.
Import collector_facts collect_facts collect_shape2 pin_url_facts pin_address_facts.
Import validation pinterest_urls.

(** The group of a match of [PIN_PATH_RE] is a run of digits. *)
Lemma pin_path_match_digits i s m :
  Re.match_at profile_collector.PIN_PATH_RE i s = Some m ->
  exists id, Re.group1 m = Some id ∧ Py.isdigit id = true.
Proof.
  unfold Re.match_at, profile_collector.PIN_PATH_RE.
  cbn [Re.seq Re.lit Re.ilit Re.run Re.chr Re.ichr Re.opt Re.plus].
  destruct s as [|c1 s]; [discriminate|].
  destruct (Ascii.eqb (Py.lower_c c1) _); [|discriminate].
  destruct s as [|c2 s]; [discriminate|].
  destruct (Ascii.eqb (Py.lower_c c2) _); [|discriminate].
  destruct s as [|c3 s]; [discriminate|].
  destruct (Ascii.eqb (Py.lower_c c3) _); [|discriminate].
  destruct s as [|c4 s]; [discriminate|].
  destruct (Ascii.eqb (Py.lower_c c4) _); [|discriminate].
  destruct s as [|c5 s]; [discriminate|].
  destruct (Ascii.eqb (Py.lower_c c5) _); [|discriminate].
  intros (pre & post & -> & Hpre & Hlen & Hk)%rep_inv.
  exists pre. split; [|by apply isdigit_of_run].
  replace (S (S (S (S (S i)))) + Py.len pre - S (S (S (S (S i)))))%nat
    with (Py.len pre) in Hk by lia.
  rewrite take_app in Hk.
  destruct post as [|c post]; [discriminate|].
  destruct (Ascii.eqb "/" c); [|discriminate]. by injection Hk as <-.
Qed.

Lemma pin_path_search_digits s m :
  Re.search profile_collector.PIN_PATH_RE s = Some m ->
  exists id, Re.group1 m = Some id ∧ Py.isdigit id = true.
Proof.
  unfold Re.search. intros (pre & post & _ & Hm)%search_from_inv.
  by apply pin_path_match_digits in Hm.
Qed.

Lemma row_pin_url_canonical row : Forall canonical_pin (row_pin_url row).
Proof.
  unfold row_pin_url. destruct row as [| | | | | |fields]; try apply Forall_nil_2.
  assert (Hid : Forall canonical_pin
            match Json.dict_get "id" fields with
            | JStr pin_id =>
                if Py.str_isdigit pin_id then [canonical_pin_url pin_id] else []
            | _ => []
            end).
  { destruct (Json.dict_get "id" fields) as [| | | |pin_id| |]; try apply Forall_nil_2.
    destruct (Py.str_isdigit pin_id) eqn:Hd; [|apply Forall_nil_2].
    apply Forall_singleton. by exists pin_id. }
  destruct (Json.dict_get "seo_url" fields) as [| | | |seo_url| |]; try exact Hid.
  destruct (Re.search profile_collector.PIN_PATH_RE seo_url) as [m|] eqn:Hm; [|exact Hid].
  apply pin_path_search_digits in Hm as (id & -> & Hd).
  apply Forall_singleton. exists id. split; [by apply decimal_is_digit|reflexivity].
Qed.

(** A row whose [id] is the superscript two: [str.isdigit] accepts it, so
    the row gives an address, which [PIN_PATH_RE] of the classifier does
    not match. *)
Lemma superscript_row_gives_address :
  row_pin_url (JDict [("id", JStr (String "178" ""))])
  = [canonical_pin_url (String "178" "")]
  ∧ Py.isdigit (String "178" "") = false
  ∧ is_pin_url (lib := Examples.example_lib) (canonical_pin_url (String "178" ""))
    = Ok false.
Proof. split; [|split]; vm_compute; reflexivity. Qed.

Lemma resource_data_canonical rows :
  Forall canonical_pin (_extract_pin_urls_from_resource_data rows).
Proof.
  unfold _extract_pin_urls_from_resource_data.
  destruct rows as [| | | | |rows|]; try apply Forall_nil_2.
  induction rows as [|row rows IH]; [apply Forall_nil_2|].
  cbn [List.map List.concat]. apply Forall_app. split; [apply row_pin_url_canonical|exact IH].
Qed.

(** Every match that [finditer] lists is a match at some place. *)
Lemma finditer_go_inv r fuel : forall i s,
  Forall (fun m => exists j t, Re.match_at r j t = Some m) (Re.finditer_go fuel r i s).
Proof.
  induction fuel as [|fuel IH]; intros i s; cbn [Re.finditer_go]; [apply Forall_nil_2|].
  destruct (Re.search_from r i s) as [m|] eqn:Hm; [|apply Forall_nil_2].
  apply search_from_inv in Hm as (pre & post & _ & Hm).
  assert (Hhere : exists j t, Re.match_at r j t = Some m) by eauto.
  cbv zeta. destruct (Re.m_start m <? Re.m_end m)%nat.
  - apply Forall_cons. split; [exact Hhere|apply IH].
  - destruct (Py.drop _ s).
    + by apply Forall_singleton.
    + apply Forall_cons. split; [exact Hhere|apply IH].
Qed.

(** The identifiers read off a page are runs of decimal digits. *)
Lemma html_decimal html_text :
  Forall (fun address => exists pin_id,
            Py.isdigit pin_id = true ∧ address = canonical_pin_url pin_id)
    (_extract_pin_urls_from_html html_text).
Proof.
  unfold _extract_pin_urls_from_html, Re.findall1, Re.finditer.
  generalize (finditer_go_inv profile_collector.PIN_PATH_RE (S (Py.len html_text)) 0 html_text).
  generalize (Re.finditer_go (S (Py.len html_text)) profile_collector.PIN_PATH_RE 0 html_text).
  intros ms Hms. induction Hms as [|m ms (j & t & Hm) _ IH]; [apply Forall_nil_2|].
  change (omap Re.group1 (m :: ms))
    with (match Re.group1 m with
          | Some y => y :: omap Re.group1 ms
          | None => omap Re.group1 ms
          end).
  apply pin_path_match_digits in Hm as (id & -> & Hd).
  cbn [List.map]. apply Forall_cons. split; [by exists id|exact IH].
Qed.

Lemma html_canonical html_text : Forall canonical_pin (_extract_pin_urls_from_html html_text).
Proof.
  eapply Forall_impl; [apply html_decimal|].
  intros address (pin_id & Hd & ->). exists pin_id. split; [|reflexivity].
  by apply decimal_is_digit.
Qed.

Section WithLib.
Context {lib : PyLib}.

(** Taking the query and the fragment off a canonical address gives the
    address back. *)
Lemma dedupe_step_canonical deduped seen address :
  canonical_pin address ->
  dedupe_step (deduped, seen) address
  = Ok (if bool_decide (address ∈ seen) then (deduped, seen)
        else ((deduped ++ [address])%list, seen ∪ {[ address ]})).
Proof.
  intros (pin_id & Hd & ->). unfold dedupe_step.
  rewrite (pin_address_parses _ Hd). cbn [rbind].
  change (urllib.geturl _) with (canonical_pin_url pin_id).
  by destruct (bool_decide _).
Qed.

Lemma dedupe_go_canonical urls : forall deduped seen,
  Forall canonical_pin urls -> Forall canonical_pin deduped ->
  exists out seen', dedupe_go (deduped, seen) urls = Ok (out, seen')
                    ∧ Forall canonical_pin out.
Proof.
  induction urls as [|address urls IH]; intros deduped seen Hurls Hded; cbn [dedupe_go].
  - by exists deduped, seen.
  - apply Forall_cons in Hurls as [Ha Hurls].
    rewrite (dedupe_step_canonical _ _ _ Ha). cbn [rbind].
    destruct (bool_decide _); apply IH; try done.
    apply Forall_app. split; [done|]. by apply Forall_singleton.
Qed.

Lemma dedupe_urls_canonical urls :
  Forall canonical_pin urls ->
  exists out, _dedupe_urls urls = Ok out ∧ Forall canonical_pin out.
Proof.
  intros Hurls. unfold _dedupe_urls.
  destruct (dedupe_go_canonical urls [] ∅ Hurls (Forall_nil_2 _)) as (out & seen' & -> & Hout).
  by exists out.
Qed.

(** On canonical addresses the loop of [_dedupe_urls] is the loop of the
    resolver's [_dedupe_url_list]. *)
Lemma dedupe_go_plain urls : forall deduped seen,
  Forall canonical_pin urls ->
  dedupe_go (deduped, seen) urls
  = Ok (foldl pinterest_resolver.dedupe_step (deduped, seen) urls).
Proof.
  induction urls as [|address urls IH]; intros deduped seen Hurls; cbn [dedupe_go foldl].
  - reflexivity.
  - apply Forall_cons in Hurls as [Ha Hurls].
    rewrite (dedupe_step_canonical _ _ _ Ha). cbn [rbind].
    change (pinterest_resolver.dedupe_step (deduped, seen) address)
      with (if bool_decide (address ∈ seen) then (deduped, seen)
            else ((deduped ++ [address])%list, seen ∪ {[ address ]})).
    destruct (bool_decide _); by apply IH.
Qed.

Lemma dedupe_urls_plain urls :
  Forall canonical_pin urls ->
  _dedupe_urls urls = Ok (pinterest_resolver._dedupe_url_list urls).
Proof.
  intros Hurls. unfold _dedupe_urls, pinterest_resolver._dedupe_url_list.
  by rewrite (dedupe_go_plain _ _ _ Hurls).
Qed.

Lemma truncate_canonical max_pins deduped :
  Forall canonical_pin deduped -> Forall canonical_pin (truncate max_pins deduped).
Proof.
  intros H. unfold truncate. destruct (max_pins >? 0); [|done]. by apply Forall_take.
Qed.

Section WithSession.
Context {session : Session}.

Lemma loop_canonical fuel username profile max_pins : forall st w r w',
  pagination_loop fuel username profile max_pins st w = (Ok r, w') ->
  Forall canonical_pin (collected st) -> Forall canonical_pin (collected (state_of r)).
Proof.
  induction fuel as [|fuel IH]; cbn [pagination_loop]; intros st w r w' Hloop Hinv.
  - by net_inv.
  - apply net_facts.bind_Ok in Hloop as (turn & w1 & Hturn & Hloop).
    assert (Hinv' : Forall canonical_pin (collected (state_of turn))).
    { apply turn_cases in Hturn
        as [[-> _]|(b & Hb & Hnew & [[-> _]|(row & rows & next & _ & ->)])];
        cbn [state_of after_send after_page collected]; try done.
      apply Forall_app. split; [done|apply resource_data_canonical]. }
    destruct turn as [final|st']; [by net_inv|].
    by eapply IH.
Qed.

Lemma collect_pins_canonical fuel address max_pins :
  returns pins_canonical (collect_profile_pin_urls fuel address max_pins).
Proof.
  intros w o w' Hrun r ->. revert Hrun. unfold collect_profile_pin_urls. cbv zeta.
  intros Hrun.
  apply net_facts.bind_Ok in Hrun as (valid & w1 & _ & Hrun).
  destruct (negb valid); [discriminate Hrun|].
  apply net_facts.bind_Ok in Hrun as (username & w2 & _ & Hrun).
  destruct (pinterest_resolver.and_truthy true username) as [name|]; [|discriminate Hrun].
  apply net_facts.bind_Ok in Hrun as (response & w3 & _ & Hrun).
  apply net_facts.bind_Ok in Hrun as (u & w4 & _ & Hrun).
  destruct (_parse_initial_props (resp_text response)) as [[|field fields]|];
    try discriminate Hrun.
  assert (Hfallback :
    match _extract_pin_urls_from_html (resp_text response) with
    | [] => Net.raise (ProfileCollectionError "No pins were detected on this profile.")
    | fallback =>
        Net.bind (Net.lift (_dedupe_urls fallback)) (fun deduped =>
          let deduped := truncate max_pins deduped in
          Net.ret (Some {| profile_url := canonical_profile_url name;
                           profile_username := name;
                           pin_urls := deduped;
                           discovered_count := Z.of_nat (List.length deduped) |}))
    end w4 = (Ok (Some r), w') -> Forall canonical_pin (pin_urls r)).
  { pose proof (html_canonical (resp_text response)) as Hhtml.
    destruct (_extract_pin_urls_from_html (resp_text response)) as [|pin pins];
      [discriminate|].
    intros H. apply net_facts.bind_Ok in H as (deduped & w5 & Hd & H).
    apply net_facts.lift_inv in Hd as [Hd _].
    destruct (dedupe_urls_canonical _ Hhtml) as (out & Hout & Hcan).
    rewrite Hout in Hd. injection Hd as <-.
    cbv zeta in H. injection H as <- _. cbn [pin_urls].
    by apply truncate_canonical. }
  destruct (_extract_user_pins_entry (field :: fields)) as [entry|]; [|exact (Hfallback Hrun)].
  destruct entry as [| | | | | |[|f fs]]; try exact (Hfallback Hrun).
  all: clear Hfallback.
  all: apply net_facts.bind_Ok in Hrun as (data & w5 & _ & Hrun).
  all: apply net_facts.bind_Ok in Hrun as (next & w6 & _ & Hrun).
  all: apply net_facts.bind_Ok in Hrun as (final & w7 & Hloop & Hrun).
  all: apply loop_canonical in Hloop; [|apply resource_data_canonical].
  all: destruct final as [final|]; [|discriminate Hrun].
  all: apply net_facts.bind_Ok in Hrun as (deduped & w8 & Hd & Hrun).
  all: apply net_facts.lift_inv in Hd as [Hd _].
  all: destruct (dedupe_urls_canonical _ Hloop) as (out & Hout & Hcan).
  all: cbn [state_of] in Hout; rewrite Hout in Hd; injection Hd as <-.
  all: cbv zeta in Hrun.
  all: pose proof (truncate_canonical max_pins out Hcan) as Ht.
  all: destruct (truncate max_pins out) as [|pin pins]; [discriminate Hrun|].
  all: injection Hrun as <- _; exact Ht.
Qed.
End WithSession.
End WithLib.
End pin_list_facts.

(** ** Further properties: the addresses an enumeration returns *)

Module extras_pins.
Import profile_collector collector_props collector_props2 pin_list_facts pin_url_facts.
Import pin_address_facts.
Import validation pinterest_urls.

Section WithSession.
Context {lib : PyLib} {session : Session}.

(** X22: every address in the [pin_urls] of a result of
    [collect_profile_pin_urls] is the canonical address of a pin whose
    identifier is not empty and is accepted by [str.isdigit].  [is_pin_url]
    accepts the address exactly when the identifier is a run of decimal
    digits, and [is_profile_url] never does. *)
Theorem collected_pins_are_canonical
    (fuel : nat) (address : string) (max_pins : Z) (w w' : World)
    (r : ProfileCollectionResult) :
  collect_profile_pin_urls fuel address max_pins w = (Ok (Some r), w') ->
  Forall (fun pin => exists pin_id,
            Py.str_isdigit pin_id = true
            ∧ pin = canonical_pin_url pin_id
            ∧ is_pin_url pin = Ok (Py.isdigit pin_id)
            ∧ is_profile_url pin = Ok false)
    (pin_urls r).
Proof.
  intros Hrun.
  pose proof (collect_pins_canonical fuel address max_pins w (Some r) w' Hrun r eq_refl)
    as Hpins.
  eapply Forall_impl; [exact Hpins|].
  intros pin (pin_id & Hd & ->). exists pin_id. split; [exact Hd|]. split; [reflexivity|].
  split; [by apply is_pin_url_pin_address|by apply is_profile_url_pin_address].
Qed.

(** X23: whatever rows it is given, [_extract_pin_urls_from_resource_data]
    returns only canonical pin addresses of identifiers that are not empty
    and that [str.isdigit] accepts; whatever page text it is given,
    [_extract_pin_urls_from_html] returns only canonical pin addresses of
    runs of decimal digits. *)
Theorem extracted_pins_are_canonical (rows : json) (html_text : string) :
  Forall (fun address => exists pin_id,
            Py.str_isdigit pin_id = true ∧ address = canonical_pin_url pin_id)
    (_extract_pin_urls_from_resource_data rows)
  ∧ Forall (fun address => exists pin_id,
              Py.isdigit pin_id = true ∧ address = canonical_pin_url pin_id)
      (_extract_pin_urls_from_html html_text).
Proof. split; [apply resource_data_canonical|apply html_decimal]. Qed.

(** X24: on a list of canonical pin addresses [_dedupe_urls] does not fail,
    and does what the resolver's [_dedupe_url_list] does: taking the query
    and the fragment off such an address changes nothing, so the first
    occurrence of each address is kept, in the order of the list. *)
Theorem dedupe_urls_on_canonical_pins (urls : list string) :
  Forall canonical_pin urls ->
  _dedupe_urls urls = Ok (pinterest_resolver._dedupe_url_list urls).
Proof. apply dedupe_urls_plain. Qed.
End WithSession.

Lemma collected_pins_are_canonical_witness :
  Forall (fun pin => exists pin_id,
            Py.str_isdigit pin_id = true
            ∧ pin = canonical_pin_url pin_id
            ∧ is_pin_url (lib := Examples.example_lib) pin = Ok (Py.isdigit pin_id)
            ∧ is_profile_url (lib := Examples.example_lib) pin = Ok false)
    (pin_urls Examples.two_of_three).
Proof.
  apply (collected_pins_are_canonical (lib := Examples.example_lib)
           (session := Examples.profile_site) 2 "pinterest.com/alice" 2 tt tt).
  vm_compute. reflexivity.
Defined.

Lemma dedupe_urls_on_canonical_pins_witness :
  _dedupe_urls (lib := Examples.example_lib)
    [canonical_pin_url "12"; canonical_pin_url "7"; canonical_pin_url "12"]
  = Ok (pinterest_resolver._dedupe_url_list
          [canonical_pin_url "12"; canonical_pin_url "7"; canonical_pin_url "12"]).
Proof.
  apply (dedupe_urls_on_canonical_pins (lib := Examples.example_lib)).
  repeat apply Forall_cons_2; try apply Forall_nil_2.
  - exists "12". split; reflexivity.
  - exists "7". split; reflexivity.
  - exists "12". split; reflexivity.
Defined.

End extras_pins.

(** ** The queue of a run *)

Module worker_facts.
Import download_worker worker_props pinterest_urls collector_props collector_props2.
Import pin_list_facts pin_url_facts pin_address_facts list_facts.

Section WithSession.
Context {lib : PyLib} {session : Session}.
Context (str_exc : exn -> string).

Lemma expand_source_plain fuel max_profile_pins st source_url w :
  is_profile_url source_url = Ok false ->
  expand_source str_exc fuel max_profile_pins st source_url w
  = (Ok (Some {| expanded_pin_urls := (expanded_pin_urls st ++ [source_url])%list;
                 notes := notes st;
                 discovered_total := discovered_total st |}), w).
Proof.
  intros Hu. unfold expand_source, Net.bind, Net.lift. by rewrite Hu.
Qed.

(** What one turn adds to the addresses gathered so far. *)
Lemma expand_source_adds fuel max_profile_pins st source_url w st' w' :
  expand_source str_exc fuel max_profile_pins st source_url w = (Ok (Some st'), w') ->
  exists added,
    expanded_pin_urls st' = (expanded_pin_urls st ++ added)%list
    ∧ Forall (queued_from [source_url]) added.
Proof.
  unfold expand_source, Net.bind, Net.lift.
  destruct (is_profile_url source_url) as [[]|e] eqn:Hu; cbn [negb]; [| |discriminate].
  - pose proof (collect_pins_canonical fuel source_url max_profile_pins w) as Hpins.
    destruct (profile_collector.collect_profile_pin_urls fuel source_url max_profile_pins w)
      as [[[result|]|exc] w1] eqn:Hrun.
    + cbv zeta. intros [= <- _]. cbn [expanded_pin_urls].
      exists (profile_collector.pin_urls result). split; [done|].
      specialize (Hpins (Some result) w1 eq_refl result eq_refl).
      eapply Forall_impl; [exact Hpins|]. intros pin Hpin. split; [|by right].
      destruct Hpin as (pin_id & Hd & ->). by apply is_profile_url_pin_address.
    + discriminate.
    + cbv zeta. destruct (scan_failure exc); [|discriminate].
      intros [= <- _]. cbn [expanded_pin_urls]. exists []. by rewrite app_nil_r.
  - intros [= <- _]. cbn [expanded_pin_urls]. exists [source_url]. split; [done|].
    apply Forall_singleton. split; [done|]. left. apply list_elem_of_here.
Qed.

Lemma queued_from_mono sources sources' address :
  (forall u, u ∈ sources -> u ∈ sources') ->
  queued_from sources address -> queued_from sources' address.
Proof. intros Hsub [H1 [H2|H2]]; split; auto. Qed.

Lemma expand_sources_adds fuel max_profile_pins cancelled source_urls :
  forall k st w st' w',
  expand_sources str_exc fuel max_profile_pins cancelled k st source_urls w
  = (Ok (Some st'), w') ->
  exists added,
    expanded_pin_urls st' = (expanded_pin_urls st ++ added)%list
    ∧ Forall (queued_from source_urls) added.
Proof.
  induction source_urls as [|source_url rest IH]; intros k st w st' w';
    cbn [expand_sources].
  - intros [= <- _]. exists []. by rewrite app_nil_r.
  - destruct (cancelled k).
    + intros [= <- _]. exists []. by rewrite app_nil_r.
    + intros Hrun. apply net_facts.bind_Ok in Hrun as (next & w1 & Hstep & Hrun).
      destruct next as [st1|]; [|discriminate Hrun].
      apply expand_source_adds in Hstep as (added1 & Hadd1 & Hq1).
      apply IH in Hrun as (added2 & Hadd2 & Hq2).
      exists (added1 ++ added2)%list. split.
      * by rewrite Hadd2, Hadd1, <- app_assoc.
      * apply Forall_app. split.
        -- eapply Forall_impl; [exact Hq1|]. intros u. apply queued_from_mono.
           intros v ->%list_elem_of_singleton. apply list_elem_of_here.
        -- eapply Forall_impl; [exact Hq2|]. intros u. apply queued_from_mono.
           intros v Hv. by apply list_elem_of_further.
Qed.

Lemma expand_sources_plain fuel max_profile_pins source_urls : forall k st w,
  Forall (fun u => is_profile_url u = Ok false) source_urls ->
  expand_sources str_exc fuel max_profile_pins (fun _ => false) k st source_urls w
  = (Ok (Some {| expanded_pin_urls := (expanded_pin_urls st ++ source_urls)%list;
                 notes := notes st;
                 discovered_total := discovered_total st |}), w).
Proof.
  induction source_urls as [|source_url rest IH]; intros k st w Hall;
    cbn [expand_sources].
  - rewrite app_nil_r. by destruct st.
  - apply Forall_cons in Hall as [Hu Hrest].
    unfold Net.bind at 1. rewrite (expand_source_plain _ _ _ _ _ Hu).
    rewrite (IH _ _ _ Hrest). cbn [expanded_pin_urls notes discovered_total].
    by rewrite <- app_assoc.
Qed.

Lemma build_queue_shape fuel source_urls max_profile_pins cancelled w q w' :
  _build_download_queue str_exc fuel source_urls max_profile_pins cancelled w
  = (Ok (Some q), w') ->
  NoDup (pin_urls q) ∧ Forall (queued_from source_urls) (pin_urls q).
Proof.
  unfold _build_download_queue. intros Hrun.
  apply net_facts.bind_Ok in Hrun as (final & w1 & Hloop & Hrun).
  destruct final as [st|]; [|discriminate Hrun]. injection Hrun as <- _.
  cbn [pin_urls]. apply expand_sources_adds in Hloop as (added & Hadd & Hq).
  cbn [expanded_pin_urls app] in Hadd. rewrite Hadd.
  destruct (dedupe_url_list_spec added) as (Hnd & Hmem & _).
  split; [exact Hnd|].
  apply Forall_forall. intros u Hu. apply Hmem in Hu.
  by apply (proj1 (Forall_forall _ _) Hq).
Qed.
End WithSession.
End worker_facts.

(** ** Further properties: the queue of a run *)

Module extras_worker.
Import download_worker worker_props worker_facts pinterest_urls collector_props2.

Section WithSession.
Context {lib : PyLib} {session : Session}.
Context (str_exc : exn -> string).

(** X25: the queue that [_build_download_queue] returns holds no address
    twice and no address of a profile: each address in it is classified as
    not a profile by [is_profile_url], and is one of the sources or the
    canonical address of a pin found on a profile. *)
Theorem queue_has_no_duplicate_and_no_profile
    (fuel : nat) (source_urls : list string) (max_profile_pins : Z)
    (cancelled : nat -> bool) (w w' : World) (q : QueuePayload) :
  _build_download_queue str_exc fuel source_urls max_profile_pins cancelled w
  = (Ok (Some q), w') ->
  NoDup (pin_urls q)
  ∧ Forall (fun address =>
              is_profile_url address = Ok false
              ∧ (address ∈ source_urls ∨ canonical_pin address))
      (pin_urls q).
Proof. apply build_queue_shape. Qed.

(** X26: when no source is the address of a profile and the run is not
    cancelled, [_build_download_queue] requests nothing: the queue is the
    sources with later repetitions removed, there is no note, nothing is
    counted as discovered, and the state of the network is left as it
    was. *)
Theorem pin_sources_pass_through
    (fuel : nat) (source_urls : list string) (max_profile_pins : Z) (w : World) :
  Forall (fun address => is_profile_url address = Ok false) source_urls ->
  _build_download_queue str_exc fuel source_urls max_profile_pins (fun _ => false) w
  = (Ok (Some {| pin_urls := _dedupe_urls source_urls;
                 queue_notes := [];
                 discovered := 0 |}), w).
Proof.
  intros Hall. unfold _build_download_queue, Net.bind.
  by rewrite (expand_sources_plain str_exc fuel max_profile_pins source_urls _ _ w Hall).
Qed.
End WithSession.

Lemma queue_has_no_duplicate_and_no_profile_witness :
  NoDup (pin_urls Examples.queue_of_sources)
  ∧ Forall (fun address =>
              is_profile_url (lib := Examples.example_lib) address = Ok false
              ∧ (address ∈ Examples.queue_sources ∨ canonical_pin address))
      (pin_urls Examples.queue_of_sources).
Proof.
  apply (queue_has_no_duplicate_and_no_profile (lib := Examples.example_lib)
           (session := Examples.profile_site) (fun _ => "")
           3 Examples.queue_sources 2 (fun _ => false) tt tt).
  vm_compute. reflexivity.
Defined.

Lemma pin_sources_pass_through_witness :
  _build_download_queue (lib := Examples.example_lib) (session := Examples.profile_site)
    (fun _ => "") 0 Examples.pin_sources 0 (fun _ => false) tt
  = (Ok (Some {| pin_urls := _dedupe_urls Examples.pin_sources;
                 queue_notes := [];
                 discovered := 0 |}), tt).
Proof.
  apply (pin_sources_pass_through (lib := Examples.example_lib)
           (session := Examples.profile_site)).
  repeat apply Forall_cons_2; try apply Forall_nil_2; vm_compute; reflexivity.
Defined.

End extras_worker.

(** ** The extension of a saved file *)

Module suffix_facts.
Import string_facts text_props file_props strip_facts paths_facts normalize_facts.
Import pathlib_facts downloader_facts filename_facts downloader.

Lemma rfind_dot_none s : forall i,
  Py.all_c not_dot s = true -> Py.rfind_from "." i s = None.
Proof.
  induction s as [|c s IH]; intros i; cbn [Py.rfind_from Py.startswith Py.all_c]; [done|].
  intros [Hc Hs]%andb_prop. rewrite (IH _ Hs). unfold not_dot in Hc.
  rewrite Ascii.eqb_sym. by destruct (Ascii.eqb c ".").
Qed.

(** The last full stop of a text. *)
Lemma rfind_dot_app stem r : forall i,
  Py.all_c not_dot r = true ->
  Py.rfind_from "." i (stem ++ String "." r) = Some (i + Py.len stem)%nat.
Proof.
  induction stem as [|c stem IH]; intros i Hr.
  - rewrite app_nil_l. cbn [Py.rfind_from Py.startswith Py.len String.length].
    rewrite (rfind_dot_none _ _ Hr). cbn [Ascii.eqb Bool.eqb andb]. by rewrite Nat.add_0_r.
  - rewrite app_cons. cbn [Py.rfind_from]. rewrite (IH _ Hr).
    cbn [Py.len String.length]. f_equal. unfold Py.len. lia.
Qed.

Lemma rfind_dot_inv s : forall i j,
  Py.rfind_from "." i s = Some j ->
  exists stem r, s = stem ++ String "." r ∧ j = (i + Py.len stem)%nat
                 ∧ Py.all_c not_dot r = true.
Proof.
  induction s as [|c s IH]; intros i j; cbn [Py.rfind_from Py.startswith]; [discriminate|].
  destruct (Py.rfind_from "." (S i) s) as [j'|] eqn:Hr.
  - intros [= <-]. apply IH in Hr as (stem & r & -> & -> & Hdot).
    exists (String c stem), r. rewrite app_cons. split; [done|]. split; [|done].
    cbn [Py.len String.length]. unfold Py.len. lia.
  - destruct (Ascii.eqb "." c) eqn:Hc; cbn [andb]; [|discriminate].
    apply Ascii.eqb_eq in Hc as <-. intros [= <-].
    exists "", s. rewrite app_nil_l. split; [done|].
    cbn [Py.len String.length]. split; [lia|].
    clear IH. revert Hr. generalize (S i). induction s as [|d s IH]; intros k; [done|].
    cbn [Py.rfind_from Py.startswith Py.all_c].
    destruct (Py.rfind_from "." (S k) s) eqn:Hs; [discriminate|].
    unfold not_dot. rewrite (Ascii.eqb_sym d "."). destruct (Ascii.eqb "." d); [discriminate|].
    intros _. by apply (IH (S k)).
Qed.

Lemma split_single sep s :
  Py.all_c (fun c => negb (Ascii.eqb c sep)) s = true -> Py.split sep s = [s].
Proof.
  induction s as [|c s IH]; [done|]. cbn [Py.all_c Py.split].
  intros [Hc Hs]%andb_prop. apply negb_true_iff in Hc. by rewrite Hc, (IH Hs).
Qed.

(** A single component is its own name. *)
Lemma name_single s :
  s <> "" -> s <> "." -> Py.all_c not_slash s = true -> pathlib.name s = s.
Proof.
  intros Hne Hdot Hs. unfold pathlib.name. rewrite (split_single "/" s Hs).
  cbn [List.filter].
  destruct s as [|c s]; [done|]. cbn [Py.truthy andb].
  destruct (String.eqb (String c s) ".") eqn:He; [by apply String.eqb_eq in He|done].
Qed.

(** The suffix has one full stop, the first character. *)
Lemma suffix_one_dot p :
  pathlib.suffix p = ""
  ∨ exists r, pathlib.suffix p = String "." r ∧ r <> ""
              ∧ Py.all_c not_dot r = true ∧ Py.all_c not_slash r = true.
Proof.
  destruct (suffix_shape p) as [He|(r0 & He0 & Hr0 & Hs0)]; [by left|]. right.
  revert He0 Hs0. unfold pathlib.suffix. cbv zeta.
  destruct (Py.rfind "." (pathlib.name p)) as [i|] eqn:Hr; [|discriminate].
  destruct ((0 <? i)%nat && _); [|discriminate].
  apply rfind_dot_inv in Hr as (stem & r & Hname & -> & Hdot). rewrite Hname.
  cbn [Nat.add]. rewrite drop_app. intros [= <-] Hs.
  exists r. split; [done|]. split; [done|]. split; [done|].
  cbn [Py.all_c] in Hs. by apply andb_prop in Hs as [_ Hs].
Qed.

Lemma lower_c_not_dot c : not_dot c = true -> not_dot (Py.lower_c c) = true.
Proof. destruct c as [[] [] [] [] [] [] [] []]; vm_compute; congruence. Qed.

Lemma lower_not_dot s : Py.all_c not_dot s = true -> Py.all_c not_dot (Py.lower s) = true.
Proof.
  induction s as [|c s IH]; [done|]. cbn [Py.all_c Py.lower].
  intros [Hc Hs]%andb_prop. by rewrite lower_c_not_dot, IH.
Qed.

(** Reading the suffix back from a stem and an extension. *)
Lemma suffix_of_app stem r :
  stem <> "" -> Py.all_c not_slash stem = true ->
  r <> "" -> Py.all_c not_dot r = true -> Py.all_c not_slash r = true ->
  pathlib.name (stem ++ String "." r) = stem ++ String "." r
  ∧ pathlib.suffix (stem ++ String "." r) = String "." r.
Proof.
  intros Hstem Hs Hr Hdot Hrs.
  assert (Hname : pathlib.name (stem ++ String "." r) = stem ++ String "." r).
  { apply name_single.
    - by apply app_nonempty.
    - destruct stem as [|c stem]; [done|]. rewrite app_cons. intros [= _ H].
      destruct stem; discriminate H.
    - rewrite all_c_app. cbn [Py.all_c]. rewrite Hs, Hrs. reflexivity. }
  split; [exact Hname|].
  unfold pathlib.suffix. cbv zeta. rewrite Hname. unfold Py.rfind.
  rewrite (rfind_dot_app stem r 0 Hdot). cbn [Nat.add].
  rewrite len_app. cbn [Py.len String.length].
  assert (H1 : (0 <? Py.len stem)%nat = true).
  { apply Nat.ltb_lt. destruct stem; [done|]. cbn [Py.len String.length]. lia. }
  assert (H2 : (Py.len stem <? Py.len stem + S (String.length r) - 1)%nat = true).
  { apply Nat.ltb_lt. destruct r; [done|]. cbn [String.length]. lia. }
  unfold Py.len in *. rewrite H1, H2. cbn [andb]. apply drop_app.
Qed.

Lemma table_one_dot key ext :
  lookup key CONTENT_TYPE_TO_EXT = Some ext ->
  exists r, ext = String "." r ∧ r <> "" ∧ Py.all_c not_dot r = true
            ∧ Py.all_c not_slash r = true.
Proof.
  unfold CONTENT_TYPE_TO_EXT, IMAGE_CONTENT_TYPE_TO_EXT, VIDEO_CONTENT_TYPE_TO_EXT.
  cbn [app lookup].
  repeat (destruct (String.eqb key _);
          [intros [= <-]; eexists; split; [reflexivity|];
           split; [discriminate|split; reflexivity]|]).
  discriminate.
Qed.

Section WithLib.
Context {lib : PyLib}.

Lemma detect_extension_one_dot media_url basename content_type ext :
  _detect_extension media_url basename content_type = Ok ext ->
  exists r, ext = String "." r ∧ r <> "" ∧ Py.all_c not_dot r = true
            ∧ Py.all_c not_slash r = true.
Proof.
  unfold _detect_extension. cbv zeta.
  destruct (Py.truthy (Py.lower (pathlib.suffix basename))) eqn:Ht.
  - intros [= <-]. destruct (suffix_one_dot basename) as [He|(r & He & Hr & Hd & Hs)].
    + rewrite He in Ht. discriminate.
    + destruct (String.eqb (Py.lower (pathlib.suffix basename)) ".jpeg") eqn:Hj.
      * exists "jpg". split; [reflexivity|]. split; [discriminate|]. split; reflexivity.
      * rewrite He. cbn [Py.lower]. exists (Py.lower r). split; [reflexivity|].
        split; [by apply lower_nonempty|].
        split; [by apply lower_not_dot|by apply lower_not_slash].
  - destruct (lookup _ CONTENT_TYPE_TO_EXT) as [v|] eqn:Hl.
    + intros [= <-]. by apply table_one_dot in Hl.
    + destruct (media.infer_media_type_from_url media_url) as [mt|e]; cbn [rbind];
        [|discriminate].
      destruct (bool_decide (mt = Some "video")); intros [= <-];
        (eexists; split; [reflexivity|]; split; [discriminate|split; reflexivity]).
Qed.

Lemma build_filename_suffix (unquote : string -> string)
    media_url content_type prefix name :
  _build_filename unquote media_url content_type prefix = Ok name ->
  exists parsed,
    urllib.urlparse media_url = Ok parsed
    ∧ _detect_extension media_url (unquote (pathlib.name (urllib.path parsed))) content_type
      = Ok (pathlib.suffix name)
    ∧ pathlib.name name = name.
Proof.
  unfold _build_filename.
  destruct (urllib.urlparse media_url) as [parsed|e]; cbn [rbind]; [|discriminate].
  cbv zeta.
  destruct (_detect_extension media_url _ content_type) as [ext|e] eqn:Hext;
    cbn [rbind]; [|discriminate].
  destruct (detect_extension_one_dot _ _ _ _ Hext) as (r & -> & Hr & Hd & Hs).
  intros [= <-]. exists parsed. split; [done|].
  set (stem := if Py.truthy prefix then _ else _).
  assert (Hstem : stem <> "" ∧ Py.all_c not_slash stem = true).
  { unfold stem. destruct (Py.truthy prefix);
      match goal with |- context [paths.sanitize_filename_default ?x] =>
        destruct (sanitize_default_shape x) as (H1 & H2 & _) end; by split. }
  destruct Hstem as [Hne Hslash].
  destruct (suffix_of_app stem r Hne Hslash Hr Hd Hs) as [Hname Hsuffix].
  by rewrite Hsuffix, Hname.
Qed.
End WithLib.
End suffix_facts.

(** ** Further properties: the extension of a saved file *)

Module extras_suffix.
Import downloader suffix_facts.

(** X27: the name that [_build_filename] returns is a single path
    component whose suffix, read back as [Path(name).suffix], is exactly
    the extension that [_detect_extension] chose for the address, whatever
    [unquote] does to the base name. *)
Theorem build_filename_keeps_extension
    {lib : PyLib} (unquote : string -> string)
    (media_url content_type prefix name : string) :
  _build_filename unquote media_url content_type prefix = Ok name ->
  exists parsed,
    urllib.urlparse media_url = Ok parsed
    ∧ _detect_extension media_url (unquote (pathlib.name (urllib.path parsed))) content_type
      = Ok (pathlib.suffix name)
    ∧ pathlib.name name = name.
Proof. apply build_filename_suffix. Qed.

Lemma build_filename_keeps_extension_witness :
  exists parsed,
    urllib.urlparse (lib := Examples.example_lib)
      "https://i.pinimg.com/originals/aa/bb/cc.JPEG" = Ok parsed
    ∧ _detect_extension (lib := Examples.example_lib)
        "https://i.pinimg.com/originals/aa/bb/cc.JPEG"
        (pathlib.name (urllib.path parsed)) ""
      = Ok (pathlib.suffix "pin_001_cc.jpg")
    ∧ pathlib.name "pin_001_cc.jpg" = "pin_001_cc.jpg".
Proof.
  apply (build_filename_keeps_extension (lib := Examples.example_lib) (fun s => s)
           "https://i.pinimg.com/originals/aa/bb/cc.JPEG" "" "pin_001").
  vm_compute. reflexivity.
Defined.

End extras_suffix.

(** ** Case and the suffix of a path *)

Module lower_facts.
Import string_facts text_props file_props strip_facts normalize_facts pathlib_facts.
Import suffix_facts.

Lemma lower_c_slash c : Ascii.eqb (Py.lower_c c) "/" = Ascii.eqb c "/".
Proof. destruct c as [[] [] [] [] [] [] [] []]; reflexivity. Qed.

Lemma lower_c_dot c : Ascii.eqb "." (Py.lower_c c) = Ascii.eqb "." c.
Proof. destruct c as [[] [] [] [] [] [] [] []]; reflexivity. Qed.

Lemma lower_c_idem c : Py.lower_c (Py.lower_c c) = Py.lower_c c.
Proof. destruct c as [[] [] [] [] [] [] [] []]; reflexivity. Qed.

Lemma lower_idem s : Py.lower (Py.lower s) = Py.lower s.
Proof. induction s as [|c s IH]; [done|]. cbn [Py.lower]. by rewrite lower_c_idem, IH. Qed.

Lemma split_lower s :
  Py.split "/" (Py.lower s) = List.map Py.lower (Py.split "/" s).
Proof.
  induction s as [|c s IH]; [done|]. cbn [Py.lower Py.split].
  rewrite lower_c_slash, IH. destruct (Ascii.eqb c "/"); [done|].
  by destruct (Py.split "/" s).
Qed.

Lemma named_lower x :
  Py.truthy (Py.lower x) && negb (String.eqb (Py.lower x) ".")
  = Py.truthy x && negb (String.eqb x ".").
Proof.
  destruct x as [|c x]; [done|]. cbn [Py.lower Py.truthy andb]. f_equal.
  cbn [String.eqb]. rewrite (Ascii.eqb_sym (Py.lower_c c)), (Ascii.eqb_sym c).
  rewrite lower_c_dot. by destruct x.
Qed.

Lemma filter_named_lower l :
  List.filter (fun x => Py.truthy x && negb (String.eqb x ".")) (List.map Py.lower l)
  = List.map Py.lower
      (List.filter (fun x => Py.truthy x && negb (String.eqb x ".")) l).
Proof.
  induction l as [|x l IH]; [done|]. cbn [List.map List.filter].
  rewrite named_lower, IH. by destruct (Py.truthy x && _).
Qed.

Lemma last_lower l : List.last (List.map Py.lower l) "" = Py.lower (List.last l "").
Proof.
  induction l as [|x l IH]; [done|]. destruct l as [|y l]; [done|]. exact IH.
Qed.

Lemma name_lower p : pathlib.name (Py.lower p) = Py.lower (pathlib.name p).
Proof. unfold pathlib.name. by rewrite split_lower, filter_named_lower, last_lower. Qed.

Lemma rfind_dot_lower s : forall i,
  Py.rfind_from "." i (Py.lower s) = Py.rfind_from "." i s.
Proof.
  induction s as [|c s IH]; intros i; [done|].
  cbn [Py.lower Py.rfind_from Py.startswith]. by rewrite IH, lower_c_dot.
Qed.

Lemma len_lower s : Py.len (Py.lower s) = Py.len s.
Proof.
  unfold Py.len. induction s as [|c s IH]; [done|]. cbn [Py.lower String.length].
  by rewrite IH.
Qed.

Lemma drop_lower s : forall n, Py.drop n (Py.lower s) = Py.lower (Py.drop n s).
Proof. induction s as [|c s IH]; intros [|n]; try done. cbn [Py.lower Py.drop]. apply IH. Qed.

(** Lowering a path lowers its suffix. *)
Lemma suffix_lower p : pathlib.suffix (Py.lower p) = Py.lower (pathlib.suffix p).
Proof.
  unfold pathlib.suffix. cbv zeta. rewrite name_lower. unfold Py.rfind.
  rewrite rfind_dot_lower, len_lower.
  destruct (Py.rfind_from "." 0 (pathlib.name p)) as [i|]; [|done].
  destruct ((0 <? i)%nat && _); [|done]. apply drop_lower.
Qed.

Lemma video_is_only_video suffix :
  Py.in_list suffix media.VIDEO_EXTENSIONS = true ->
  Py.in_list suffix media.NON_MEDIA_EXTENSIONS = false
  ∧ Py.in_list suffix media.IMAGE_EXTENSIONS = false.
Proof.
  unfold Py.in_list at 1, media.VIDEO_EXTENSIONS. cbn [existsb].
  repeat (destruct (String.eqb suffix _) eqn:E;
          [apply String.eqb_eq in E; subst suffix; split; reflexivity|clear E]).
  discriminate.
Qed.

Lemma image_is_only_image suffix :
  Py.in_list suffix media.IMAGE_EXTENSIONS = true ->
  Py.in_list suffix media.NON_MEDIA_EXTENSIONS = false.
Proof.
  unfold Py.in_list at 1, media.IMAGE_EXTENSIONS. cbn [existsb].
  repeat (destruct (String.eqb suffix _) eqn:E;
          [apply String.eqb_eq in E; subst suffix; reflexivity|clear E]).
  discriminate.
Qed.

Section WithLib.
Context {lib : PyLib}.

Lemma path_type_is_url_type url parsed kind :
  urllib.urlparse url = Ok parsed ->
  media_paths.infer_media_type_from_path (urllib.path parsed) = Some kind ->
  media.infer_media_type_from_url url = Ok (Some kind).
Proof.
  intros Hp. unfold media_paths.infer_media_type_from_path, media.infer_media_type_from_url.
  rewrite Hp. cbn [rbind]. cbv zeta. rewrite suffix_lower, lower_idem.
  destruct (Py.in_list (Py.lower (pathlib.suffix (urllib.path parsed)))
              media.VIDEO_EXTENSIONS) eqn:Hv.
  - intros [= <-]. destruct (video_is_only_video _ Hv) as [-> ->]. by cbn [orb].
  - destruct (Py.in_list (Py.lower (pathlib.suffix (urllib.path parsed)))
                media.IMAGE_EXTENSIONS) eqn:Hi; [|discriminate].
    intros [= <-]. by rewrite (image_is_only_image _ Hi).
Qed.
End WithLib.
End lower_facts.

(** ** Further properties: the two media classifiers *)

Module extras_media.
Import lower_facts.

(** X28: the two classifiers agree on extensions: when
    [infer_media_type_from_path] recognises the path of an address, then
    [infer_media_type_from_url] gives the address the same type. *)
Theorem path_type_agrees_with_url_type
    {lib : PyLib} (url : string) (parsed : urllib.ParseResult) (kind : string) :
  urllib.urlparse url = Ok parsed ->
  media_paths.infer_media_type_from_path (urllib.path parsed) = Some kind ->
  media.infer_media_type_from_url url = Ok (Some kind).
Proof. apply path_type_is_url_type. Qed.

Lemma path_type_agrees_with_url_type_witness :
  media.infer_media_type_from_url (lib := Examples.example_lib)
    "https://example.com/Clips/A.Final.MP4?x=1" = Ok (Some "video").
Proof.
  apply (path_type_agrees_with_url_type (lib := Examples.example_lib)
           "https://example.com/Clips/A.Final.MP4?x=1"
           {| urllib.scheme := "https"; urllib.netloc := "example.com";
              urllib.path := "/Clips/A.Final.MP4"; urllib.params := "";
              urllib.query := "x=1"; urllib.fragment := "" |}).
  - vm_compute. reflexivity.
  - vm_compute. reflexivity.
Defined.
End extras_media.
